(** * Presence service: hash ring, coordinator and presence node

    A shallow embedding of the routing fabric of the presence service:
    the consistent-hash ring ([ConsistentHash], common/consistent-hash.js),
    the directory client (common/redis-client.js), the token helpers
    (common/auth.js), the coordinator's HTTP handlers and the WebSocket
    presence node (coordinator/server.js), and the client SDK
    (client/sdk.js).

    Conventions.
    - A JavaScript string is a Rocq [string]: the sequence of bytes of its
      UTF-8 encoding, which is what Node's [Hash.update] feeds to the digest.
    - A JavaScript number that the code uses as an integer is a [Z]; the
      value [NaN] is [None] where the code can produce it.
    - A JavaScript object used as a dictionary and a Redis hash are [gmap]s
      from field names to values; a [Set] is a [gset]. *)

From Stdlib Require Import ZArith List String Ascii Lia.
From stdpp Require Import base option list gmap sets strings pretty sorting.

Set Warnings "-register-all,-clear-no-such-hyp".

Local Open Scope Z_scope.

(** ** The MD5 digest (RFC 1321), as computed by [crypto.createHash('md5')] *)

Module MD5.

Definition mask32 : Z := 0xffffffff.

Definition wrap32 (x : Z) : Z := Z.land x mask32.

Definition add32 (x y : Z) : Z := wrap32 (x + y).

Definition not32 (x : Z) : Z := Z.lxor x mask32.

Definition rotl32 (x : Z) (c : Z) : Z :=
  wrap32 (Z.lor (Z.shiftl x c) (Z.shiftr x (32 - c))).

(** Per-round shift amounts. *)
Definition shifts : list Z :=
  [7; 12; 17; 22; 7; 12; 17; 22; 7; 12; 17; 22; 7; 12; 17; 22;
   5; 9; 14; 20; 5; 9; 14; 20; 5; 9; 14; 20; 5; 9; 14; 20;
   4; 11; 16; 23; 4; 11; 16; 23; 4; 11; 16; 23; 4; 11; 16; 23;
   6; 10; 15; 21; 6; 10; 15; 21; 6; 10; 15; 21; 6; 10; 15; 21].

(** The sine table: [floor (2^32 * |sin (i + 1)|)]. *)
Definition sines : list Z :=
  [0xd76aa478; 0xe8c7b756; 0x242070db; 0xc1bdceee;
   0xf57c0faf; 0x4787c62a; 0xa8304613; 0xfd469501;
   0x698098d8; 0x8b44f7af; 0xffff5bb1; 0x895cd7be;
   0x6b901122; 0xfd987193; 0xa679438e; 0x49b40821;
   0xf61e2562; 0xc040b340; 0x265e5a51; 0xe9b6c7aa;
   0xd62f105d; 0x02441453; 0xd8a1e681; 0xe7d3fbc8;
   0x21e1cde6; 0xc33707d6; 0xf4d50d87; 0x455a14ed;
   0xa9e3e905; 0xfcefa3f8; 0x676f02d9; 0x8d2a4c8a;
   0xfffa3942; 0x8771f681; 0x6d9d6122; 0xfde5380c;
   0xa4beea44; 0x4bdecfa9; 0xf6bb4b60; 0xbebfbc70;
   0x289b7ec6; 0xeaa127fa; 0xd4ef3085; 0x04881d05;
   0xd9d4d039; 0xe6db99e5; 0x1fa27cf8; 0xc4ac5665;
   0xf4292244; 0x432aff97; 0xab9423a7; 0xfc93a039;
   0x655b59c3; 0x8f0ccc92; 0xffeff47d; 0x85845dd1;
   0x6fa87e4f; 0xfe2ce6e0; 0xa3014314; 0x4e0811a1;
   0xf7537e82; 0xbd3af235; 0x2ad7d2bb; 0xeb86d391].

(** The four chaining words A, B, C, D. *)
Record state := State { sA : Z; sB : Z; sC : Z; sD : Z }.

Definition init : state :=
  State 0x67452301 0xefcdab89 0x98badcfe 0x10325476.

(** Little-endian 32-bit word from four bytes, and back. *)
Definition word_of_bytes (b0 b1 b2 b3 : Z) : Z :=
  Z.lor b0 (Z.lor (Z.shiftl b1 8) (Z.lor (Z.shiftl b2 16) (Z.shiftl b3 24))).

Definition bytes_of_word (w : Z) : list Z :=
  [Z.land w 255; Z.land (Z.shiftr w 8) 255;
   Z.land (Z.shiftr w 16) 255; Z.land (Z.shiftr w 24) 255].

Fixpoint words_of_bytes (n : nat) (bs : list Z) : list Z :=
  match n, bs with
  | S n', b0 :: b1 :: b2 :: b3 :: rest =>
      word_of_bytes b0 b1 b2 b3 :: words_of_bytes n' rest
  | _, _ => []
  end.

(** Padding: a single 1 bit, zeros up to 56 mod 64, then the bit length
    as a 64-bit little-endian integer. *)
Definition pad_zeros (len : nat) : nat :=
  ((119 - len mod 64) mod 64)%nat.

Definition length_bytes (len : nat) : list Z :=
  let bits := Z.of_nat len * 8 in
  map (fun k => Z.land (Z.shiftr bits (8 * Z.of_nat k)) 255) (seq 0 8).

Definition pad (msg : list Z) : list Z :=
  let len := length msg in
  msg ++ [128] ++ repeat 0 (pad_zeros len) ++ length_bytes len.

(** One of the 64 operations of the compression function. *)
Definition round_fun (i : nat) (b c d : Z) : Z :=
  if (i <? 16)%nat then Z.lor (Z.land b c) (Z.land (not32 b) d)
  else if (i <? 32)%nat then Z.lor (Z.land d b) (Z.land (not32 d) c)
  else if (i <? 48)%nat then Z.lxor b (Z.lxor c d)
  else Z.lxor c (Z.lor b (not32 d)).

Definition round_index (i : nat) : nat :=
  if (i <? 16)%nat then i
  else if (i <? 32)%nat then ((5 * i + 1) mod 16)%nat
  else if (i <? 48)%nat then ((3 * i + 5) mod 16)%nat
  else ((7 * i) mod 16)%nat.

Definition step (m : list Z) (st : state) (i : nat) : state :=
  let f := round_fun i (sB st) (sC st) (sD st) in
  let f' := add32 (add32 (add32 f (sA st)) (nth i sines 0))
                  (nth (round_index i) m 0) in
  State (sD st) (add32 (sB st) (rotl32 f' (nth i shifts 0))) (sB st) (sC st).

Definition compress (st : state) (m : list Z) : state :=
  let r := fold_left (step m) (seq 0 64) st in
  State (add32 (sA st) (sA r)) (add32 (sB st) (sB r))
        (add32 (sC st) (sC r)) (add32 (sD st) (sD r)).

Fixpoint blocks (n : nat) (bs : list Z) : list (list Z) :=
  match n with
  | O => []
  | S n' =>
      match bs with
      | [] => []
      | _ => words_of_bytes 16 (firstn 64 bs) :: blocks n' (skipn 64 bs)
      end
  end.

Definition output (st : state) : list Z :=
  bytes_of_word (sA st) ++ bytes_of_word (sB st) ++
  bytes_of_word (sC st) ++ bytes_of_word (sD st).

(** The 16-byte digest of a byte string. *)
Definition digest (msg : list Z) : list Z :=
  let p := pad msg in
  output (fold_left compress (blocks (length p) p) init).

End MD5.

(** ** JavaScript values used by the handlers *)

Module JS.

(** Truthiness of a string-or-undefined value: [undefined], [null] and the
    empty string are falsy. *)
Definition truthy (v : option string) : bool :=
  match v with
  | Some s => negb (String.eqb s "")
  | None => false
  end.

(** [String(n)] for an integer-valued number, [NaN] being [None]: the
    property name under which [obj[n]] is looked up. *)
Definition key (n : option Z) : string :=
  match n with
  | Some z => pretty z
  | None => "NaN"
  end.

(** The remainder operator [%] on integer-valued numbers: the result has
    the sign of the dividend, and [x % 0] is [NaN]. *)
Definition rem (a : option Z) (b : Z) : option Z :=
  match a with
  | Some x => if b =? 0 then None else Some (Z.rem x b)
  | None => None
  end.

(** Value of a digit in radix 16, for [parseInt (_, 16)]. *)
Definition digit_value (c : ascii) : option Z :=
  let n := Z.of_N (N_of_ascii c) in
  if (48 <=? n) && (n <=? 57) then Some (n - 48)
  else if (97 <=? n) && (n <=? 102) then Some (n - 87)
  else if (65 <=? n) && (n <=? 70) then Some (n - 55)
  else None.

Fixpoint parse_digits (s : string) (acc : Z) : Z :=
  match s with
  | String c s' =>
      match digit_value c with
      | Some d => parse_digits s' (acc * 16 + d)
      | None => acc
      end
  | EmptyString => acc
  end.

(** [parseInt (s, 16)] on a string that starts with neither white space,
    a sign nor a [0x] prefix (a hex digest never does): the value of the
    longest prefix of hexadecimal digits, [NaN] when that prefix is
    empty. *)
Definition parseInt16 (s : string) : option Z :=
  match s with
  | String c _ =>
      match digit_value c with
      | Some _ => Some (parse_digits s 0)
      | None => None
      end
  | EmptyString => None
  end.

(** The completion of an expression that can throw. *)
Inductive result (A : Type) :=
| Returns (a : A)
| Throws.

Arguments Returns {A} a.
Arguments Throws {A}.

(** An array index: a property name that is the canonical decimal form
    of an integer from 0 to 2^32 - 2. *)
Fixpoint decimal (s : string) (acc : N) : option N :=
  match s with
  | EmptyString => Some acc
  | String c s' =>
      let n := N_of_ascii c in
      if ((48 <=? n) && (n <=? 57))%N then decimal s' (acc * 10 + (n - 48))%N
      else None
  end.

Definition array_index (k : string) : option N :=
  match k with
  | EmptyString => None
  | _ =>
      match decimal k 0 with
      | Some n =>
          if decide (pretty n = k /\ (n < 4294967295)%N) then Some n else None
      | None => None
      end
  end.

(** The order of the own properties of an object: the array indices
    first, in ascending numeric order, then the other names in the order
    of their creation, given here by the rank of each name. *)
Definition precedes (rank : string -> nat) (k1 k2 : string) : Prop :=
  match array_index k1, array_index k2 with
  | Some n1, Some n2 => (n1 <= n2)%N
  | Some _, None => True
  | None, Some _ => False
  | None, None => (rank k1 <= rank k2)%nat
  end.

Global Instance precedes_dec (rank : string -> nat) (k1 k2 : string) :
  Decision (precedes rank k1 k2).
Proof.
  unfold precedes. destruct (array_index k1), (array_index k2); apply _.
Defined.

(** [Object.entries (o)] for an object [o] whose properties are those of
    the map [m]. *)
Definition entries (rank : string -> nat) (m : gmap string string)
  : list (string * string) :=
  merge_sort (fun e1 e2 => precedes rank e1.1 e2.1) (map_to_list m).

(** JSON values, for response bodies and frames. *)
Inductive json :=
| JNull
| JNum (n : Z)
| JStr (s : string)
| JArr (l : list json)
| JObj (fields : list (string * json)).

(** [JSON.stringify] turns [NaN] into [null]. *)
Definition json_number (n : option Z) : json :=
  match n with
  | Some z => JNum z
  | None => JNull
  end.

End JS.

(** ** The hash ring (common/consistent-hash.js) *)

Module Ring.

Record ConsistentHash := {
  vnodeCount : Z;
  vnodeMap : gmap string string   (* vnode id -> instance id *)
}.

(** [new ConsistentHash (vnodeCount)] *)
Definition new (vnodeCount : Z) : ConsistentHash :=
  {| vnodeCount := vnodeCount; vnodeMap := ∅ |}.

(** The bytes that [Hash.update (userId)] hashes. *)
Definition utf8_bytes (s : string) : list Z :=
  map (fun c => Z.of_N (N_of_ascii c)) (list_ascii_of_string s).

Definition hex_digit (n : Z) : ascii :=
  if n <? 10 then ascii_of_N (Z.to_N (48 + n))
  else ascii_of_N (Z.to_N (87 + n)).

(** [digest ('hex')]: two lower-case digits per byte. *)
Fixpoint hex_of_bytes (bs : list Z) : string :=
  match bs with
  | [] => EmptyString
  | b :: rest =>
      String (hex_digit (b / 16))
             (String (hex_digit (b mod 16)) (hex_of_bytes rest))
  end.

Definition md5_hex (s : string) : string :=
  hex_of_bytes (MD5.digest (utf8_bytes s)).

(** [getUserVnode (userId)] *)
Definition getUserVnode (h : ConsistentHash) (userId : string) : option Z :=
  let hash := md5_hex userId in
  JS.rem (JS.parseInt16 (substring 0 8 hash)) (vnodeCount h).

(** [getInstanceForVnode (vnodeId)]: [this.vnodeMap[vnodeId] || null] *)
Definition getInstanceForVnode (h : ConsistentHash) (vnodeId : option Z)
  : option string :=
  match vnodeMap h !! JS.key vnodeId with
  | Some i => if JS.truthy (Some i) then Some i else None
  | None => None
  end.

(** [getInstanceForUser (userId)] *)
Definition getInstanceForUser (h : ConsistentHash) (userId : string)
  : option string :=
  getInstanceForVnode h (getUserVnode h userId).

(** [setVnodeMapping (vnodeId, instanceId)] *)
Definition setVnodeMapping (h : ConsistentHash) (vnodeId : option Z)
    (instanceId : string) : ConsistentHash :=
  {| vnodeCount := vnodeCount h;
     vnodeMap := <[JS.key vnodeId := instanceId]> (vnodeMap h) |}.

(** [updateVnodeMappings (vnodeMappings)]: [Object.assign] copies every
    entry of the argument over the map and removes nothing. *)
Definition updateVnodeMappings (h : ConsistentHash)
    (vnodeMappings : gmap string string) : ConsistentHash :=
  {| vnodeCount := vnodeCount h;
     vnodeMap := vnodeMappings ∪ vnodeMap h |}.

(** [isUserInVnodes (userId, vnodes)]: [vnodes.includes (userVnode)]
    compares with SameValueZero, under which [NaN] is found in a list
    that holds [NaN]. The numbers of the list are integers or [NaN]. *)
Definition isUserInVnodes (h : ConsistentHash) (userId : string)
    (vnodes : list (option Z)) : bool :=
  bool_decide (getUserVnode h userId ∈ vnodes).

(** [getVnodeMap ()]: a copy of the map. *)
Definition getVnodeMap (h : ConsistentHash) : gmap string string :=
  vnodeMap h.

(** The reference formula of the specification: the first 32 bits of the
    MD5 digest of the UTF-8 bytes of the user id, read as an unsigned
    big-endian integer, reduced modulo the vnode count. *)
Definition first32 (digest : list Z) : Z :=
  fold_left (fun acc b => acc * 256 + b) (firstn 4 digest) 0.

Definition userVnode_ref (V : Z) (userId : string) : Z :=
  first32 (MD5.digest (utf8_bytes userId)) mod V.

End Ring.

(** ** Configuration (common/config.js) *)

Module Config.

(** The fields of the configuration object the handlers read. The
    assigned vnodes are the integers of [ASSIGNED_VNODES]; an entry that
    [Number] turns into [NaN] is outside the model. *)
Record t := {
  vnodeCount : Z;
  nodeId : string;
  assignedVnodes : list Z
}.

End Config.

(** ** The shared directory (common/redis-client.js)

    The Redis hashes [vnode:owners] and [vnode:load] and the string keys
    [user:<userId>]. Redis stores field names and values as strings. Expiry
    needs a clock and is not part of the model: an entry stays until it is
    deleted. *)

Module Directory.

Record t := {
  owners : gmap string string;   (* hash vnode:owners *)
  loads : gmap string string;    (* hash vnode:load *)
  users : gmap string string     (* string keys user:<userId> *)
}.

Definition empty : t := {| owners := ∅; loads := ∅; users := ∅ |}.

Definition USER_INSTANCE_KEY_PREFIX : string := "user:".

(** [updateVnodeOwners (vnodeMappings)]: nothing for an empty object,
    otherwise HMSET writes the given fields and keeps the others. *)
Definition updateVnodeOwners (d : t) (vnodeMappings : gmap string string) : t :=
  if decide (vnodeMappings = ∅) then d
  else {| owners := vnodeMappings ∪ owners d; loads := loads d; users := users d |}.

(** [updateVnodeLoads (vnodeLoads)] *)
Definition updateVnodeLoads (d : t) (vnodeLoads : gmap string string) : t :=
  if decide (vnodeLoads = ∅) then d
  else {| owners := owners d; loads := vnodeLoads ∪ loads d; users := users d |}.

(** [getAllVnodeOwners ()] *)
Definition getAllVnodeOwners (d : t) : gmap string string := owners d.

(** [cacheUserInstance (userId, instanceId)] *)
Definition cacheUserInstance (d : t) (userId instanceId : string) : t :=
  {| owners := owners d; loads := loads d;
     users := <[USER_INSTANCE_KEY_PREFIX +:+ userId := instanceId]> (users d) |}.

(** [getCachedUserInstance (userId)] *)
Definition getCachedUserInstance (d : t) (userId : string) : option string :=
  users d !! (USER_INSTANCE_KEY_PREFIX +:+ userId).

(** [client.hdel (VNODE_OWNERS_KEY, field)] *)
Definition hdelOwner (d : t) (field : string) : t :=
  {| owners := delete field (owners d); loads := loads d; users := users d |}.

End Directory.

(** ** The coordinator's HTTP handlers (coordinator/server.js)

    Each handler is a function from the coordinator's state (its local ring
    and the directory) and the request to the response and the new state.
    A failing directory operation (status 500) is not part of the model. *)

Module Coordinator.

Import JS.

Record State := {
  consistentHash : Ring.ConsistentHash;
  redis : Directory.t
}.

Record Response := { status : Z; body : json }.

Definition error (code : Z) (msg : string) : Response :=
  {| status := code; body := JObj [("error"%string, JStr msg)] |}.

Record RegisterBody := { reg_instanceId : option string; reg_weight : option Z }.

Record UnregisterBody := { unreg_instanceId : option string }.

Record RouteQuery := { route_userId : option string }.

(** [Math.max (1, Math.floor (config.vnodeCount * weight / 100))] *)
Definition desiredVnodes (V weight : Z) : Z := Z.max 1 (V * weight / 100).

(** The ids the loop [for (let i = 0; i < config.vnodeCount; i++)] visits. *)
Definition vnodeIds (V : Z) : list Z := map Z.of_nat (seq 0 (Z.to_nat V)).

(** The body of the scanning loop, over the ids still to visit. *)
Fixpoint scan (currentVnodeMap : gmap string string) (vnodeCount : Z)
    (ids : list Z) (availableVnodes : list Z) : list Z :=
  match ids with
  | [] => availableVnodes
  | i :: rest =>
      if negb (truthy (currentVnodeMap !! key (Some i))) then
        let availableVnodes := availableVnodes ++ [i] in
        if Z.of_nat (length availableVnodes) >=? vnodeCount
        then availableVnodes
        else scan currentVnodeMap vnodeCount rest availableVnodes
      else scan currentVnodeMap vnodeCount rest availableVnodes
  end.

(** The object built by [vnodeMappings[vnodeId] = instanceId]. *)
Definition mappingsFor (vnodes : list Z) (instanceId : string)
  : gmap string string :=
  fold_left (fun m vnodeId => <[key (Some vnodeId) := instanceId]> m) vnodes ∅.

Section Handlers.

Variable config : Config.t.

(** POST /nodes/register *)
Definition register (st : State) (req : RegisterBody) : Response * State :=
  let instanceId := reg_instanceId req in
  let weight := default 1 (reg_weight req) in
  if negb (truthy instanceId) then (error 400 "instanceId is required", st)
  else
    let instanceId := default ""%string instanceId in
    let vnodeCount := desiredVnodes (Config.vnodeCount config) weight in
    let currentVnodeMap := Directory.getAllVnodeOwners (redis st) in
    let availableVnodes :=
      scan currentVnodeMap vnodeCount (vnodeIds (Config.vnodeCount config)) [] in
    if bool_decide (length availableVnodes = 0%nat)
    then (error 409 "No available vnodes", st)
    else
      let vnodeMappings := mappingsFor availableVnodes instanceId in
      let st' :=
        {| redis := Directory.updateVnodeOwners (redis st) vnodeMappings;
           consistentHash :=
             Ring.updateVnodeMappings (consistentHash st) vnodeMappings |} in
      ({| status := 201;
          body := JObj [("instanceId"%string, JStr instanceId);
                        ("assignedVnodes"%string, JArr (JNum <$> availableVnodes))] |},
       st').

(** [Object.entries (currentVnodeMap).filter (...).map (([vnodeId]) => vnodeId)]:
    the field names, which are strings, of the entries owned by the
    instance, in the order of [Object.entries]. The object is the one the
    Redis client builds from the reply to HGETALL, so a field that is not
    an array index comes at the position [rank] it has in that reply. *)
Definition vnodesOf (rank : string -> nat) (currentVnodeMap : gmap string string)
    (instanceId : string) : list string :=
  fst <$> filter (fun e => e.2 = instanceId) (entries rank currentVnodeMap).

(** POST /nodes/unregister, with the order [rank] in which Redis lists
    the fields of the owners hash when the handler reads it. *)
Definition unregister (rank : string -> nat) (st : State) (req : UnregisterBody)
  : Response * State :=
  let instanceId := unreg_instanceId req in
  if negb (truthy instanceId) then (error 400 "instanceId is required", st)
  else
    let instanceId := default ""%string instanceId in
    let currentVnodeMap := Directory.getAllVnodeOwners (redis st) in
    let vnodesToRemove := vnodesOf rank currentVnodeMap instanceId in
    if bool_decide (length vnodesToRemove = 0%nat)
    then (error 404 "No vnodes found for this instance", st)
    else
      let redis' := fold_left Directory.hdelOwner vnodesToRemove (redis st) in
      (* the local cache: a copy of the map without the removed vnodes is
         merged back into the map *)
      let vnodeMap :=
        fold_left (fun m vnodeId => delete vnodeId m) vnodesToRemove
                  (Ring.getVnodeMap (consistentHash st)) in
      let st' :=
        {| redis := redis';
           consistentHash :=
             Ring.updateVnodeMappings (consistentHash st) vnodeMap |} in
      ({| status := 200;
          body := JObj [("instanceId"%string, JStr instanceId);
                        ("removedVnodes"%string, JArr (JStr <$> vnodesToRemove))] |},
       st').

(** GET /route *)
Definition route (st : State) (req : RouteQuery) : Response * State :=
  let userId := route_userId req in
  if negb (truthy userId) then (error 400 "userId is required", st)
  else
    let userId := default ""%string userId in
    let cachedInstance := Directory.getCachedUserInstance (redis st) userId in
    if truthy cachedInstance then
      ({| status := 200;
          body := JObj [("userId"%string, JStr userId);
                        ("instance"%string, JStr (default ""%string cachedInstance));
                        ("source"%string, JStr "cache")] |},
       st)
    else
      let vnodeId := Ring.getUserVnode (consistentHash st) userId in
      let instance := Ring.getInstanceForVnode (consistentHash st) vnodeId in
      let '(instance, ring') :=
        if negb (truthy instance) then
          let vnodeMap := Directory.getAllVnodeOwners (redis st) in
          let instance := vnodeMap !! key vnodeId in
          if truthy instance
          then (instance,
                Ring.setVnodeMapping (consistentHash st) vnodeId
                                     (default ""%string instance))
          else (instance, consistentHash st)
        else (instance, consistentHash st) in
      if negb (truthy instance)
      then (error 404 "No instance available for this user",
            {| redis := redis st; consistentHash := ring' |})
      else
        let instance := default ""%string instance in
        ({| status := 200;
            body := JObj [("userId"%string, JStr userId);
                          ("vnode"%string, json_number vnodeId);
                          ("instance"%string, JStr instance);
                          ("source"%string, JStr "hash")] |},
         {| redis := Directory.cacheUserInstance (redis st) userId instance;
            consistentHash := ring' |}).

(** [loadVnodeMappings ()], run at start-up. *)
Definition loadVnodeMappings (st : State) : State :=
  {| redis := redis st;
     consistentHash :=
       Ring.updateVnodeMappings (consistentHash st)
                                (Directory.getAllVnodeOwners (redis st)) |}.

Definition initial (d : Directory.t) : State :=
  loadVnodeMappings
    {| redis := d; consistentHash := Ring.new (Config.vnodeCount config) |}.

End Handlers.

End Coordinator.

(** ** Token helpers (common/auth.js) *)

Module Auth.

(** The parts of the upgrade request that [extractToken] reads. *)
Record Request := {
  authorization : option string;   (* req.headers.authorization *)
  url : option string;             (* req.url *)
  cookie_token : option string     (* req.cookies.token *)
}.

(** [s.split (' ')] *)
Fixpoint split_go (sep : ascii) (s cur : string) : list string :=
  match s with
  | EmptyString => [cur]
  | String c s' =>
      if Ascii.eqb c sep then cur :: split_go sep s' EmptyString
      else split_go sep s' (cur +:+ String c EmptyString)
  end.

Definition split (sep : ascii) (s : string) : list string :=
  split_go sep s EmptyString.

Section Library.

(** [jwt.verify (token, config.jwtSecret)]: [None] when verification
    throws, otherwise the [userId] field of the payload, if it has one; a
    payload whose [userId] is not a string is outside the model. *)
Variable jwt_verify : string -> option (option string).

(** [new URL (url, 'http://localhost').searchParams.get ('token')]:
    [Throws] when the URL constructor rejects the request target (as it
    does for [//]), otherwise the value of the parameter, if there is
    one. *)
Variable url_token : string -> JS.result (option string).

(** [extractUserId (token)] *)
Definition extractUserId (token : string) : option string :=
  match jwt_verify token with
  | Some decoded => decoded
  | None => None
  end.

(** [extractToken (req)]: the function has no [try], so the exception
    of the URL constructor leaves it. *)
Definition extractToken (req : Request) : JS.result (option string) :=
  let token : option string := None in
  let token :=
    if JS.truthy (authorization req) then
      match split " " (default EmptyString (authorization req)) with
      | [p0; p1] => if String.eqb p0 "Bearer" then Some p1 else token
      | _ => token
      end
    else token in
  match
    (if negb (JS.truthy token) && JS.truthy (url req)
     then url_token (default EmptyString (url req))
     else JS.Returns token)
  with
  | JS.Throws => JS.Throws
  | JS.Returns token =>
      let token :=
        if negb (JS.truthy token) && JS.truthy (cookie_token req)
        then cookie_token req
        else token in
      JS.Returns token
  end.

End Library.

End Auth.

(** ** The presence node (the WebSocket server of coordinator/server.js)

    The node reacts to events: a new connection, the completion of the
    [producer.send] a connection handler awaits, the close of a socket and
    a message from the bus. Each reaction is a function from the node's
    state to the new state and the list of effects it has on the outside.
    The handlers that touch neither [clients] nor [onlineUsers] (the ping
    timer and the [message] and [error] listeners) are left out. *)

Module Node.

Import JS.

Inductive ReadyState := OPEN | CLOSING | CLOSED.

Global Instance ReadyState_eq_dec : EqDecision ReadyState.
Proof. solve_decision. Defined.

(** A message of the topic [user_status_events]. *)
Record Event := {
  ev_userId : string;
  ev_action : string;
  ev_timestamp : Z;
  ev_nodeId : string
}.

Inductive Effect :=
| Close (ws : nat) (code : Z) (reason : string)   (* ws.close (code, reason) *)
| SendFrame (ws : nat) (frame : json)             (* ws.send (JSON.stringify (frame)) *)
| Publish (ev : Event)                            (* a producer.send that succeeded *)
| LogError (msg : string).                        (* logger.error *)

Record State := {
  clients : gmap string nat;             (* userId -> WebSocket *)
  onlineUsers : gmap Z (gset string);    (* vnodeId -> Set of userId *)
  sockets : gmap nat ReadyState;         (* readyState of every socket *)
  pending : gmap nat (string * Z * Z);   (* handlers suspended at producer.send:
                                            userId, vnodeId, Date.now () *)
  closeListeners : gmap nat (string * Z) (* the 'close' listener of a socket,
                                            with its userId and vnodeId *)
}.

Inductive Input :=
| Connection (ws : nat) (req : Auth.Request) (now : Z)
| SendDone (ws : nat) (ok : bool) (now : Z)
| SocketClosed (ws : nat) (ok : bool) (now : Z)
| BusMessage (ev : Event).

Definition set_clients (st : State) (c : gmap string nat) : State :=
  {| clients := c; onlineUsers := onlineUsers st; sockets := sockets st;
     pending := pending st; closeListeners := closeListeners st |}.

Definition set_onlineUsers (st : State) (o : gmap Z (gset string)) : State :=
  {| clients := clients st; onlineUsers := o; sockets := sockets st;
     pending := pending st; closeListeners := closeListeners st |}.

Definition set_sockets (st : State) (s : gmap nat ReadyState) : State :=
  {| clients := clients st; onlineUsers := onlineUsers st; sockets := s;
     pending := pending st; closeListeners := closeListeners st |}.

Definition set_pending (st : State) (p : gmap nat (string * Z * Z)) : State :=
  {| clients := clients st; onlineUsers := onlineUsers st; sockets := sockets st;
     pending := p; closeListeners := closeListeners st |}.

Definition set_closeListeners (st : State) (l : gmap nat (string * Z)) : State :=
  {| clients := clients st; onlineUsers := onlineUsers st; sockets := sockets st;
     pending := pending st; closeListeners := l |}.

(** [ws.close (code, reason)]: an open socket starts closing. *)
Definition ws_close (st : State) (ws : nat) (code : Z) (reason : string)
  : State * list Effect :=
  match sockets st !! ws with
  | Some OPEN => (set_sockets st (<[ws := CLOSING]> (sockets st)),
                  [Close ws code reason])
  | _ => (st, [])
  end.

(** The [catch] block of the connection handler. *)
Definition connection_failed (st : State) (ws : nat) : State * list Effect :=
  let '(st', effs) :=
    if bool_decide (sockets st !! ws = Some OPEN)
    then ws_close st ws 1011 "Internal server error"
    else (st, []) in
  (st', LogError "Error handling WebSocket connection" :: effs).

Section Handlers.

Variable config : Config.t.
Variable jwt_verify : string -> option (option string).
Variable url_token : string -> JS.result (option string).

Definition consistentHash : Ring.ConsistentHash :=
  Ring.new (Config.vnodeCount config).

(** The object built at start-up: an empty set per assigned vnode. *)
Definition initialOnlineUsers : gmap Z (gset string) :=
  fold_left (fun o vnodeId => <[vnodeId := ∅]> o) (Config.assignedVnodes config) ∅.

Definition initial : State :=
  {| clients := ∅; onlineUsers := initialOnlineUsers; sockets := ∅;
     pending := ∅; closeListeners := ∅ |}.

(** [isUserOwnedByThisNode (userId)]: [includes] finds [NaN] only in a
    list that holds [NaN], and the assigned vnodes are integers. *)
Definition isUserOwnedByThisNode (userId : string) : bool :=
  match Ring.getUserVnode consistentHash userId with
  | Some userVnodeId => bool_decide (userVnodeId ∈ Config.assignedVnodes config)
  | None => false
  end.

Definition statusEvent (userId action : string) (now : Z) : Event :=
  {| ev_userId := userId; ev_action := action; ev_timestamp := now;
     ev_nodeId := Config.nodeId config |}.

(** The connection handler up to its [await producer.send (...)]. An
    exception of [Auth.extractToken] is caught by the handler's [catch]
    block, like the others. *)
Definition connection (st : State) (ws : nat) (req : Auth.Request) (now : Z)
  : State * list Effect :=
  match Auth.extractToken url_token req with
  | Throws => connection_failed st ws
  | Returns token =>
      if negb (truthy token) then ws_close st ws 1008 "No token provided"
      else
        let userId := Auth.extractUserId jwt_verify (default EmptyString token) in
        if negb (truthy userId) then ws_close st ws 1008 "Invalid token"
        else
          let userId := default EmptyString userId in
          if negb (isUserOwnedByThisNode userId)
          then ws_close st ws 1008 "User does not belong to this node"
          else
            let st := set_clients st (<[userId := ws]> (clients st)) in
            match Ring.getUserVnode consistentHash userId with
            | Some vnodeId =>
                match onlineUsers st !! vnodeId with
                | Some users =>
                    let st :=
                      set_onlineUsers st
                        (<[vnodeId := users ∪ {[userId]}]> (onlineUsers st)) in
                    (set_pending st (<[ws := (userId, vnodeId, now)]> (pending st)),
                     [])
                | None => connection_failed st ws
                end
            | None => connection_failed st ws
            end
  end.

(** The rest of the connection handler, once [producer.send] has
    settled: the listeners are installed and the welcome frame is sent
    (a frame for a socket that is no longer open is dropped); a
    rejected send throws into the [catch] block. *)
Definition connection_resume (st : State) (ws : nat) (ok : bool) (now : Z)
  : State * list Effect :=
  match pending st !! ws with
  | Some (userId, vnodeId, sent) =>
      let st := set_pending st (delete ws (pending st)) in
      if ok then
        let st :=
          set_closeListeners st (<[ws := (userId, vnodeId)]> (closeListeners st)) in
        (st,
         Publish (statusEvent userId "online" sent) ::
         if bool_decide (sockets st !! ws = Some OPEN) then
           [SendFrame ws (JObj [("type"%string, JStr "welcome");
                                ("userId"%string, JStr userId);
                                ("nodeId"%string, JStr (Config.nodeId config));
                                ("timestamp"%string, JNum now)])]
         else [])
      else connection_failed st ws
  | None => (st, [])
  end.

(** The ['close'] event of a socket and its listener. *)
Definition socket_closed (st : State) (ws : nat) (ok : bool) (now : Z)
  : State * list Effect :=
  match sockets st !! ws with
  | Some CLOSED | None => (st, [])
  | Some _ =>
      let st := set_sockets st (<[ws := CLOSED]> (sockets st)) in
      match closeListeners st !! ws with
      | Some (userId, vnodeId) =>
          match onlineUsers st !! vnodeId with
          | Some users =>
              let st :=
                set_onlineUsers st
                  (<[vnodeId := users ∖ {[userId]}]> (onlineUsers st)) in
              let st := set_clients st (delete userId (clients st)) in
              (st,
               if ok then [Publish (statusEvent userId "offline" now)]
               else [LogError "Error sending offline event"])
          | None => (st, [LogError "Unhandled rejection in close listener"])
          end
      | None => (st, [])
      end
  end.

(** [eachMessage] of the consumer, on a message that parses. *)
Definition bus_message (st : State) (ev : Event) : State * list Effect :=
  let userId := ev_userId ev in
  let action := ev_action ev in
  if String.eqb (ev_nodeId ev) (Config.nodeId config) then (st, [])
  else if negb (isUserOwnedByThisNode userId) then (st, [])
  else
    match Ring.getUserVnode consistentHash userId with
    | Some vnodeId =>
        match onlineUsers st !! vnodeId with
        | Some users =>
            let st :=
              if String.eqb action "online" then
                set_onlineUsers st
                  (<[vnodeId := users ∪ {[userId]}]> (onlineUsers st))
              else if String.eqb action "offline" then
                set_onlineUsers st
                  (<[vnodeId := users ∖ {[userId]}]> (onlineUsers st))
              else st in
            (st,
             match clients st !! userId with
             | Some client =>
                 if bool_decide (sockets st !! client = Some OPEN) then
                   [SendFrame client
                      (JObj [("type"%string, JStr "status_update");
                             ("action"%string, JStr action);
                             ("timestamp"%string, JNum (ev_timestamp ev));
                             ("sourceNodeId"%string, JStr (ev_nodeId ev))])]
                 else []
             | None => []
             end)
        | None => (st, [LogError "Error processing Kafka message"])
        end
    | None => (st, [LogError "Error processing Kafka message"])
    end.

(** One reaction of the node. A ['connection'] event brings a socket
    that is new and open. *)
Definition step (st : State) (i : Input) : State * list Effect :=
  match i with
  | Connection ws req now =>
      match sockets st !! ws with
      | None => connection (set_sockets st (<[ws := OPEN]> (sockets st))) ws req now
      | Some _ => (st, [])
      end
  | SendDone ws ok now => connection_resume st ws ok now
  | SocketClosed ws ok now => socket_closed st ws ok now
  | BusMessage ev => bus_message st ev
  end.

(** The state and the effects after a sequence of events. *)
Definition run (st : State) (inputs : list Input) : State * list Effect :=
  fold_left (fun acc i => let '(st', effs) := step acc.1 i in (st', acc.2 ++ effs))
            inputs (st, []).

(** The maps [updateHeartbeat] writes: the node as owner of every
    assigned vnode, and the size of every vnode's set. [None] when the
    function throws before it writes. *)
Definition heartbeatOwners : gmap string string :=
  fold_left (fun m vnodeId => <[key (Some vnodeId) := Config.nodeId config]> m)
            (Config.assignedVnodes config) ∅.

Definition heartbeatLoads (st : State) : option (gmap string string) :=
  fold_left (fun acc vnodeId =>
               m ← acc;
               users ← onlineUsers st !! vnodeId;
               Some (<[key (Some vnodeId) := pretty (Z.of_nat (size users))]> m))
            (Config.assignedVnodes config) (Some ∅).

End Handlers.

End Node.

(** ** Start-up of the presence node ([start] of the WebSocket server)

    [start] runs until it awaits a promise and goes on when the promise
    settles; between the two the event loop delivers the node's events. The
    process records which promise [start] is waiting for. *)

Module Startup.

Inductive Pc :=
| AwaitProducer    (* await producer.connect () *)
| AwaitConsumer    (* await consumer.connect () *)
| AwaitSubscribe   (* await subscribeToUserStatusEvents () *)
| AwaitOwners (vnodeOwners vnodeLoad : gmap string string)
                   (* updateHeartbeat: await redisClient.updateVnodeOwners (..) *)
| AwaitLoads (vnodeLoad : gmap string string)
                   (* updateHeartbeat: await redisClient.updateVnodeLoads (..) *)
| Started          (* start has installed the shutdown handlers and returned *)
| Exited.          (* process.exit (1) *)

Record Process := {
  pc : Pc;
  subscribed : bool;        (* consumer.run is delivering messages *)
  listening : bool;         (* server.listen has been called *)
  heartbeatTimer : bool;    (* setInterval (updateHeartbeat, ..) has been called *)
  heartbeatsDone : nat;     (* runs of updateHeartbeat that wrote both maps *)
  node : Node.State;
  redis : Directory.t
}.

Inductive Input :=
| Settled (ok : bool)            (* the promise start awaits resolves or rejects *)
| Tick (ok1 ok2 : bool)          (* the heartbeat timer fires; the two writes
                                    succeed or fail *)
| NodeEvent (i : Node.Input).    (* an event of the node *)

Definition set_pc (p : Process) (c : Pc) : Process :=
  {| pc := c; subscribed := subscribed p; listening := listening p;
     heartbeatTimer := heartbeatTimer p; heartbeatsDone := heartbeatsDone p;
     node := node p; redis := redis p |}.

Definition set_redis (p : Process) (d : Directory.t) : Process :=
  {| pc := pc p; subscribed := subscribed p; listening := listening p;
     heartbeatTimer := heartbeatTimer p; heartbeatsDone := heartbeatsDone p;
     node := node p; redis := d |}.

Definition set_node (p : Process) (n : Node.State) : Process :=
  {| pc := pc p; subscribed := subscribed p; listening := listening p;
     heartbeatTimer := heartbeatTimer p; heartbeatsDone := heartbeatsDone p;
     node := n; redis := redis p |}.

Definition heartbeat_done (p : Process) : Process :=
  {| pc := pc p; subscribed := subscribed p; listening := listening p;
     heartbeatTimer := heartbeatTimer p; heartbeatsDone := S (heartbeatsDone p);
     node := node p; redis := redis p |}.

Section Start.

Variable config : Config.t.
Variable jwt_verify : string -> option (option string).
Variable url_token : string -> JS.result (option string).

Definition initial (d : Directory.t) : Process :=
  {| pc := AwaitProducer; subscribed := false; listening := false;
     heartbeatTimer := false; heartbeatsDone := 0;
     node := Node.initial config; redis := d |}.

(** The call [updateHeartbeat ()] up to its first pending promise: the
    two maps are built from the current state; an empty map is not
    written, so with no assigned vnode the function returns at once. *)
Definition begin_heartbeat (p : Process) (k : Pc) : Process :=
  let vnodeOwners := Node.heartbeatOwners config in
  match Node.heartbeatLoads config (node p) with
  | Some vnodeLoad =>
      if decide (vnodeOwners = ∅) then
        if decide (vnodeLoad = ∅) then set_pc (heartbeat_done p) k
        else set_pc p (AwaitLoads vnodeLoad)
      else set_pc p (AwaitOwners vnodeOwners vnodeLoad)
  | None => set_pc p k
  end.

(** [start] goes on after the promise it awaits has settled. *)
Definition resume (p : Process) (ok : bool) : Process :=
  match pc p with
  | AwaitProducer => if ok then set_pc p AwaitConsumer else set_pc p Exited
  | AwaitConsumer => if ok then set_pc p AwaitSubscribe else set_pc p Exited
  | AwaitSubscribe =>
      (* subscribeToUserStatusEvents catches its own errors *)
      let p :=
        {| pc := pc p; subscribed := ok;
           listening := true;          (* server.listen (config.wsPort, ..) *)
           heartbeatTimer := true;     (* setInterval (updateHeartbeat, ..) *)
           heartbeatsDone := heartbeatsDone p;
           node := node p; redis := redis p |} in
      begin_heartbeat p Started        (* await updateHeartbeat () *)
  | AwaitOwners vnodeOwners vnodeLoad =>
      if ok then
        let p := set_redis p (Directory.updateVnodeOwners (redis p) vnodeOwners) in
        if decide (vnodeLoad = ∅) then set_pc (heartbeat_done p) Started
        else set_pc p (AwaitLoads vnodeLoad)
      else set_pc p Started            (* updateHeartbeat catches and logs *)
  | AwaitLoads vnodeLoad =>
      if ok then
        let p := set_redis p (Directory.updateVnodeLoads (redis p) vnodeLoad) in
        set_pc (heartbeat_done p) Started
      else set_pc p Started
  | Started => p
  | Exited => p
  end.

(** A run of [updateHeartbeat] started by the timer, taken as one step. *)
Definition tick (p : Process) (ok1 ok2 : bool) : Process :=
  match Node.heartbeatLoads config (node p) with
  | Some vnodeLoad =>
      if ok1 then
        let p :=
          set_redis p (Directory.updateVnodeOwners (redis p)
                                                   (Node.heartbeatOwners config)) in
        if ok2 then
          heartbeat_done
            (set_redis p (Directory.updateVnodeLoads (redis p) vnodeLoad))
        else p
      else p
  | None => p
  end.

(** Which events the event loop can deliver: connections once the server
    listens, bus messages once the consumer runs. *)
Definition enabled (p : Process) (i : Node.Input) : bool :=
  match i with
  | Node.Connection _ _ _ => listening p
  | Node.BusMessage _ => subscribed p
  | _ => true
  end.

Definition step (p : Process) (i : Input) : Process :=
  match pc p with
  | Exited => p
  | _ =>
      match i with
      | Settled ok => resume p ok
      | Tick ok1 ok2 => if heartbeatTimer p then tick p ok1 ok2 else p
      | NodeEvent e =>
          if enabled p e
          then set_node p (Node.step config jwt_verify url_token (node p) e).1
          else p
      end
  end.

Definition run (p : Process) (inputs : list Input) : Process :=
  fold_left step inputs p.

End Start.

End Startup.

(** * Notions used to state the properties *)

(** ** Hash ring *)

Definition is_byte (b : Z) : Prop := 0 <= b < 256.

(** ** Coordinator *)

Module CoordinatorSpec.

Import JS Coordinator.

(** A vnode is occupied in an owners snapshot when the handler's test
    [currentVnodeMap[i]] is truthy. *)
Definition occupied (m : gmap string string) (i : Z) : bool :=
  truthy (m !! key (Some i)).

(** Instance ids are non-empty strings. *)
Definition owners_wf (m : gmap string string) : Prop :=
  forall k v, m !! k = Some v -> v <> EmptyString.

(** The two writes of a registration that assigns [chosen]; what they
    amount to is stated by lookups (lemma [registered_lookup]). *)
Definition registered (st : State) (instanceId : string) (chosen : list Z) : State :=
  {| redis := Directory.updateVnodeOwners (redis st) (mappingsFor chosen instanceId);
     consistentHash :=
       Ring.updateVnodeMappings (consistentHash st) (mappingsFor chosen instanceId) |}.


Definition json_field (name : string) (j : json) : option json :=
  match j with
  | JObj fields => snd <$> List.find (fun f => String.eqb f.1 name) fields
  | _ => None
  end.

Definition is_number (j : json) : bool :=
  match j with JNum _ => true | _ => false end.

(** An array of integers, as in [removedVnodes: int[]]. *)
Definition is_int_array (j : option json) : bool :=
  match j with
  | Some (JArr l) => forallb is_number l
  | _ => false
  end.

(** An owner read from a map: an instance id, or nothing when the entry is
    missing or is the empty string. *)
Definition ownerIn (m : gmap string string) (vnodeId : option Z) : option string :=
  match m !! key vnodeId with
  | Some o => if decide (o = EmptyString) then None else Some o
  | None => None
  end.

Definition cacheHit (userId inst : string) : Response :=
  {| status := 200;
     body := JObj [("userId"%string, JStr userId);
                   ("instance"%string, JStr inst);
                   ("source"%string, JStr "cache")] |}.

Definition hashHit (userId : string) (vnodeId : option Z) (inst : string) : Response :=
  {| status := 200;
     body := JObj [("userId"%string, JStr userId);
                   ("vnode"%string, json_number vnodeId);
                   ("instance"%string, JStr inst);
                   ("source"%string, JStr "hash")] |}.

End CoordinatorSpec.

(** ** Presence node *)

Module NodeSpec.

Import JS Node.

(** What a bus message does to [onlineUsers]. *)
Inductive SetOp := Keep | Add (v : Z) (u : string) | Remove (v : Z) (u : string).

Definition apply_op (o : SetOp) (ou : gmap Z (gset string)) : gmap Z (gset string) :=
  match o with
  | Keep => ou
  | Add v u =>
      match ou !! v with Some s => <[v := s ∪ {[u]}]> ou | None => ou end
  | Remove v u =>
      match ou !! v with Some s => <[v := s ∖ {[u]}]> ou | None => ou end
  end.

Definition apply_ops (ops : list SetOp) (ou : gmap Z (gset string))
  : gmap Z (gset string) :=
  fold_left (fun ou o => apply_op o ou) ops ou.

(** A transformation of [onlineUsers] of the shape "in the set of every
    vnode [v], remove the members of [D v], then add those of [A v]". *)
Definition shaped (f : gmap Z (gset string) -> gmap Z (gset string)) : Prop :=
  exists A D : Z -> gset string,
    forall ou v, f ou !! v = (fun s => (s ∖ D v) ∪ A v) <$> (ou !! v).


Definition is_close_of (ws : nat) (e : Effect) : bool :=
  match e with Close ws' _ _ => bool_decide (ws' = ws) | _ => false end.

(** The [ws.close] calls on a socket among some effects. *)
Definition closes_of (ws : nat) (effs : list Effect) : list Effect :=
  filter (fun e => is_close_of ws e = true) effs.

(** The live local sessions of a user: the open sockets whose ['close']
    listener belongs to that user. *)
Definition liveSessions (st : State) (userId : string) : list nat :=
  (filter (fun e => e.2.1 = userId /\ sockets st !! e.1 = Some OPEN)
          (map_to_list (closeListeners st))).*1.

Section WithConfig.

Variable config : Config.t.
Variable jwt_verify : string -> option (option string).
Variable url_token : string -> JS.result (option string).

Definition op_of_event (ev : Event) : SetOp :=
  if String.eqb (ev_nodeId ev) (Config.nodeId config) then Keep
  else if negb (isUserOwnedByThisNode config (ev_userId ev)) then Keep
  else match Ring.getUserVnode (consistentHash config) (ev_userId ev) with
       | Some v =>
           if String.eqb (ev_action ev) "online" then Add v (ev_userId ev)
           else if String.eqb (ev_action ev) "offline" then Remove v (ev_userId ev)
           else Keep
       | None => Keep
       end.

(** Applying a sequence of bus messages. *)
Definition apply_events (st : State) (evs : list Event) : State :=
  fold_left (fun st ev => (bus_message config st ev).1) evs st.

(** The invariant of [onlineUsers]: one set per assigned vnode, and every
    member of a set hashes to that set's vnode. *)
Definition users_placed (ou : gmap Z (gset string)) : Prop :=
  dom ou = list_to_set (Config.assignedVnodes config) /\
  forall v s u, ou !! v = Some s -> u ∈ s ->
                Ring.getUserVnode (consistentHash config) u = Some v.

(** The three client input faults of the connect protocol, with the
    reason each is reported with. A request for which [extractToken]
    throws is none of them. *)
Inductive Fault : Auth.Request -> string -> Prop :=
| NoToken req token :
    Auth.extractToken url_token req = Returns token -> truthy token = false ->
    Fault req "No token provided"
| InvalidToken req token :
    Auth.extractToken url_token req = Returns (Some token) ->
    token <> EmptyString ->
    truthy (Auth.extractUserId jwt_verify token) = false ->
    Fault req "Invalid token"
| NotOwned req token userId v :
    Auth.extractToken url_token req = Returns (Some token) ->
    token <> EmptyString ->
    Auth.extractUserId jwt_verify token = Some userId -> userId <> EmptyString ->
    Ring.getUserVnode (consistentHash config) userId = Some v ->
    v ∉ Config.assignedVnodes config ->
    Fault req "User does not belong to this node".

(** A connection is accepted when it passes the three checks. *)
Definition accepted (req : Auth.Request) (userId : string) (v : Z) : Prop :=
  exists token,
    Auth.extractToken url_token req = Returns (Some token) /\
    token <> EmptyString /\
    Auth.extractUserId jwt_verify token = Some userId /\ userId <> EmptyString /\
    Ring.getUserVnode (consistentHash config) userId = Some v /\
    v ∈ Config.assignedVnodes config.

End WithConfig.

End NodeSpec.

(** ** Start-up *)

Module StartupSpec.

Import JS Startup.

(** The initial heartbeat has been issued. *)
Definition heartbeat_issued (p : Process) : bool :=
  match pc p with
  | AwaitOwners _ _ | AwaitLoads _ | Started => true
  | _ => false
  end.

Section WithConfig.

Variable config : Config.t.

(** The directory names the node as owner of every assigned vnode. *)
Definition owners_written (d : Directory.t) : Prop :=
  forall v, v ∈ Config.assignedVnodes config ->
            Directory.owners d !! key (Some v) = Some (Config.nodeId config).

(** A map of loads gives every assigned vnode a user count, written in
    decimal. *)
Definition counts (m : gmap string string) : Prop :=
  forall v, v ∈ Config.assignedVnodes config ->
            exists n : nat, m !! key (Some v) = Some (pretty (Z.of_nat n)).

(** The directory has a user count as the load of every assigned vnode. *)
Definition loads_written (d : Directory.t) : Prop :=
  counts (Directory.loads d).

(** The invariant of the start-up. *)
Definition startup_inv (p : Process) : Prop :=
  (listening p = false ->
     heartbeat_issued p = false /\ heartbeatsDone p = 0%nat /\
     heartbeatTimer p = false) /\
  (listening p = true ->
     heartbeat_issued p = true /\ heartbeatTimer p = true) /\
  (forall o l, pc p = AwaitOwners o l ->
               o = Node.heartbeatOwners config /\ counts l) /\
  (forall l, pc p = AwaitLoads l -> owners_written (redis p) /\ counts l) /\
  ((0 < heartbeatsDone p)%nat ->
     owners_written (redis p) /\ loads_written (redis p)) /\
  NodeSpec.users_placed config (Node.onlineUsers (node p)).

(** What holds of a process that listens, whatever [start] awaits. *)
Definition listens (p : Process) : Prop :=
  listening p = true /\ heartbeatTimer p = true /\
  ((0 < heartbeatsDone p)%nat ->
     owners_written (redis p) /\ loads_written (redis p)) /\
  NodeSpec.users_placed config (Node.onlineUsers (node p)).

End WithConfig.

End StartupSpec.

(** ** A concrete deployment, for the scenarios *)

Module Scenario.

Import Node.

(** A node that owns vnode 221, the vnode of user [u1] on a ring of 1024. *)
Definition config : Config.t :=
  {| Config.vnodeCount := 1024; Config.nodeId := "node-1";
     Config.assignedVnodes := [221] |}.


Definition jwt_verify (token : string) : option (option string) :=
  if String.eqb token "token-u1" then Some (Some "u1"%string)
  else if String.eqb token "token-a" then Some (Some "a"%string)
  else None.

(** The request targets of the scenarios: [//] is the one the URL
    constructor rejects. *)
Definition url_token (target : string) : JS.result (option string) :=
  if String.eqb target "//" then JS.Throws
  else if String.eqb target "/socket?token=token-u1"
       then JS.Returns (Some "token-u1"%string)
       else JS.Returns None.

Definition bearer (token : string) : Auth.Request :=
  {| Auth.authorization := Some ("Bearer " +:+ token);
     Auth.url := Some "/"%string;
     Auth.cookie_token := None |}.


(** A request without a token whose target the URL constructor rejects. *)
Definition unparsable : Auth.Request :=
  {| Auth.authorization := None;
     Auth.url := Some "//"%string;
     Auth.cookie_token := None |}.

(** Two connections of the same user, both welcomed. *)
Definition two_connections : list Input :=
  [Connection 1 (bearer "token-u1") 10; SendDone 1 true 11;
   Connection 2 (bearer "token-u1") 20; SendDone 2 true 21].

(** A connection that arrives while [start] awaits the first write of the
    initial heartbeat. *)
Definition early_connection : list Startup.Input :=
  [Startup.Settled true; Startup.Settled true; Startup.Settled true;
   Startup.NodeEvent (Connection 1 (bearer "token-u1") 10)].

(** A directory in which instance [A] owns vnode 0. *)
Definition owned_by_A : Coordinator.State :=
  {| Coordinator.consistentHash := Ring.new 1024;
     Coordinator.redis :=
       {| Directory.owners := {[ "0"%string := "A"%string ]};
          Directory.loads := ∅; Directory.users := ∅ |} |}.

Definition empty_coordinator : Coordinator.State :=
  {| Coordinator.consistentHash := Ring.new 1024;
     Coordinator.redis := Directory.empty |}.

(** An order of the Redis reply: every field at the same position, so
    that the fields that are not array indices come in the order of the
    map. The scenarios use array indices only. *)
Definition rank (_ : string) : nat := 0%nat.



(** A ring of four vnodes, for the scenarios that fill it. *)
Definition config4 : Config.t :=
  {| Config.vnodeCount := 4; Config.nodeId := "node-1";
     Config.assignedVnodes := [] |}.


(** Every vnode of the ring of four has an owner. *)
Definition full : Coordinator.State :=
  {| Coordinator.consistentHash := Ring.new 4;
     Coordinator.redis :=
       {| Directory.owners :=
            {[ "0"%string := "A"%string; "1"%string := "B"%string;
               "2"%string := "A"%string; "3"%string := "B"%string ]};
          Directory.loads := ∅; Directory.users := ∅ |} |}.


(** The registration of instance [B] with weight 100: it asks for every
    vnode. *)
Definition register_all : Coordinator.RegisterBody :=
  {| Coordinator.reg_instanceId := Some "B"%string;
     Coordinator.reg_weight := Some 100 |}.

End Scenario.

(** * More of the code *)

(** ** Reading numbers back (common/redis-client.js, [getAllVnodeLoads]) *)

Module Loads.

(** ASCII white space, which [parseInt] skips at the start of its argument
    (the white space outside ASCII is not modelled). *)
Definition is_space (c : ascii) : bool :=
  let n := N_of_ascii c in
  ((9 <=? n) && (n <=? 13))%N || (n =? 32)%N.

Fixpoint skip_space (s : string) : string :=
  match s with
  | String c s' => if is_space c then skip_space s' else s
  | EmptyString => EmptyString
  end.

Definition digit10 (c : ascii) : option Z :=
  let n := Z.of_N (N_of_ascii c) in
  if (48 <=? n) && (n <=? 57) then Some (n - 48) else None.

Fixpoint parse10 (s : string) (acc : Z) : Z :=
  match s with
  | String c s' =>
      match digit10 c with
      | Some d => parse10 s' (acc * 10 + d)
      | None => acc
      end
  | EmptyString => acc
  end.

(** [parseInt (s, 10)] as an integer: leading white space, an optional
    sign, then the longest prefix of decimal digits; [NaN] when there is no
    digit. *)
Definition parseInt10 (s : string) : option Z :=
  let s := skip_space s in
  let '(negative, s) :=
    match s with
    | String "-" s' => (true, s')
    | String "+" s' => (false, s')
    | _ => (false, s)
    end in
  match s with
  | String c _ =>
      match digit10 c with
      | Some _ => Some (if negative : bool then - parse10 s 0 else parse10 s 0)
      | None => None
      end
  | EmptyString => None
  end.

(** [getAllVnodeLoads ()]: the values of the hash [vnode:load] converted
    with [parseInt (value, 10)]. *)
Definition getAllVnodeLoads (d : Directory.t) : gmap string (option Z) :=
  parseInt10 <$> Directory.loads d.

End Loads.

(** ** The Express middleware of common/auth.js *)

Module AuthMiddleware.

Import JS.

(** [s.startsWith (p)] *)
Fixpoint startsWith (p s : string) : bool :=
  match p, s with
  | EmptyString, _ => true
  | String a p', String b s' => Ascii.eqb a b && startsWith p' s'
  | String _ _, EmptyString => false
  end.

Inductive Outcome :=
| Rejected (status : Z) (body : json)     (* res.status (401).json (..) *)
| Next (user : option string).            (* req.user = decoded; next () *)

Section Library.

(** [jwt.verify (token, config.jwtSecret)], as in [Auth]. *)
Variable jwt_verify : string -> option (option string).

(** [authenticate (req, res, next)], on the [authorization] header. The
    token is the second part of the header; a header with a single part has
    none, and verifying [undefined] throws. A payload that verifies is
    taken to be an object, hence truthy. *)
Definition authenticate (authHeader : option string) : Outcome :=
  if negb (truthy authHeader)
     || negb (startsWith "Bearer " (default EmptyString authHeader))
  then Rejected 401
         (JObj [("error"%string,
                 JStr "Unauthorized - Missing or invalid token format")])
  else
    let token := Auth.split " " (default EmptyString authHeader) !! 1%nat in
    let decoded :=
      match token with
      | Some t => jwt_verify t
      | None => None
      end in
    match decoded with
    | Some user => Next user
    | None => Rejected 401 (JObj [("error"%string, JStr "Unauthorized - Invalid token")])
    end.

End Library.

End AuthMiddleware.

(** ** Notions used to state the further properties *)

Module MoreSpec.

Import JS.

(** A string that starts with a decimal digit. *)
Definition starts_digit (s : string) : Prop :=
  match s with
  | String c _ => is_Some (Loads.digit10 c)
  | EmptyString => False
  end.

(** The character [c] does not occur in [s]. *)
Fixpoint free_of (c : ascii) (s : string) : bool :=
  match s with
  | String a s' => negb (Ascii.eqb a c) && free_of c s'
  | EmptyString => true
  end.

(** The 201 response of a registration. *)
Definition created (instanceId : string) (ids : list Z) : Coordinator.Response :=
  {| Coordinator.status := 201;
     Coordinator.body :=
       JObj [("instanceId"%string, JStr instanceId);
             ("assignedVnodes"%string, JArr (JNum <$> ids))] |}.

(** The 200 response of an unregistration. *)
Definition removed (instanceId : string) (ids : list string) : Coordinator.Response :=
  {| Coordinator.status := 200;
     Coordinator.body :=
       JObj [("instanceId"%string, JStr instanceId);
             ("removedVnodes"%string, JArr (JStr <$> ids))] |}.

(** Membership in the set of a vnode. *)
Definition mem (ou : gmap Z (gset string)) (v : Z) (u : string) : Prop :=
  exists s, ou !! v = Some s /\ u ∈ s.

(** User [u] is in the set of vnode [v]. *)
Definition online (st : Node.State) (v : Z) (u : string) : Prop :=
  exists s, Node.onlineUsers st !! v = Some s /\ u ∈ s.

(** The event is the settling of the send that the connection handler of
    socket [ws] awaits. *)
Definition settles (ws : nat) (i : Node.Input) : Prop :=
  match i with
  | Node.SendDone ws' _ _ => ws' = ws
  | _ => False
  end.


(** What the node holds about sessions is about users it owns and sockets
    it knows. *)
Definition sessions_local (config : Config.t) (st : Node.State) : Prop :=
  (forall u ws, Node.clients st !! u = Some ws ->
     is_Some (Node.sockets st !! ws) /\
     exists v, Ring.getUserVnode (Node.consistentHash config) u = Some v /\
               v ∈ Config.assignedVnodes config) /\
  (forall ws u v t, Node.pending st !! ws = Some (u, v, t) ->
     is_Some (Node.sockets st !! ws) /\
     Ring.getUserVnode (Node.consistentHash config) u = Some v /\
     v ∈ Config.assignedVnodes config) /\
  (forall ws u v, Node.closeListeners st !! ws = Some (u, v) ->
     is_Some (Node.sockets st !! ws) /\
     Ring.getUserVnode (Node.consistentHash config) u = Some v /\
     v ∈ Config.assignedVnodes config).

(** Every published event carries the given node id and a presence action. *)
Definition is_publish_of (nodeId : string) (e : Node.Effect) : Prop :=
  match e with
  | Node.Publish ev =>
      Node.ev_nodeId ev = nodeId /\
      (Node.ev_action ev = "online"%string \/ Node.ev_action ev = "offline"%string)
  | _ => True
  end.

(** Before [server.listen]: the start-up is still at one of its first
    three promises or has exited, no timer runs, and neither the node
    nor the directory has been touched. *)
Definition quiet (config : Config.t) (d : Directory.t) (p : Startup.Process) : Prop :=
  Startup.listening p = false ->
  StartupSpec.heartbeat_issued p = false /\
  Startup.subscribed p = false /\ Startup.heartbeatTimer p = false /\
  Startup.heartbeatsDone p = 0%nat /\
  Startup.node p = Node.initial config /\ Startup.redis p = d.

End MoreSpec.

(** * The client SDK (client/sdk.js)

    [RegistrationCenterClient] after its constructor has returned, as a
    reaction to one event at a time: a call of a public method, the
    request to the coordinator settling, an event of a socket, a timer
    firing. [connect] is split at its [await]. Sockets, timers and
    requests are numbered in the order of their creation. The callbacks
    of the options are taken to return normally and not to call the
    client; the time stamp of a status notification is left out. *)
Module Client.

Inductive Status := connecting | connected | disconnected.

Global Instance Status_eq_dec : EqDecision Status.
Proof. solve_decision. Defined.

Inductive ReadyState := CONNECTING | OPEN | CLOSING | CLOSED.

Global Instance ReadyState_eq_dec : EqDecision ReadyState.
Proof. solve_decision. Defined.

Inductive Frame :=
| Ping                      (* {type: 'ping', timestamp} *)
| Data (message : string).

Inductive Effect :=
| StatusChange (status previousStatus : Status)  (* options.onStatusChange *)
| Error (message : string)                       (* options.onError *)
| Message (data : string)                        (* options.onMessage *)
| Fetch (id : nat)                               (* fetch (coordinatorUrl/route..) *)
| NewSocket (ws : nat) (instance : string)       (* new WebSocket (wsUrl) *)
| WsSend (ws : nat) (frame : Frame)              (* ws.send *)
| WsClose (ws : nat)                             (* ws.close () *)
| Return (sent : bool).                          (* the result of send *)

Record State := {
  status : Status;
  ws : option nat;
  reconnectTimer : option nat;
  heartbeatTimer : option nat;
  currentInstance : option string;
  sockets : gmap nat ReadyState;   (* readyState of every socket created *)
  fetches : gset nat;              (* calls of connect suspended at their await *)
  timeouts : gset nat;             (* setTimeout timers that can still fire *)
  intervals : gset nat;            (* setInterval timers that have not been cleared *)
  next : nat                       (* the next fresh number *)
}.

Inductive Input :=
| CallConnect
| CallDisconnect
| CallSend (message : option string)   (* the string to send; None when
                                          JSON.stringify throws *)
| FetchSettled (id : nat) (instance : option string)
                                       (* _getOptimalInstance returns an instance
                                          or throws *)
| SocketOpen (ws : nat)
| SocketMessage (ws : nat) (data : option string)
                                       (* the parsed payload; None when JSON.parse
                                          throws *)
| SocketError (ws : nat)
| SocketClose (ws : nat)
| ReconnectFires (timer : nat)
| HeartbeatFires (timer : nat).

(** The state after the constructor. *)
Definition initial : State :=
  {| status := disconnected; ws := None; reconnectTimer := None;
     heartbeatTimer := None; currentInstance := None; sockets := ∅;
     fetches := ∅; timeouts := ∅; intervals := ∅; next := 0 |}.

Definition set_status (st : State) (s : Status) : State :=
  {| status := s; ws := ws st; reconnectTimer := reconnectTimer st;
     heartbeatTimer := heartbeatTimer st; currentInstance := currentInstance st;
     sockets := sockets st; fetches := fetches st; timeouts := timeouts st;
     intervals := intervals st; next := next st |}.

Definition set_ws (st : State) (w : option nat) : State :=
  {| status := status st; ws := w; reconnectTimer := reconnectTimer st;
     heartbeatTimer := heartbeatTimer st; currentInstance := currentInstance st;
     sockets := sockets st; fetches := fetches st; timeouts := timeouts st;
     intervals := intervals st; next := next st |}.

Definition set_reconnect (st : State) (t : option nat) (armed : gset nat) : State :=
  {| status := status st; ws := ws st; reconnectTimer := t;
     heartbeatTimer := heartbeatTimer st; currentInstance := currentInstance st;
     sockets := sockets st; fetches := fetches st; timeouts := armed;
     intervals := intervals st; next := next st |}.

Definition set_heartbeat (st : State) (t : option nat) (active : gset nat) : State :=
  {| status := status st; ws := ws st; reconnectTimer := reconnectTimer st;
     heartbeatTimer := t; currentInstance := currentInstance st;
     sockets := sockets st; fetches := fetches st; timeouts := timeouts st;
     intervals := active; next := next st |}.

Definition set_currentInstance (st : State) (i : option string) : State :=
  {| status := status st; ws := ws st; reconnectTimer := reconnectTimer st;
     heartbeatTimer := heartbeatTimer st; currentInstance := i;
     sockets := sockets st; fetches := fetches st; timeouts := timeouts st;
     intervals := intervals st; next := next st |}.

Definition set_sockets (st : State) (s : gmap nat ReadyState) : State :=
  {| status := status st; ws := ws st; reconnectTimer := reconnectTimer st;
     heartbeatTimer := heartbeatTimer st; currentInstance := currentInstance st;
     sockets := s; fetches := fetches st; timeouts := timeouts st;
     intervals := intervals st; next := next st |}.

Definition set_fetches (st : State) (f : gset nat) : State :=
  {| status := status st; ws := ws st; reconnectTimer := reconnectTimer st;
     heartbeatTimer := heartbeatTimer st; currentInstance := currentInstance st;
     sockets := sockets st; fetches := f; timeouts := timeouts st;
     intervals := intervals st; next := next st |}.

Definition set_next (st : State) (n : nat) : State :=
  {| status := status st; ws := ws st; reconnectTimer := reconnectTimer st;
     heartbeatTimer := heartbeatTimer st; currentInstance := currentInstance st;
     sockets := sockets st; fetches := fetches st; timeouts := timeouts st;
     intervals := intervals st; next := n |}.

(** A piece of a method: the state it leaves and what it calls. *)
Definition M : Type := State -> State * list Effect.

Definition and_then (a b : M) : M :=
  fun st => let '(st1, e1) := a st in
            let '(st2, e2) := b st1 in (st2, e1 ++ e2).

Notation "a >>> b" := (and_then a b) (at level 62, right associativity).

Definition emit (e : Effect) : M := fun st => (st, [e]).

Definition update (f : State -> State) : M := fun st => (f st, []).

(** [this.ws.readyState], when [this.ws] is set. *)
Definition readyState (st : State) : option ReadyState :=
  w ← ws st; sockets st !! w.

Definition _handleError (message : string) : M := emit (Error message).

Definition _updateStatus (newStatus : Status) : M :=
  fun st =>
    let prevStatus := status st in
    (set_status st newStatus,
     if decide (prevStatus = newStatus) then []
     else [StatusChange newStatus prevStatus]).

Definition _stopHeartbeat : M :=
  update (fun st =>
    match heartbeatTimer st with
    | Some t => set_heartbeat st None (intervals st ∖ {[t]})
    | None => st
    end).

Definition _startHeartbeat : M :=
  _stopHeartbeat >>>
  update (fun st =>
    let t := next st in
    set_next (set_heartbeat st (Some t) (intervals st ∪ {[t]})) (S t)).

Definition _scheduleReconnect : M :=
  update (fun st =>
    let armed :=
      match reconnectTimer st with
      | Some t => timeouts st ∖ {[t]}
      | None => timeouts st
      end in
    let t := next st in
    set_next (set_reconnect st (Some t) (armed ∪ {[t]})) (S t)).

(** [connect] up to its [await this._getOptimalInstance ()]. *)
Definition connect : M :=
  fun st =>
    match status st with
    | connecting | connected => (st, [])
    | disconnected =>
        (_updateStatus connecting >>>
         (fun st => let id := next st in
                    (set_next (set_fetches st (fetches st ∪ {[id]})) (S id),
                     [Fetch id]))) st
    end.

(** The rest of [connect], once the request has settled. *)
Definition connect_resume (instance : option string) : M :=
  match instance with
  | Some instance =>
      fun st =>
        let w := next st in
        (set_next
           (set_sockets (set_ws (set_currentInstance st (Some instance)) (Some w))
                        (<[w := CONNECTING]> (sockets st)))
           (S w),
         [NewSocket w instance])
  | None =>
      _handleError "Failed to get optimal instance" >>>
      _updateStatus disconnected >>>
      _handleError "Connection failed" >>>
      _scheduleReconnect
  end.

Definition onopen : M := _updateStatus connected >>> _startHeartbeat.

Definition onmessage (data : option string) : M :=
  match data with
  | Some data => emit (Message data)
  | None => _handleError "Error parsing WebSocket message"
  end.

Definition onclose : M :=
  _stopHeartbeat >>> _updateStatus disconnected >>> _scheduleReconnect.

Definition onerror : M := _handleError "WebSocket error".

(** The function given to [setInterval]. *)
Definition heartbeat : M :=
  fun st =>
    match ws st, readyState st with
    | Some w, Some OPEN => (st, [WsSend w Ping])
    | _, _ => (st, [])
    end.

Definition disconnect : M :=
  update (fun st =>
    match reconnectTimer st with
    | Some t => set_reconnect st None (timeouts st ∖ {[t]})
    | None => st
    end) >>>
  _stopHeartbeat >>>
  (fun st =>
     match ws st with
     | Some w =>
         let '(st, effs) :=
           match readyState st with
           | Some OPEN | Some CONNECTING =>
               (set_sockets st (<[w := CLOSING]> (sockets st)), [WsClose w])
           | _ => (st, [])
           end in
         (set_ws st None, effs)
     | None => (st, [])
     end) >>>
  _updateStatus disconnected.

Definition send (message : option string) : M :=
  fun st =>
    match ws st, readyState st with
    | Some w, Some OPEN =>
        match message with
        | Some message => (st, [WsSend w (Data message); Return true])
        | None => (_handleError "Failed to send message" >>> emit (Return false)) st
        end
    | _, _ =>
        (_handleError "Cannot send message, connection not open" >>>
         emit (Return false)) st
    end.

(** One reaction of the client. A request settles once; a socket opens
    while it is connecting, delivers messages while it is open, and
    closes once; a timer fires while it is set, a time-out only once. *)
Definition step (st : State) (i : Input) : State * list Effect :=
  match i with
  | CallConnect => connect st
  | CallDisconnect => disconnect st
  | CallSend message => send message st
  | FetchSettled id instance =>
      if decide (id ∈ fetches st)
      then connect_resume instance (set_fetches st (fetches st ∖ {[id]}))
      else (st, [])
  | SocketOpen w =>
      match sockets st !! w with
      | Some CONNECTING => onopen (set_sockets st (<[w := OPEN]> (sockets st)))
      | _ => (st, [])
      end
  | SocketMessage w data =>
      match sockets st !! w with
      | Some OPEN => onmessage data st
      | _ => (st, [])
      end
  | SocketError w =>
      match sockets st !! w with
      | Some CLOSED | None => (st, [])
      | Some _ => onerror st
      end
  | SocketClose w =>
      match sockets st !! w with
      | Some CLOSED | None => (st, [])
      | Some _ => onclose (set_sockets st (<[w := CLOSED]> (sockets st)))
      end
  | ReconnectFires t =>
      if decide (t ∈ timeouts st)
      then connect (set_reconnect st (reconnectTimer st) (timeouts st ∖ {[t]}))
      else (st, [])
  | HeartbeatFires t =>
      if decide (t ∈ intervals st) then heartbeat st else (st, [])
  end.

Definition run (st : State) (inputs : list Input) : State * list Effect :=
  fold_left (fun acc i => let '(st', effs) := step acc.1 i in (st', acc.2 ++ effs))
            inputs (st, []).

End Client.

Module ClientSpec.

Import Client.

(** Following the status notifications from a status: every
    notification reports the status before it as its previous status and
    a different one as its new status. The result is the status after
    the last notification. *)
Fixpoint notified (prev : Status) (effs : list Effect) : option Status :=
  match effs with
  | [] => Some prev
  | StatusChange new p :: rest =>
      if decide (p = prev /\ new <> prev) then notified new rest else None
  | _ :: rest => notified prev rest
  end.

(** Every timer that can still fire is the one the client remembers. *)
Definition timers_tracked (st : State) : Prop :=
  (forall t, t ∈ timeouts st -> reconnectTimer st = Some t) /\
  (forall t, t ∈ intervals st -> heartbeatTimer st = Some t).

Definition tracks (m : M) : Prop :=
  forall st, notified (status st) (m st).2 = Some (status (m st).1).

Definition keeps (P : State -> Prop) (m : M) : Prop :=
  forall st, P st -> P (m st).1.

(** A client connected over the open socket [w]. *)
Definition connected_over (w : nat) : State :=
  {| status := connected; ws := Some w; reconnectTimer := None;
     heartbeatTimer := Some (S w); currentInstance := Some "ws1:8080"%string;
     sockets := {[w := OPEN]}; fetches := ∅; timeouts := ∅;
     intervals := {[S w]}; next := S (S w) |}.

End ClientSpec.

(** ** More scenarios *)

Module Scenario2.

(** A coordinator whose directory and ring give vnode 221, the vnode of
    user [u1], to instance [C]. *)
Definition routed_to_C : Coordinator.State :=
  {| Coordinator.consistentHash :=
       Ring.setVnodeMapping (Ring.new 1024) (Some 221) "C";
     Coordinator.redis :=
       {| Directory.owners := {[ "221"%string := "C"%string ]};
          Directory.loads := ∅; Directory.users := ∅ |} |}.

(** The registration of instance [B] with weight 1. *)
Definition register_B : Coordinator.RegisterBody :=
  {| Coordinator.reg_instanceId := Some "B"%string;
     Coordinator.reg_weight := Some 1 |}.

(** The connection of user [u1] over socket 1. *)
Definition u1_connects : Node.Input :=
  Node.Connection 1 (Scenario.bearer "token-u1") 10.

(** The node after user [u1] has been welcomed on socket 1. *)
Definition u1_online : Node.State :=
  (Node.run Scenario.config Scenario.jwt_verify Scenario.url_token
            (Node.initial Scenario.config)
            [u1_connects; Node.SendDone 1 true 11]).1.

(** An event of another node about user [u1]. *)
Definition from_node_2 (action : string) (now : Z) : Node.Event :=
  {| Node.ev_userId := "u1"; Node.ev_action := action;
     Node.ev_timestamp := now; Node.ev_nodeId := "node-2" |}.

(** A request whose header carries the token [abc]. *)
Definition with_header : Auth.Request :=
  {| Auth.authorization := Some "Bearer abc"%string;
     Auth.url := Some "/socket?token=xyz"%string;
     Auth.cookie_token := Some "cookie"%string |}.

End Scenario2.
(** * Theorems *)

(** ** Hash ring *)

Section HashRing.

Import Ring.

Lemma digit_value_hex_digit (n : Z) :
  0 <= n < 16 -> JS.digit_value (hex_digit n) = Some n.
Proof.
  intros Hn. rewrite <- (Z2Nat.id n) by lia.
  assert (Hk : (Z.to_nat n < 16)%nat) by lia.
  revert Hk. generalize (Z.to_nat n) as k. intros k Hk.
  do 16 (destruct k as [| k]; [reflexivity |]).
  lia.
Qed.

Lemma byte_nibbles (b : Z) :
  is_byte b -> 0 <= b / 16 < 16 /\ 0 <= b mod 16 < 16 /\
               b = 16 * (b / 16) + b mod 16.
Proof.
  unfold is_byte; intros Hb. repeat split.
  - apply Z.div_pos; lia.
  - apply Z.div_lt_upper_bound; lia.
  - apply Z.mod_pos_bound; lia.
  - apply Z.mod_pos_bound; lia.
  - apply Z.div_mod; lia.
Qed.

(** Two hexadecimal digits are read back as the byte they print. *)
Lemma parse_hex_byte (b acc : Z) (rest : string) :
  is_byte b ->
  JS.parse_digits
    (String (hex_digit (b / 16)) (String (hex_digit (b mod 16)) rest)) acc
  = JS.parse_digits rest (acc * 256 + b).
Proof.
  intros Hb. destruct (byte_nibbles b Hb) as (Hhi & Hlo & Heq).
  cbn [JS.parse_digits].
  rewrite !digit_value_hex_digit by assumption.
  f_equal. lia.
Qed.

Lemma parseInt16_hex_prefix (b0 b1 b2 b3 : Z) (rest : list Z) :
  is_byte b0 -> is_byte b1 -> is_byte b2 -> is_byte b3 ->
  JS.parseInt16 (substring 0 8 (hex_of_bytes (b0 :: b1 :: b2 :: b3 :: rest)))
  = Some (first32 (b0 :: b1 :: b2 :: b3 :: rest)).
Proof.
  intros H0 H1 H2 H3.
  cbn [hex_of_bytes substring].
  replace (substring 0 0 (hex_of_bytes rest)) with EmptyString
    by (destruct (hex_of_bytes rest); reflexivity).
  unfold JS.parseInt16.
  rewrite (digit_value_hex_digit (b0 / 16)) by (apply byte_nibbles; exact H0).
  rewrite !parse_hex_byte by assumption.
  reflexivity.
Qed.

Lemma land_255_byte (x : Z) : is_byte (Z.land x 255).
Proof.
  unfold is_byte. change 255 with (Z.ones 8).
  rewrite Z.land_ones by lia. apply Z.mod_pos_bound. lia.
Qed.

(** A digest is sixteen bytes. *)
Lemma digest_shape (msg : list Z) :
  exists b0 b1 b2 b3 rest,
    MD5.digest msg = b0 :: b1 :: b2 :: b3 :: rest /\
    is_byte b0 /\ is_byte b1 /\ is_byte b2 /\ is_byte b3 /\
    length rest = 12%nat.
Proof.
  unfold MD5.digest, MD5.output, MD5.bytes_of_word.
  set (st := fold_left _ _ _). cbn [app].
  do 5 eexists. split; [reflexivity |].
  split_and!; first [apply land_255_byte | reflexivity].
Qed.

Lemma first32_range (b0 b1 b2 b3 : Z) (rest : list Z) :
  is_byte b0 -> is_byte b1 -> is_byte b2 -> is_byte b3 ->
  0 <= first32 (b0 :: b1 :: b2 :: b3 :: rest) < 2 ^ 32.
Proof.
  unfold is_byte, first32; intros.
  change (take 4 (b0 :: b1 :: b2 :: b3 :: rest)) with [b0; b1; b2; b3].
  cbn [fold_left]. change (2 ^ 32) with 4294967296. lia.
Qed.

Lemma md5_hex_first32 (userId : string) :
  JS.parseInt16 (substring 0 8 (md5_hex userId))
  = Some (first32 (MD5.digest (utf8_bytes userId))).
Proof.
  unfold md5_hex.
  destruct (digest_shape (utf8_bytes userId))
    as (b0 & b1 & b2 & b3 & rest & -> & H0 & H1 & H2 & H3 & _).
  by apply parseInt16_hex_prefix.
Qed.

Lemma first32_digest_range (userId : string) :
  0 <= first32 (MD5.digest (utf8_bytes userId)) < 2 ^ 32.
Proof.
  destruct (digest_shape (utf8_bytes userId))
    as (b0 & b1 & b2 & b3 & rest & -> & H0 & H1 & H2 & H3 & _).
  by apply first32_range.
Qed.

Lemma getUserVnode_ref (h : ConsistentHash) (userId : string) :
  0 < vnodeCount h ->
  getUserVnode h userId = Some (userVnode_ref (vnodeCount h) userId).
Proof.
  intros HV. unfold getUserVnode, userVnode_ref.
  rewrite md5_hex_first32. unfold JS.rem.
  destruct (Z.eqb_spec (vnodeCount h) 0) as [E | _]; [lia |].
  f_equal. apply Z.rem_mod_nonneg; [apply first32_digest_range | exact HV].
Qed.

(** The digest follows RFC 1321 on its test vectors. *)
Example md5_hex_empty : md5_hex "" = "d41d8cd98f00b204e9800998ecf8427e"%string.
Proof. vm_compute. reflexivity. Qed.

Example md5_hex_a : md5_hex "a" = "0cc175b9c0f1b6a831c399e269772661"%string.
Proof. vm_compute. reflexivity. Qed.

Example md5_hex_abc : md5_hex "abc" = "900150983cd24fb0d6963f7d28e17f72"%string.
Proof. vm_compute. reflexivity. Qed.

Example md5_hex_two_blocks :
  md5_hex "12345678901234567890123456789012345678901234567890123456789012345678901234567890"
  = "57edf4a22be3c955ac49da2e2107b67a"%string.
Proof. vm_compute. reflexivity. Qed.

(** C1: for every user id and every vnode count [V > 0], [getUserVnode]
    returns the reference formula (the first 32 bits of the MD5 digest of
    the bytes of the user id, modulo [V]); the value lies in [[0, V)]; and
    it is the same on every ring with that vnode count, whatever the
    ring's mappings are at the time of the call. *)
Theorem getUserVnode_reference_formula (h : ConsistentHash) (userId : string) :
  0 < vnodeCount h ->
  getUserVnode h userId = Some (userVnode_ref (vnodeCount h) userId) /\
  0 <= userVnode_ref (vnodeCount h) userId < vnodeCount h /\
  (forall h' : ConsistentHash,
      vnodeCount h' = vnodeCount h ->
      getUserVnode h' userId = getUserVnode h userId).
Proof.
  intros HV. split; [by apply getUserVnode_ref |]. split.
  - unfold userVnode_ref. apply Z.mod_pos_bound. exact HV.
  - intros h' E. unfold getUserVnode. by rewrite E.
Qed.

Lemma getUserVnode_reference_formula_witness :
  getUserVnode (new 1024) "alice" = Some (userVnode_ref 1024 "alice") /\
  0 <= userVnode_ref 1024 "alice" < 1024.
Proof.
  destruct (getUserVnode_reference_formula (new 1024) "alice") as (H1 & H2 & _).
  - reflexivity.
  - split; assumption.
Defined.

(** C9, as the specification states it: the route computation for [u1]
    does not yield vnode 185, and the first 32 bits of the digest of [u1]
    are not [0x0cc175b9] (those of the digest of [a]), whose remainder
    modulo 1024 is 441 in any case. *)
Lemma route_u1_is_not_185 :
  getUserVnode (new 1024) "u1" <> Some 185 /\
  first32 (MD5.digest (utf8_bytes "u1")) <> 0x0cc175b9 /\
  0x0cc175b9 mod 1024 <> 185.
Proof. vm_compute. split_and!; discriminate. Qed.

(** C9, as amended: for [V = 1024] the route computation for [u1] yields
    vnode 221: the first 32 bits of the digest of [u1] are [0xe4774cdd],
    and [0xe4774cdd mod 1024 = 221]. *)
Theorem route_u1_vnode :
  getUserVnode (new 1024) "u1" = Some 221 /\
  substring 0 8 (md5_hex "u1") = "e4774cdd"%string /\
  first32 (MD5.digest (utf8_bytes "u1")) = 0xe4774cdd /\
  0xe4774cdd mod 1024 = 221.
Proof. vm_compute. split_and!; reflexivity. Qed.

End HashRing.

(** ** Coordinator *)

Section JSFacts.

Import JS.

Lemma truthy_Some (s : string) : truthy (Some s) = true <-> s <> EmptyString.
Proof.
  unfold truthy. destruct (String.eqb_spec s ""); split; simpl; congruence.
Qed.

Lemma truthy_true (v : option string) :
  truthy v = true -> exists s, v = Some s /\ s <> EmptyString.
Proof.
  destruct v as [s |]; [| discriminate].
  intros H. exists s. split; [reflexivity | by apply truthy_Some].
Qed.

(** The object built by assigning one owner to a list of vnodes. *)
Lemma lookup_owners_from (l : list Z) (m : gmap string string) (owner k : string) :
  fold_left (fun m vnodeId => <[key (Some vnodeId) := owner]> m) l m !! k
  = if decide (k ∈ (fun v => key (Some v)) <$> l) then Some owner else m !! k.
Proof.
  revert m. induction l as [| v l IH]; intros m; cbn [fold_left fmap list_fmap].
  - by rewrite decide_False by (apply not_elem_of_nil).
  - rewrite IH. destruct (decide (k ∈ _ <$> l)) as [Hin | Hnin].
    + by rewrite decide_True by (by right).
    + destruct (decide (k = key (Some v))) as [-> | Hne].
      * rewrite decide_True by (by left). apply lookup_insert_eq.
      * rewrite decide_False by (rewrite elem_of_cons; tauto).
        by apply lookup_insert_ne.
Qed.

Lemma owners_updateVnodeOwners (d : Directory.t) (m : gmap string string) :
  Directory.owners (Directory.updateVnodeOwners d m) = m ∪ Directory.owners d /\
  Directory.loads (Directory.updateVnodeOwners d m) = Directory.loads d.
Proof.
  unfold Directory.updateVnodeOwners. case_decide as E; [| done].
  subst m. by rewrite (left_id_L ∅ (∪)).
Qed.

Lemma loads_updateVnodeLoads (d : Directory.t) (m : gmap string string) :
  Directory.loads (Directory.updateVnodeLoads d m) = m ∪ Directory.loads d /\
  Directory.owners (Directory.updateVnodeLoads d m) = Directory.owners d.
Proof.
  unfold Directory.updateVnodeLoads. case_decide as E; [| done].
  subst m. by rewrite (left_id_L ∅ (∪)).
Qed.

Lemma StronglySorted_sublist {A} (R : relation A) (l1 l2 : list A) :
  l1 `sublist_of` l2 -> StronglySorted R l2 -> StronglySorted R l1.
Proof.
  induction 1 as [| x l1 l2 Hsub IH | x l1 l2 Hsub IH]; intros Hs.
  - constructor.
  - apply StronglySorted_inv in Hs as [Hs Hall]. constructor; [by apply IH |].
    rewrite Forall_forall in Hall |- *. intros y Hy. apply Hall.
    by eapply elem_of_sublist.
  - apply StronglySorted_inv in Hs as [Hs _]. by apply IH.
Qed.

End JSFacts.

(** ** Decimal strings and property names *)

Section Decimal.

Import JS Loads MoreSpec.

Lemma digit10_pretty_N_char (x : N) :
  (x < 10)%N -> digit10 (pretty_N_char x) = Some (Z.of_N x).
Proof.
  intros Hx. rewrite <- (N2Nat.id x).
  assert (Hk : (N.to_nat x < 10)%nat) by lia.
  revert Hk. generalize (N.to_nat x) as k. intros k Hk.
  do 10 (destruct k as [| k]; [reflexivity |]).
  lia.
Qed.

(** The digits that [pretty] puts in front of a string are read back as
    the number they print. *)
Lemma parse10_pretty_N_go (x : N) (s : string) (acc : Z) :
  exists k, 0 <= k /\
    parse10 (pretty_N_go x s) acc = parse10 s (acc * 10 ^ k + Z.of_N x).
Proof.
  revert s. induction (N.lt_wf_0 x) as [x _ IH]; intros s.
  destruct (decide (x = 0%N)) as [-> | Hpos].
  - exists 0. split; [done |]. rewrite pretty_N_go_0. f_equal. lia.
  - rewrite pretty_N_go_step by lia.
    destruct (IH (x `div` 10)%N) with
      (s := String (pretty_N_char (x `mod` 10)) s) as (k & Hk & ->).
    { apply N.div_lt; lia. }
    exists (k + 1). split; [lia |]. cbn [parse10].
    rewrite digit10_pretty_N_char by (apply N.mod_lt; lia).
    f_equal. rewrite Z.pow_add_r, Z.pow_1_r by lia.
    pose proof (N.div_mod x 10 ltac:(lia)) as Hdm.
    rewrite N2Z.inj_div, N2Z.inj_mod. 
    pose proof (Z.div_mod (Z.of_N x) 10 ltac:(lia)) as Hz.
    change (Z.of_N 10) with 10.
    generalize (10 ^ k) as t. intros t. nia.
Qed.

Lemma pretty_N_go_starts_digit (x : N) (s : string) :
  (0 < x)%N -> starts_digit (pretty_N_go x s).
Proof.
  revert s. induction (N.lt_wf_0 x) as [x _ IH]; intros s Hpos.
  rewrite pretty_N_go_step by done.
  destruct (decide (x `div` 10 = 0)%N) as [E | Hne].
  - rewrite E, pretty_N_go_0. cbn.
    rewrite digit10_pretty_N_char by (apply N.mod_lt; lia). by eexists.
  - apply IH; [apply N.div_lt; lia | by apply N.neq_0_lt_0].
Qed.

Lemma parseInt10_starts_digit (s : string) :
  starts_digit s -> parseInt10 s = Some (parse10 s 0).
Proof.
  destruct s as [| c r]; [done |]. cbn [starts_digit].
  destruct c as [[] [] [] [] [] [] [] []]; intros [d Hd];
    try discriminate Hd; reflexivity.
Qed.

Lemma parseInt10_minus (s : string) :
  starts_digit s -> parseInt10 (String "-" s) = Some (- parse10 s 0).
Proof.
  destruct s as [| c r]; [done |]. cbn [starts_digit].
  destruct c as [[] [] [] [] [] [] [] []]; intros [d Hd];
    try discriminate Hd; reflexivity.
Qed.

Lemma parse10_pretty_positive (p : positive) :
  starts_digit (pretty_N_go (N.pos p) "") /\
  parse10 (pretty_N_go (N.pos p) "") 0 = Z.pos p.
Proof.
  split; [by apply pretty_N_go_starts_digit |].
  destruct (parse10_pretty_N_go (N.pos p) "" 0) as (k & _ & ->).
  cbn [parse10]. lia.
Qed.

(** Round trip: [parseInt (String (n), 10)] is [n], for every integer. *)
Lemma parseInt10_pretty (z : Z) : parseInt10 (pretty z) = Some z.
Proof.
  destruct z as [| p | p].
  - reflexivity.
  - change (pretty (Z.pos p)) with (pretty_N_go (N.pos p) "").
    destruct (parse10_pretty_positive p) as [Hd Hv].
    by rewrite parseInt10_starts_digit, Hv.
  - change (pretty (Z.neg p)) with (String "-" (pretty_N_go (N.pos p) "")).
    destruct (parse10_pretty_positive p) as [Hd Hv].
    by rewrite parseInt10_minus, Hv.
Qed.

(** The property name of a vnode id determines the id: distinct numbers,
    and [NaN], have distinct names. *)
Lemma parseInt10_key (n : option Z) : parseInt10 (key n) = n.
Proof. destruct n as [z |]; [apply parseInt10_pretty | reflexivity]. Qed.

Lemma key_inj (a b : option Z) : key a = key b -> a = b.
Proof. intros E. rewrite <- (parseInt10_key a), <- (parseInt10_key b). by rewrite E. Qed.

End Decimal.

Section Register.

Import JS Coordinator CoordinatorSpec.


(** The loop collects the free ids in order until it has enough. *)
Lemma scan_take (m : gmap string string) (d : Z) (ids acc : list Z) :
  (length acc < Z.to_nat d)%nat ->
  scan m d ids acc
  = acc ++ take (Z.to_nat d - length acc)
                (filter (fun i => occupied m i = false) ids).
Proof.
  revert acc. induction ids as [| i rest IH]; intros acc Hlen.
  - cbn [scan]. by rewrite filter_nil, take_nil, app_nil_r.
  - cbn [scan]. fold (occupied m i).
    destruct (occupied m i) eqn:Hocc; cbn [negb].
    + rewrite filter_cons_False by (rewrite Hocc; discriminate).
      by apply IH.
    + rewrite filter_cons_True by exact Hocc.
      rewrite length_app. cbn [length].
      destruct (Z.geb_spec (Z.of_nat (length acc + 1)) d) as [Hge | Hlt].
      * replace (Z.to_nat d - length acc)%nat with 1%nat by lia.
        cbn [take]. by rewrite take_0.
      * rewrite IH by (rewrite length_app; cbn [length]; lia).
        rewrite length_app. cbn [length].
        replace (Z.to_nat d - length acc)%nat
          with (S (Z.to_nat d - (length acc + 1)))%nat by lia.
        cbn [take]. by rewrite <- app_assoc.
Qed.

Lemma desiredVnodes_pos (V w : Z) : 1 <= desiredVnodes V w.
Proof. unfold desiredVnodes. lia. Qed.

Lemma scan_chosen (m : gmap string string) (V w : Z) :
  scan m (desiredVnodes V w) (vnodeIds V) []
  = take (Z.to_nat (desiredVnodes V w))
         (filter (fun i => occupied m i = false) (vnodeIds V)).
Proof.
  pose proof (desiredVnodes_pos V w).
  rewrite scan_take by (cbn [length]; lia).
  cbn [app length]. by rewrite Nat.sub_0_r.
Qed.

Lemma vnodeIds_range (V i : Z) : i ∈ vnodeIds V <-> 0 <= i < V.
Proof.
  unfold vnodeIds. rewrite list_elem_of_In, in_map_iff. split.
  - intros (n & <- & Hn). apply in_seq in Hn. lia.
  - intros Hi. exists (Z.to_nat i). split; [lia |]. apply in_seq. lia.
Qed.

Variable config : Config.t.




(** Registration keeps the owners of the directory non-empty. *)
Lemma register_preserves_owners_wf (st : State) (req : RegisterBody) :
  owners_wf (Directory.owners (redis st)) ->
  owners_wf (Directory.owners (redis (register config st req).2)).
Proof.
  intros Hwf. unfold register.
  destruct (truthy (reg_instanceId req)) eqn:Hid; [| done]. cbn [negb].
  case_bool_decide; [done |]. cbn [snd redis].
  destruct (truthy_true _ Hid) as (instanceId & -> & Hne).
  cbn [default from_option]. unfold id.
  unfold Directory.updateVnodeOwners. case_decide; [done |]. cbn [Directory.owners].
  intros k v Hk. apply lookup_union_Some_raw in Hk as [Hk | [_ Hk]];
    [| by eapply Hwf].
  unfold mappingsFor in Hk. rewrite lookup_owners_from in Hk.
  case_decide; [congruence | by rewrite lookup_empty in Hk].
Qed.

End Register.

Section Unregister.

Import JS Coordinator CoordinatorSpec.

(** *** The order of [Object.entries] *)








Lemma entries_Permutation (rank : string -> nat) (m : gmap string string) :
  entries rank m ≡ₚ map_to_list m.
Proof. apply merge_sort_Permutation. Qed.


Lemma elem_of_vnodesOf (rank : string -> nat) (m : gmap string string) (N k : string) :
  k ∈ vnodesOf rank m N <-> m !! k = Some N.
Proof.
  unfold vnodesOf. rewrite list_elem_of_fmap. split.
  - intros ([k' v] & -> & Hin). apply list_elem_of_filter in Hin as [Hv Hin].
    rewrite entries_Permutation in Hin.
    apply elem_of_map_to_list in Hin. cbn in *. by subst v.
  - intros Hk. exists (k, N). split; [reflexivity |].
    apply list_elem_of_filter. split; [reflexivity |].
    rewrite entries_Permutation. by apply elem_of_map_to_list.
Qed.




(** *** The handler *)

Lemma owners_hdel (ks : list string) (d : Directory.t) :
  Directory.owners (fold_left Directory.hdelOwner ks d)
  = fold_left (fun m k => delete k m) ks (Directory.owners d).
Proof. revert d. induction ks as [| k ks IH]; intros d; [done |]. apply IH. Qed.

Lemma users_hdel (ks : list string) (d : Directory.t) :
  Directory.users (fold_left Directory.hdelOwner ks d) = Directory.users d /\
  Directory.loads (fold_left Directory.hdelOwner ks d) = Directory.loads d.
Proof.
  revert d. induction ks as [| k ks IH]; intros d; [done |].
  cbn [fold_left]. destruct (IH (Directory.hdelOwner d k)) as [-> ->]. done.
Qed.

Lemma lookup_delete_all (ks : list string) (m : gmap string string) (k : string) :
  fold_left (fun m k => delete k m) ks m !! k
  = if decide (k ∈ ks) then None else m !! k.
Proof.
  revert m. induction ks as [| k' ks IH]; intros m.
  - cbn. case_decide as H; [by apply elem_of_nil in H | done].
  - cbn [fold_left]. rewrite IH.
    destruct (decide (k ∈ ks)) as [Hin | Hnin].
    + rewrite decide_True by (by right). done.
    + destruct (decide (k = k')) as [-> | Hne].
      * rewrite decide_True by (by left). apply lookup_delete_eq.
      * rewrite decide_False by (rewrite elem_of_cons; tauto).
        by apply lookup_delete_ne.
Qed.

Lemma delete_all_subseteq (ks : list string) (m : gmap string string) :
  fold_left (fun m k => delete k m) ks m ⊆ m.
Proof.
  revert m. induction ks as [| k ks IH]; intros m; [done |].
  cbn [fold_left]. etrans; [apply IH | apply delete_subseteq].
Qed.

(** The local ring keeps every mapping: the copy without the removed
    vnodes is merged back by [Object.assign], which deletes nothing. *)
Lemma unregister_keeps_local_ring
    (rank : string -> nat) (st : State) (req : UnregisterBody) :
  Ring.vnodeMap (consistentHash (unregister rank st req).2)
  = Ring.vnodeMap (consistentHash st).
Proof.
  unfold unregister.
  destruct (negb (truthy (unreg_instanceId req))); [done |].
  case_bool_decide; [done |]. cbn.
  apply map_subseteq_union, delete_all_subseteq.
Qed.


End Unregister.


(** C7, at the failing input: when instance [A] owns vnode 0,
    unregistering [A] succeeds with [removedVnodes] equal to the array of
    the string ["0"], which is not an array of integers, whereas the
    registration of [A] on the empty ring lists its vnodes as numbers. *)
Lemma unregister_removed_ids_are_strings :
  let resp :=
    (Coordinator.unregister Scenario.rank Scenario.owned_by_A
       {| Coordinator.unreg_instanceId := Some "A"%string |}).1 in
  let sibling :=
    (Coordinator.register Scenario.config Scenario.empty_coordinator
       {| Coordinator.reg_instanceId := Some "A"%string;
          Coordinator.reg_weight := None |}).1 in
  Coordinator.status resp = 200 /\
  CoordinatorSpec.json_field "removedVnodes" (Coordinator.body resp)
  = Some (JS.JArr [JS.JStr "0"]) /\
  CoordinatorSpec.is_int_array
    (CoordinatorSpec.json_field "removedVnodes" (Coordinator.body resp)) = false /\
  CoordinatorSpec.is_int_array
    (CoordinatorSpec.json_field "assignedVnodes" (Coordinator.body sibling)) = true.
Proof. vm_compute. done. Qed.
Section Route.

Import JS Coordinator CoordinatorSpec.

Lemma truthy_ownerIn (m : gmap string string) (v : option Z) :
  truthy (m !! key v) = bool_decide (is_Some (ownerIn m v)) /\
  (truthy (m !! key v) = true -> m !! key v = ownerIn m v).
Proof.
  unfold ownerIn. destruct (m !! key v) as [o |] eqn:E.
  - destruct (decide (o = EmptyString)) as [-> | Hne].
    + split; [| discriminate].
      rewrite bool_decide_false; [done | by intros [? ?]].
    + split; [| done]. apply truthy_Some in Hne. rewrite Hne.
      rewrite bool_decide_true; [done | by eexists].
  - split; [| discriminate].
    rewrite bool_decide_false; [done | by intros [? ?]].
Qed.

Lemma getInstanceForVnode_ownerIn (h : Ring.ConsistentHash) (v : option Z) :
  Ring.getInstanceForVnode h v = ownerIn (Ring.vnodeMap h) v.
Proof.
  unfold Ring.getInstanceForVnode, ownerIn.
  destruct (Ring.vnodeMap h !! key v) as [o |]; [| done].
  destruct (decide (o = EmptyString)) as [-> | Hne]; [done |].
  apply truthy_Some in Hne. by rewrite Hne.
Qed.

Lemma truthy_ownerIn_Some (m : gmap string string) (v : option Z) (o : string) :
  ownerIn m v = Some o -> truthy (Some o) = true.
Proof.
  unfold ownerIn. destruct (m !! key v) as [o' |]; [| discriminate].
  case_decide; [discriminate |]. intros [= <-]. by apply truthy_Some.
Qed.



Lemma vnodeMap_setVnodeMapping
    (h : Ring.ConsistentHash) (v : option Z) (inst k : string) :
  Ring.vnodeMap (Ring.setVnodeMapping h v inst) !! k
  = if decide (k = key v) then Some inst else Ring.vnodeMap h !! k.
Proof.
  unfold Ring.setVnodeMapping. cbn [Ring.vnodeMap].
  destruct (decide (k = _)) as [-> | Hne].
  - apply lookup_insert_eq.
  - by apply lookup_insert_ne.
Qed.


End Route.

(** ** Presence node *)

Section BusEvents.

Import JS Node NodeSpec.

Variable config : Config.t.

Lemma bus_message_onlineUsers (st : State) (ev : Event) :
  onlineUsers (bus_message config st ev).1
  = apply_op (op_of_event config ev) (onlineUsers st).
Proof.
  unfold bus_message, op_of_event.
  destruct (String.eqb (ev_nodeId ev) (Config.nodeId config)); [done |].
  destruct (isUserOwnedByThisNode config (ev_userId ev)); [| done].
  cbn [negb].
  destruct (Ring.getUserVnode (consistentHash config) (ev_userId ev)) as [v |];
    [| done].
  destruct (String.eqb (ev_action ev) "online").
  { cbn [apply_op]. by destruct (onlineUsers st !! v). }
  destruct (String.eqb (ev_action ev) "offline").
  { cbn [apply_op]. by destruct (onlineUsers st !! v). }
  cbn [apply_op]. by destruct (onlineUsers st !! v).
Qed.

(** A bus message changes nothing but [onlineUsers]. *)
Lemma bus_message_rest (st : State) (ev : Event) :
  clients (bus_message config st ev).1 = clients st /\
  sockets (bus_message config st ev).1 = sockets st /\
  pending (bus_message config st ev).1 = pending st /\
  closeListeners (bus_message config st ev).1 = closeListeners st.
Proof.
  unfold bus_message.
  repeat (case_match; try done).
Qed.

Lemma shaped_keep : shaped (fun ou => ou).
Proof.
  exists (fun _ => ∅), (fun _ => ∅). intros ou v.
  destruct (ou !! v) as [s |]; cbn; [f_equal; set_solver | done].
Qed.

Lemma shaped_op (o : SetOp) : shaped (apply_op o).
Proof.
  destruct o as [| v u | v u].
  - apply shaped_keep.
  - exists (fun v' => if decide (v' = v) then {[u]} else ∅), (fun _ => ∅).
    intros ou v'. cbn [apply_op].
    destruct (decide (v' = v)) as [-> | Hne].
    + destruct (ou !! v) as [s |] eqn:E.
      * rewrite lookup_insert_eq. cbn. f_equal. set_solver.
      * by rewrite E.
    + destruct (ou !! v) as [s |] eqn:E.
      * rewrite lookup_insert_ne by done.
        destruct (ou !! v') as [s' |]; cbn; [f_equal; set_solver | done].
      * destruct (ou !! v') as [s' |]; cbn; [f_equal; set_solver | done].
  - exists (fun _ => ∅), (fun v' => if decide (v' = v) then {[u]} else ∅).
    intros ou v'. cbn [apply_op].
    destruct (decide (v' = v)) as [-> | Hne].
    + destruct (ou !! v) as [s |] eqn:E.
      * rewrite lookup_insert_eq. cbn. f_equal. set_solver.
      * by rewrite E.
    + destruct (ou !! v) as [s |] eqn:E.
      * rewrite lookup_insert_ne by done.
        destruct (ou !! v') as [s' |]; cbn; [f_equal; set_solver | done].
      * destruct (ou !! v') as [s' |]; cbn; [f_equal; set_solver | done].
Qed.

Lemma shaped_compose (f g : gmap Z (gset string) -> gmap Z (gset string)) :
  shaped f -> shaped g -> shaped (fun ou => g (f ou)).
Proof.
  intros (A1 & D1 & Hf) (A2 & D2 & Hg).
  exists (fun v => (A1 v ∖ D2 v) ∪ A2 v), (fun v => D1 v ∪ D2 v).
  intros ou v. rewrite Hg, Hf.
  destruct (ou !! v) as [s |]; cbn; [f_equal; set_solver | done].
Qed.

(** Removing then adding fixed members twice is the same as once. *)
Lemma shaped_idempotent (f : gmap Z (gset string) -> gmap Z (gset string)) :
  shaped f -> forall ou, f (f ou) = f ou.
Proof.
  intros (A & D & Hf) ou. apply map_eq. intros v. rewrite !Hf.
  destruct (ou !! v) as [s |]; cbn; [f_equal; set_solver | done].
Qed.

Lemma shaped_ops (ops : list SetOp) : shaped (apply_ops ops).
Proof.
  induction ops as [| o ops IH] using rev_ind.
  - apply shaped_keep.
  - destruct (shaped_compose _ _ IH (shaped_op o)) as (A & D & H).
    exists A, D. intros ou v. unfold apply_ops. rewrite fold_left_app. apply H.
Qed.

Lemma apply_events_onlineUsers (st : State) (evs : list Event) :
  onlineUsers (apply_events config st evs)
  = apply_ops (op_of_event config <$> evs) (onlineUsers st).
Proof.
  revert st. induction evs as [| ev evs IH]; intros st; [done |].
  cbn [apply_events fold_left fmap list_fmap apply_ops].
  fold (apply_events config (bus_message config st ev).1 evs).
  rewrite IH, bus_message_onlineUsers. reflexivity.
Qed.

(** C6: applying bus events to [onlineUsers] is idempotent: an [online]
    event for an owned user who is already in the set of the user's vnode,
    and an [offline] event for an owned user who is not in it, leave
    [onlineUsers] unchanged; and for every state and every sequence of
    events, applying the sequence a second time yields the same
    [onlineUsers] as applying it once. *)
Theorem bus_events_idempotent (st : State) (evs : list Event) :
  (forall ev v s,
      ev_nodeId ev <> Config.nodeId config ->
      Ring.getUserVnode (consistentHash config) (ev_userId ev) = Some v ->
      v ∈ Config.assignedVnodes config ->
      onlineUsers st !! v = Some s ->
      (ev_action ev = "online"%string -> ev_userId ev ∈ s ->
       onlineUsers (bus_message config st ev).1 = onlineUsers st) /\
      (ev_action ev = "offline"%string -> ev_userId ev ∉ s ->
       onlineUsers (bus_message config st ev).1 = onlineUsers st)) /\
  onlineUsers (apply_events config (apply_events config st evs) evs)
  = onlineUsers (apply_events config st evs).
Proof.
  split.
  - intros ev v s Hnode Hv Hin Hs.
    assert (Hop : forall a, ev_action ev = a ->
              op_of_event config ev
              = if String.eqb a "online" then Add v (ev_userId ev)
                else if String.eqb a "offline" then Remove v (ev_userId ev)
                else Keep).
    { intros a <-. unfold op_of_event.
      apply String.eqb_neq in Hnode. rewrite Hnode.
      unfold isUserOwnedByThisNode. rewrite Hv.
      by rewrite bool_decide_true by done. }
    split; intros Ha Hmem; rewrite bus_message_onlineUsers, (Hop _ Ha);
      cbn [String.eqb Ascii.eqb Bool.eqb apply_op]; rewrite Hs;
      apply insert_id; rewrite Hs; f_equal; set_solver.
  - rewrite !apply_events_onlineUsers.
    apply (shaped_idempotent _ (shaped_ops _)).
Qed.

End BusEvents.

Section NodeInvariant.

Import JS Node NodeSpec.

Variable config : Config.t.
Variable jwt_verify : string -> option (option string).
Variable url_token : string -> JS.result (option string).

Lemma dom_initialOnlineUsers_from (l : list Z) (o : gmap Z (gset string)) :
  dom (fold_left (fun o vnodeId => <[vnodeId := ∅]> o) l o)
  = list_to_set l ∪ dom o.
Proof.
  revert o. induction l as [| v l IH]; intros o; cbn [fold_left list_to_set].
  - set_solver.
  - rewrite IH, dom_insert_L. set_solver.
Qed.

Lemma lookup_initialOnlineUsers_from (l : list Z) (o : gmap Z (gset string)) v s :
  fold_left (fun o vnodeId => <[vnodeId := ∅]> o) l o !! v = Some s ->
  s = ∅ \/ o !! v = Some s.
Proof.
  revert o. induction l as [| v' l IH]; intros o; cbn [fold_left].
  - by right.
  - intros H. destruct (IH _ H) as [-> | H']; [by left |].
    destruct (decide (v' = v)) as [-> | Hne].
    + rewrite lookup_insert_eq in H'. left. congruence.
    + rewrite lookup_insert_ne in H' by done. by right.
Qed.

Lemma users_placed_initial : users_placed config (onlineUsers (initial config)).
Proof.
  split; cbn [initial onlineUsers]; unfold initialOnlineUsers.
  - rewrite dom_initialOnlineUsers_from. set_solver.
  - intros v s u Hs Hu.
    destruct (lookup_initialOnlineUsers_from _ _ _ _ Hs) as [-> | H].
    + set_solver.
    + by rewrite lookup_empty in H.
Qed.

Lemma users_placed_add (ou : gmap Z (gset string)) v s u :
  users_placed config ou -> ou !! v = Some s ->
  Ring.getUserVnode (consistentHash config) u = Some v ->
  users_placed config (<[v := s ∪ {[u]}]> ou).
Proof.
  intros [Hdom Hmem] Hs Hu. split.
  - rewrite dom_insert_L, <- Hdom.
    assert (v ∈ dom ou) by (apply elem_of_dom; eauto). set_solver.
  - intros v' s' u' Hs' Hu'.
    destruct (decide (v = v')) as [<- | Hne].
    + rewrite lookup_insert_eq in Hs'. injection Hs' as <-.
      apply elem_of_union in Hu' as [Hu' | Hu']; [by eapply Hmem |].
      apply elem_of_singleton in Hu'. by subst u'.
    + rewrite lookup_insert_ne in Hs' by done. by eapply Hmem.
Qed.

Lemma users_placed_remove (ou : gmap Z (gset string)) v s u :
  users_placed config ou -> ou !! v = Some s ->
  users_placed config (<[v := s ∖ {[u]}]> ou).
Proof.
  intros [Hdom Hmem] Hs. split.
  - rewrite dom_insert_L, <- Hdom.
    assert (v ∈ dom ou) by (apply elem_of_dom; eauto). set_solver.
  - intros v' s' u' Hs' Hu'.
    destruct (decide (v = v')) as [<- | Hne].
    + rewrite lookup_insert_eq in Hs'. injection Hs' as <-.
      apply elem_of_difference in Hu' as [Hu' _]. by eapply Hmem.
    + rewrite lookup_insert_ne in Hs' by done. by eapply Hmem.
Qed.

Lemma ws_close_onlineUsers (st : State) ws code reason :
  onlineUsers (ws_close st ws code reason).1 = onlineUsers st /\
  clients (ws_close st ws code reason).1 = clients st.
Proof. unfold ws_close. repeat case_match; done. Qed.

Lemma connection_failed_onlineUsers (st : State) ws :
  onlineUsers (connection_failed st ws).1 = onlineUsers st /\
  clients (connection_failed st ws).1 = clients st.
Proof.
  unfold connection_failed. case_bool_decide; [| done].
  pose proof (ws_close_onlineUsers st ws 1011 "Internal server error").
  by destruct (ws_close st ws 1011 "Internal server error").
Qed.

Lemma connection_placed (st : State) ws req now :
  users_placed config (onlineUsers st) ->
  users_placed config
    (onlineUsers (connection config jwt_verify url_token st ws req now).1).
Proof.
  intros Hinv. unfold connection.
  destruct (Auth.extractToken url_token req) as [token |];
    [| by rewrite (proj1 (connection_failed_onlineUsers _ _))].
  destruct (negb (truthy _)); [by rewrite (proj1 (ws_close_onlineUsers _ _ _ _)) |].
  destruct (negb (truthy _)); [by rewrite (proj1 (ws_close_onlineUsers _ _ _ _)) |].
  destruct (negb (isUserOwnedByThisNode _ _));
    [by rewrite (proj1 (ws_close_onlineUsers _ _ _ _)) |].
  destruct (Ring.getUserVnode _ _) as [v |] eqn:Hv;
    [| by rewrite (proj1 (connection_failed_onlineUsers _ _))].
  cbn [set_clients onlineUsers].
  destruct (onlineUsers st !! v) as [s |] eqn:Hs;
    [| by rewrite (proj1 (connection_failed_onlineUsers _ _))].
  cbn [set_pending set_onlineUsers onlineUsers fst].
  by apply users_placed_add.
Qed.

Lemma connection_resume_onlineUsers (st : State) ws ok now :
  onlineUsers (connection_resume config st ws ok now).1 = onlineUsers st.
Proof.
  unfold connection_resume.
  destruct (pending st !! ws) as [[[u v] t] |]; [| done].
  destruct ok; [done |].
  by rewrite (proj1 (connection_failed_onlineUsers _ _)).
Qed.

Lemma socket_closed_placed (st : State) ws ok now :
  users_placed config (onlineUsers st) ->
  users_placed config (onlineUsers (socket_closed config st ws ok now).1).
Proof.
  intros Hinv. unfold socket_closed.
  destruct (sockets st !! ws) as [[| |] |]; try done;
    cbn [set_sockets closeListeners onlineUsers];
    (destruct (closeListeners st !! ws) as [[u v] |]; [| done]);
    (destruct (onlineUsers st !! v) as [s |] eqn:Hs; [| done]);
    cbn [set_clients set_onlineUsers onlineUsers fst];
    by eapply users_placed_remove.
Qed.

Lemma bus_message_placed (st : State) ev :
  users_placed config (onlineUsers st) ->
  users_placed config (onlineUsers (bus_message config st ev).1).
Proof.
  intros Hinv. unfold bus_message.
  destruct (String.eqb _ _); [done |].
  destruct (negb _); [done |].
  destruct (Ring.getUserVnode _ _) as [v |] eqn:Hv; [| done].
  destruct (onlineUsers st !! v) as [s |] eqn:Hs; [| done].
  cbn [fst].
  destruct (String.eqb _ "online"); [by apply users_placed_add |].
  destruct (String.eqb _ "offline"); [by eapply users_placed_remove | done].
Qed.

Lemma step_placed (st : State) (i : Input) :
  users_placed config (onlineUsers st) ->
  users_placed config (onlineUsers (step config jwt_verify url_token st i).1).
Proof.
  intros Hinv. destruct i as [ws req now | ws ok now | ws ok now | ev];
    cbn [step].
  - destruct (sockets st !! ws); [done |]. by apply connection_placed.
  - by rewrite connection_resume_onlineUsers.
  - by apply socket_closed_placed.
  - by apply bus_message_placed.
Qed.

Lemma run_snoc (st : State) (inputs : list Input) (i : Input) :
  (run config jwt_verify url_token st (inputs ++ [i])).1
  = (step config jwt_verify url_token
          (run config jwt_verify url_token st inputs).1 i).1.
Proof.
  unfold run. rewrite fold_left_app. cbn [fold_left].
  by destruct (step _ _ _ _ _).
Qed.

(** C10: in every state the node reaches from its initial state by
    connections, completions of their sends, socket closes and bus
    messages, the keys of [onlineUsers] are exactly the assigned vnodes,
    and every user in [onlineUsers[v]] hashes to [v]. *)
Theorem onlineUsers_keys_and_placement (inputs : list Input) :
  let st := (run config jwt_verify url_token (initial config) inputs).1 in
  dom (onlineUsers st) = list_to_set (Config.assignedVnodes config) /\
  forall v s u, onlineUsers st !! v = Some s -> u ∈ s ->
                Ring.getUserVnode (consistentHash config) u = Some v.
Proof.
  induction inputs as [| i inputs IH] using rev_ind.
  - apply users_placed_initial.
  - cbn zeta. rewrite run_snoc. by apply step_placed.
Qed.

End NodeInvariant.

Lemma onlineUsers_keys_and_placement_witness :
  Ring.getUserVnode (Node.consistentHash Scenario.config) "u1" = Some 221.
Proof.
  destruct (onlineUsers_keys_and_placement Scenario.config Scenario.jwt_verify
              Scenario.url_token Scenario.two_connections) as [_ Hmem].
  apply (Hmem 221 {[ "u1"%string ]} "u1"%string).
  - vm_compute. reflexivity.
  - apply elem_of_singleton. reflexivity.
Defined.

(** A replayed [online] event for a user who is already online changes
    nothing. *)
Lemma bus_events_idempotent_witness :
  let st := (Node.run Scenario.config Scenario.jwt_verify Scenario.url_token
               (Node.initial Scenario.config) Scenario.two_connections).1 in
  let ev := {| Node.ev_userId := "u1"; Node.ev_action := "online";
               Node.ev_timestamp := 30; Node.ev_nodeId := "node-2" |} in
  Node.onlineUsers (Node.bus_message Scenario.config st ev).1 = Node.onlineUsers st.
Proof.
  intros st ev.
  destruct (bus_events_idempotent Scenario.config st [ev]) as [Hone _].
  destruct (Hone ev 221 {[ "u1"%string ]}) as [Honline _].
  - discriminate.
  - vm_compute. reflexivity.
  - apply list_elem_of_In. left. reflexivity.
  - vm_compute. reflexivity.
  - apply Honline; [reflexivity | by apply elem_of_singleton].
Defined.

Section Connect.

Import JS Node NodeSpec.

Variable config : Config.t.
Variable jwt_verify : string -> option (option string).
Variable url_token : string -> JS.result (option string).


(** C5, as amended: for every accepted connection whose user already has
    an entry in [clients], the node replaces the entry by the new socket
    and closes nothing: the connection has no effect on the outside, the
    previous socket stays open and keeps its close listener, and
    [clients] holds the new socket for that user. *)
Theorem second_connection_overwrites
    (st : State) (ws previous : nat) (req : Auth.Request) (now : Z)
    (userId : string) (v : Z) (users : gset string) :
  sockets st !! ws = None ->
  accepted config jwt_verify url_token req userId v ->
  onlineUsers st !! v = Some users ->
  clients st !! userId = Some previous ->
  sockets st !! previous = Some OPEN ->
  let '(st', effs) := step config jwt_verify url_token st (Connection ws req now) in
  effs = [] /\
  clients st' = <[userId := ws]> (clients st) /\
  sockets st' !! previous = Some OPEN /\
  closeListeners st' = closeListeners st /\
  onlineUsers st' = <[v := users ∪ {[userId]}]> (onlineUsers st) /\
  clients st' !! userId = Some ws.
Proof.
  intros Hnew (token & Htok & Hne & Huid & Hune & Hv & Hin) Hou Hprev Hopen.
  cbn [step]. rewrite Hnew. unfold connection.
  rewrite Htok. apply truthy_Some in Hne. rewrite Hne.
  cbn [negb default from_option]. unfold id. rewrite Huid.
  apply truthy_Some in Hune. rewrite Hune.
  cbn [negb default from_option]. unfold id.
  unfold isUserOwnedByThisNode. rewrite Hv.
  rewrite bool_decide_true by done. cbn [negb].
  cbn [set_clients set_sockets onlineUsers]. rewrite Hou.
  cbn. split_and!; try done.
  - rewrite lookup_insert_ne; [done | congruence].
  - apply lookup_insert_eq.
Qed.

End Connect.


Lemma second_connection_overwrites_witness :
  let st := (Node.run Scenario.config Scenario.jwt_verify Scenario.url_token
               (Node.initial Scenario.config)
               (take 2 Scenario.two_connections)).1 in
  (Node.step Scenario.config Scenario.jwt_verify Scenario.url_token st
     (Node.Connection 2 (Scenario.bearer "token-u1") 20)).2 = [].
Proof.
  intros st.
  pose proof (second_connection_overwrites Scenario.config
                Scenario.jwt_verify Scenario.url_token st 2 1
                (Scenario.bearer "token-u1") 20 "u1" 221 {[ "u1"%string ]}) as H.
  destruct (Node.step _ _ _ _ _) as [st' effs].
  destruct H as (-> & _).
  - vm_compute. reflexivity.
  - exists "token-u1"%string. split_and!.
    + reflexivity.
    + discriminate.
    + reflexivity.
    + discriminate.
    + vm_compute. reflexivity.
    + apply list_elem_of_In. left. reflexivity.
  - vm_compute. reflexivity.
  - vm_compute. reflexivity.
  - vm_compute. reflexivity.
  - reflexivity.
Defined.

(** C5, as the specification states it: after two accepted connections of
    user [u1], no [ws.close] was called on the first socket, with code 1001
    or any other, and the user has two live local sessions. *)
Lemma second_connection_does_not_close_first :
  let '(st, effs) :=
    Node.run Scenario.config Scenario.jwt_verify Scenario.url_token
      (Node.initial Scenario.config) Scenario.two_connections in
  NodeSpec.closes_of 1 effs = [] /\
  NodeSpec.liveSessions st "u1" = [2%nat; 1%nat] /\
  (length (NodeSpec.liveSessions st "u1") <=? 1)%nat = false /\
  Node.clients st !! "u1"%string = Some 2%nat.
Proof. vm_compute. split_and!; reflexivity. Qed.

(** ** Start-up of the presence node *)

Section StartupFacts.

Import JS Startup StartupSpec MoreSpec.

Variable config : Config.t.
Variable jwt_verify : string -> option (option string).
Variable url_token : string -> JS.result (option string).

Lemma heartbeatOwners_lookup (v : Z) :
  v ∈ Config.assignedVnodes config ->
  Node.heartbeatOwners config !! key (Some v) = Some (Config.nodeId config).
Proof.
  intros Hv. unfold Node.heartbeatOwners. rewrite lookup_owners_from.
  rewrite decide_True; [done |].
  apply list_elem_of_fmap. by exists v.
Qed.

Lemma loads_from_lookup (st : Node.State) (l : list Z) (m0 m : gmap string string) :
  fold_left (fun acc vnodeId =>
               m ← acc;
               users ← Node.onlineUsers st !! vnodeId;
               Some (<[key (Some vnodeId) := pretty (Z.of_nat (size users))]> m))
            l (Some m0) = Some m ->
  (forall v users, v ∈ l -> Node.onlineUsers st !! v = Some users ->
                   m !! key (Some v) = Some (pretty (Z.of_nat (size users)))) /\
  (forall v, v ∉ l -> m !! key (Some v) = m0 !! key (Some v)).
Proof.
  revert m0. induction l as [| a l IH]; intros m0; cbn [fold_left].
  - intros [= <-]. split; [intros v users Hv; by apply elem_of_nil in Hv | done].
  - destruct (Node.onlineUsers st !! a) as [users_a |] eqn:Ha; cbn.
    + intros H. destruct (IH _ H) as [Hin Hout]. split.
      * intros v users Hv Hu. destruct (decide (v ∈ l)) as [Hl | Hl];
          [by apply Hin |].
        apply elem_of_cons in Hv as [Heq | Hv]; [| done].
        change (pretty v) with (key (Some v)).
        rewrite (Hout v Hl), Heq. change (key (Some a)) with (pretty a).
        rewrite lookup_insert_eq. congruence.
      * intros v Hv. apply not_elem_of_cons in Hv as [Hne Hv].
        change (pretty v) with (key (Some v)).
        rewrite (Hout v Hv). apply lookup_insert_ne.
        change (pretty a) with (key (Some a)).
        intros E. apply key_inj in E. congruence.
    + intros H. exfalso. clear -H.
      induction l as [| b l IHl]; [discriminate | by apply IHl].
Qed.


(** A heartbeat that builds its loads has found a set for every vnode. *)
Lemma loads_from_sets (st : Node.State) (l : list Z) (acc : option (gmap string string))
    (m : gmap string string) :
  fold_left (fun acc vnodeId =>
               m ← acc;
               users ← Node.onlineUsers st !! vnodeId;
               Some (<[key (Some vnodeId) := pretty (Z.of_nat (size users))]> m))
            l acc = Some m ->
  is_Some acc /\ forall v, v ∈ l -> is_Some (Node.onlineUsers st !! v).
Proof.
  revert acc. induction l as [| v l IH]; intros acc; cbn [fold_left].
  - intros ->. split; [by eexists |]. intros v Hv. by apply elem_of_nil in Hv.
  - intros H. destruct (IH _ H) as [[m1 Hm1] Hall].
    destruct acc as [m0 |]; [| discriminate]. cbn in Hm1.
    destruct (Node.onlineUsers st !! v) as [users |] eqn:Hv; [| discriminate].
    split; [by eexists |].
    intros v' Hv'. apply elem_of_cons in Hv' as [-> | Hv']; [by eexists | by apply Hall].
Qed.

Lemma heartbeatLoads_sizes (st : Node.State) (m : gmap string string) (v : Z) :
  Node.heartbeatLoads config st = Some m ->
  v ∈ Config.assignedVnodes config ->
  exists users, Node.onlineUsers st !! v = Some users /\
                m !! key (Some v) = Some (pretty (Z.of_nat (size users))).
Proof.
  intros H Hv. destruct (loads_from_sets _ _ _ _ H) as [_ Hall].
  destruct (Hall v Hv) as [users Hu]. exists users. split; [exact Hu |].
  by apply (proj1 (loads_from_lookup _ _ _ _ H)).
Qed.

Lemma heartbeatLoads_counts (st : Node.State) (m : gmap string string) :
  Node.heartbeatLoads config st = Some m -> counts config m.
Proof.
  intros H v Hv. destruct (heartbeatLoads_sizes st m v H Hv) as (users & _ & Hm).
  by exists (size users).
Qed.

Lemma loads_from_total (st : Node.State) (l : list Z) (m0 : gmap string string) :
  (forall v, v ∈ l -> is_Some (Node.onlineUsers st !! v)) ->
  is_Some (fold_left (fun acc vnodeId =>
               m ← acc;
               users ← Node.onlineUsers st !! vnodeId;
               Some (<[key (Some vnodeId) := pretty (Z.of_nat (size users))]> m))
            l (Some m0)).
Proof.
  revert m0. induction l as [| v l IH]; intros m0 Hall; cbn [fold_left].
  - by eexists.
  - destruct (Hall v) as [users Hu]; [by left |].
    cbn. rewrite Hu. cbn. apply IH. intros v' Hv'. apply Hall. by right.
Qed.

Lemma owners_written_update (d : Directory.t) :
  owners_written config (Directory.updateVnodeOwners d (Node.heartbeatOwners config)).
Proof.
  intros v Hv. rewrite (proj1 (owners_updateVnodeOwners _ _)).
  apply lookup_union_Some_l. by apply heartbeatOwners_lookup.
Qed.

Lemma loads_written_update (d : Directory.t) (m : gmap string string) :
  counts config m -> loads_written config (Directory.updateVnodeLoads d m).
Proof.
  intros Hc v Hv. rewrite (proj1 (loads_updateVnodeLoads _ _)).
  destruct (Hc v Hv) as [n Hn]. exists n. by apply lookup_union_Some_l.
Qed.

Lemma counts_empty : counts config ∅ -> Config.assignedVnodes config = [].
Proof.
  intros Hc. destruct (Config.assignedVnodes config) as [| v l] eqn:E; [done |].
  destruct (Hc v) as [x Hx]; [rewrite E; by left |].
  by rewrite lookup_empty in Hx.
Qed.

Lemma startup_inv_initial (d : Directory.t) : startup_inv config (initial config d).
Proof.
  split_and!; cbn; try done; try lia. apply users_placed_initial.
Qed.

Lemma heartbeatOwners_empty :
  Node.heartbeatOwners config = ∅ -> Config.assignedVnodes config = [].
Proof.
  intros E. destruct (Config.assignedVnodes config) as [| v l] eqn:Ea; [done |].
  assert (Hv : v ∈ Config.assignedVnodes config) by (rewrite Ea; by left).
  pose proof (heartbeatOwners_lookup v Hv) as H. rewrite E in H.
  by rewrite lookup_empty in H.
Qed.

Lemma written_nil (d : Directory.t) :
  Config.assignedVnodes config = [] -> owners_written config d /\ loads_written config d.
Proof.
  intros E. split; intros v Hv; rewrite E in Hv; by apply elem_of_nil in Hv.
Qed.

Lemma issued_iff_listening (p : Process) :
  startup_inv config p -> heartbeat_issued p = listening p.
Proof.
  intros (Hl & Ht & _). destruct (listening p).
  - by destruct (Ht eq_refl).
  - by destruct (Hl eq_refl).
Qed.

(** [start] moves on before the heartbeat. *)
Lemma inv_set_pc_before (p : Process) (c : Pc) :
  startup_inv config p -> heartbeat_issued p = false ->
  (c = AwaitConsumer \/ c = AwaitSubscribe \/ c = Exited) ->
  startup_inv config (set_pc p c).
Proof.
  intros Hinv Hni Hc. pose proof (issued_iff_listening p Hinv) as Hlis.
  rewrite Hni in Hlis. destruct Hinv as (Hl & Ht & Ho & Hld & Hd & Hp).
  split_and!; cbn.
  - intros Hf. destruct (Hl Hf) as (_ & H0 & Htimer).
    unfold heartbeat_issued. cbn. by destruct Hc as [-> | [-> | ->]].
  - congruence.
  - intros o l E. destruct Hc as [-> | [-> | ->]]; discriminate.
  - intros l E. destruct Hc as [-> | [-> | ->]]; discriminate.
  - exact Hd.
  - exact Hp.
Qed.

Lemma listens_of_inv (p : Process) :
  startup_inv config p -> listening p = true -> listens config p.
Proof.
  intros (Hl & Ht & Ho & Hld & Hd & Hp) Hlis.
  destruct (Ht Hlis) as [_ Htimer]. by split_and!.
Qed.

(** [start] returns: the heartbeat ended without counting as done. *)
Lemma inv_set_pc_started (p : Process) :
  listens config p -> startup_inv config (set_pc p Started).
Proof.
  intros (Hlis & Htimer & Hd & Hp). split_and!; cbn; try done; congruence.
Qed.

Lemma inv_done_started (p : Process) :
  listens config p -> owners_written config (redis p) -> loads_written config (redis p) ->
  startup_inv config (set_pc (heartbeat_done p) Started).
Proof.
  intros (Hlis & Htimer & Hd & Hp) Hw1 Hw2.
  split_and!; cbn; try done; congruence.
Qed.

Lemma inv_await_owners (p : Process) (l : gmap string string) :
  listens config p -> counts config l ->
  startup_inv config (set_pc p (AwaitOwners (Node.heartbeatOwners config) l)).
Proof.
  intros (Hlis & Htimer & Hd & Hp) Hcov.
  split_and!; cbn; try done; try congruence.
  by intros o' l' [= <- <-].
Qed.

Lemma inv_await_loads (p : Process) (l : gmap string string) :
  listens config p -> owners_written config (redis p) -> counts config l ->
  startup_inv config (set_pc p (AwaitLoads l)).
Proof.
  intros (Hlis & Htimer & Hd & Hp) Hw Hcov.
  split_and!; cbn; try done; try congruence.
  all: try (by intros l' [= <-]).
  all: intros Hpos; split; [done | by apply Hd].
Qed.

Lemma begin_heartbeat_inv (p : Process) :
  listens config p -> startup_inv config (begin_heartbeat config p Started).
Proof.
  intros Hp. unfold begin_heartbeat.
  destruct (Node.heartbeatLoads config (node p)) as [l |] eqn:Hloads;
    [| by apply inv_set_pc_started].
  pose proof (heartbeatLoads_counts _ _ Hloads) as Hcov.
  destruct (decide (Node.heartbeatOwners config = ∅)) as [Eo | Eo].
  - destruct (written_nil (redis p) (heartbeatOwners_empty Eo)) as [Hw1 Hw2].
    destruct (decide (l = ∅)).
    + by apply inv_done_started.
    + by apply inv_await_loads.
  - by apply inv_await_owners.
Qed.

Lemma listens_set_redis (p : Process) (d : Directory.t) :
  listens config p ->
  ((0 < heartbeatsDone p)%nat -> owners_written config d /\ loads_written config d) ->
  listens config (set_redis p d).
Proof. intros (Hlis & Htimer & Hd & Hp) Hw. by split_and!. Qed.

Lemma loads_written_after_owners (d : Directory.t) (m : gmap string string) :
  loads_written config d -> loads_written config (Directory.updateVnodeOwners d m).
Proof. intros Hw v Hv. rewrite (proj2 (owners_updateVnodeOwners _ _)). by apply Hw. Qed.

Lemma owners_written_after_loads (d : Directory.t) (m : gmap string string) :
  owners_written config d -> owners_written config (Directory.updateVnodeLoads d m).
Proof. intros Hw v Hv. rewrite (proj2 (loads_updateVnodeLoads _ _)). by apply Hw. Qed.

Lemma resume_inv (p : Process) (ok : bool) :
  startup_inv config p -> startup_inv config (resume config p ok).
Proof.
  intros Hinv. pose proof (issued_iff_listening p Hinv) as Hiss.
  pose proof Hinv as (Hl & Ht & Ho & Hld & Hd & Hp). unfold resume.
  unfold heartbeat_issued in Hiss.
  destruct (pc p) as [| | | o l | l | |] eqn:Hpc.
  - destruct ok; apply inv_set_pc_before; auto;
      unfold heartbeat_issued; by rewrite Hpc.
  - destruct ok; apply inv_set_pc_before; auto;
      unfold heartbeat_issued; by rewrite Hpc.
  - apply begin_heartbeat_inv. by split_and!.
  - pose proof (listens_of_inv p Hinv (eq_sym Hiss)) as Hlp.
    destruct (Ho o l eq_refl) as [-> Hcov].
    destruct ok; [| by apply inv_set_pc_started].
    assert (Hlp' : listens config (set_redis p (Directory.updateVnodeOwners (redis p)
                                            (Node.heartbeatOwners config)))).
    { apply listens_set_redis; [done |]. intros Hpos. split.
      - apply owners_written_update.
      - apply loads_written_after_owners. by apply Hd. }
    destruct (decide (l = ∅)) as [-> | Hne].
    + apply inv_done_started; cbn; [done | apply owners_written_update |].
      apply written_nil. by apply counts_empty.
    + apply inv_await_loads; cbn; [done | apply owners_written_update | done].
  - pose proof (listens_of_inv p Hinv (eq_sym Hiss)) as Hlp.
    destruct (Hld l eq_refl) as [Hw Hcov].
    destruct ok; [| by apply inv_set_pc_started].
    apply inv_done_started; cbn.
    + apply listens_set_redis; [done |]. intros Hpos. split.
      * by apply owners_written_after_loads.
      * by apply loads_written_update.
    + by apply owners_written_after_loads.
    + by apply loads_written_update.
  - done.
  - done.
Qed.

Lemma tick_inv (p : Process) (ok1 ok2 : bool) :
  startup_inv config p -> heartbeatTimer p = true ->
  startup_inv config (tick config p ok1 ok2).
Proof.
  intros Hinv Htimer. pose proof Hinv as (Hl & Ht & Ho & Hld & Hd & Hp).
  unfold tick.
  assert (listening p = true) as Hlis.
  { destruct (listening p); [done |]. destruct (Hl eq_refl) as (_ & _ & E).
    congruence. }
  destruct (Node.heartbeatLoads config (node p)) as [l |] eqn:Hloads; [| done].
  pose proof (heartbeatLoads_counts _ _ Hloads) as Hcov.
  destruct ok1; [| done].
  destruct ok2.
  - split_and!; cbn.
    + congruence.
    + exact Ht.
    + exact Ho.
    + intros l' E. destruct (Hld l' E) as [_ Hc]. split; [| done].
      apply owners_written_after_loads, owners_written_update.
    + intros _. split; [| by apply loads_written_update].
      apply owners_written_after_loads, owners_written_update.
    + exact Hp.
  - split_and!; cbn.
    + congruence.
    + exact Ht.
    + exact Ho.
    + intros l' E. destruct (Hld l' E) as [_ Hc]. split; [| done].
      apply owners_written_update.
    + intros Hpos. split; [apply owners_written_update |].
      apply loads_written_after_owners. by apply Hd.
    + exact Hp.
Qed.

Lemma step_inv (p : Process) (i : Input) :
  startup_inv config p -> startup_inv config (step config jwt_verify url_token p i).
Proof.
  intros Hinv. unfold step.
  destruct (pc p) eqn:Hpc; try done;
    (destruct i as [ok | ok1 ok2 | e];
     [ by apply resume_inv
     | destruct (heartbeatTimer p) eqn:Ht; [by apply tick_inv | done]
     | destruct (enabled p e); [| done];
       destruct Hinv as (Hl & Ht & Ho & Hld & Hd & Hp);
       split_and!; cbn;
       [done | done | exact Ho | exact Hld | exact Hd | by apply step_placed] ]).
Qed.

Lemma run_inv (d : Directory.t) (inputs : list Input) :
  startup_inv config (run config jwt_verify url_token (initial config d) inputs).
Proof.
  induction inputs as [| i inputs IH] using rev_ind.
  - apply startup_inv_initial.
  - unfold run. rewrite fold_left_app. cbn [fold_left]. by apply step_inv.
Qed.

Lemma initial_heartbeatLoads :
  exists l, Node.heartbeatLoads config (Node.initial config) = Some l /\
            forall v, v ∈ Config.assignedVnodes config ->
                      l !! key (Some v) = Some "0"%string.
Proof.
  destruct (loads_from_total (Node.initial config) (Config.assignedVnodes config) ∅)
    as [l Hl].
  { intros v Hv. apply elem_of_dom.
    cbn [Node.initial Node.onlineUsers]. unfold Node.initialOnlineUsers.
    rewrite dom_initialOnlineUsers_from. set_solver. }
  exists l. split; [exact Hl |]. intros v Hv.
  destruct (heartbeatLoads_sizes _ _ v Hl Hv) as (users & Hu & ->).
  cbn [Node.initial Node.onlineUsers] in Hu.
  destruct (lookup_initialOnlineUsers_from _ _ _ _ Hu) as [-> | H].
  - by rewrite size_empty.
  - by rewrite lookup_empty in H.
Qed.

(** The first three promises of [start] resolve: the server listens, the
    timer is set and the first write of the initial heartbeat is
    pending. *)
Lemma heartbeat_pending (d : Directory.t) :
  Config.assignedVnodes config <> [] ->
  let r := run config jwt_verify url_token (initial config d)
               (repeat (Settled true) 3) in
  exists l, pc r = AwaitOwners (Node.heartbeatOwners config) l /\
            (forall v, v ∈ Config.assignedVnodes config ->
                       l !! key (Some v) = Some "0"%string) /\
            listening r = true /\ heartbeatTimer r = true /\
            heartbeatsDone r = 0%nat /\ redis r = d /\
            node r = Node.initial config.
Proof.
  intros Hne. destruct initial_heartbeatLoads as (l & Hl & Hzero).
  cbn [repeat run fold_left]. unfold initial.
  cbn [step pc resume set_pc subscribed listening heartbeatTimer
       heartbeatsDone node redis].
  unfold begin_heartbeat. cbn [node]. rewrite Hl.
  destruct (decide (Node.heartbeatOwners config = ∅)) as [Eo | Eo];
    [by destruct (Hne (heartbeatOwners_empty Eo)) |].
  exists l. by split_and!.
Qed.

Lemma step_await_owners (p : Process) (o l : gmap string string) :
  pc p = AwaitOwners o l -> l <> ∅ ->
  step config jwt_verify url_token p (Settled true)
  = set_pc (set_redis p (Directory.updateVnodeOwners (redis p) o)) (AwaitLoads l).
Proof.
  intros Hpc Hl. unfold step, resume. rewrite Hpc. by rewrite decide_False.
Qed.

Lemma step_await_loads (p : Process) (l : gmap string string) :
  pc p = AwaitLoads l ->
  step config jwt_verify url_token p (Settled true)
  = set_pc (heartbeat_done (set_redis p (Directory.updateVnodeLoads (redis p) l)))
           Started.
Proof. intros Hpc. unfold step, resume. by rewrite Hpc. Qed.

Lemma nominal_startup (d : Directory.t) :
  let q := run config jwt_verify url_token (initial config d)
               (repeat (Settled true) 5) in
  pc q = Started /\ heartbeatsDone q = 1%nat /\ listening q = true /\
  heartbeatTimer q = true /\
  forall v, v ∈ Config.assignedVnodes config ->
            Directory.owners (redis q) !! key (Some v) = Some (Config.nodeId config) /\
            Directory.loads (redis q) !! key (Some v) = Some "0"%string.
Proof.
  destruct initial_heartbeatLoads as (l & Hl & Hzero).
  destruct (Config.assignedVnodes config) as [| v0 vs] eqn:Ea.
  - assert (Hvac : forall (P : Z -> Prop) v, v ∈ @nil Z -> P v).
    { intros P v Hv. by apply elem_of_nil in Hv. }
    cbn [repeat run fold_left]. unfold initial.
    cbn [step pc resume set_pc subscribed listening heartbeatTimer
         heartbeatsDone node redis].
    unfold begin_heartbeat. cbn [node]. rewrite Hl.
    destruct (decide (Node.heartbeatOwners config = ∅)) as [Eo | Eo].
    + destruct (decide (l = ∅)) as [El | El]; [by split_and!; try apply Hvac |].
      cbn [step pc set_pc resume]. by split_and!; try apply Hvac.
    + cbn [step pc set_pc resume].
      destruct (decide (l = ∅)) as [El | El]; [by split_and!; try apply Hvac |].
      cbn [step pc set_pc resume]. by split_and!; try apply Hvac.
  - assert (Hne : Config.assignedVnodes config <> []) by (by rewrite Ea).
    rewrite <- Ea in *.
    destruct (heartbeat_pending d Hne) as (l' & Hpc & Hzero' & Hlis & Ht & Hd & Hr & Hn).
    change (repeat (Settled true) 5)
      with (repeat (Settled true) 3 ++ [Settled true; Settled true]).
    unfold run in *. rewrite fold_left_app.
    set (r := fold_left (step config jwt_verify url_token)
                        (repeat (Settled true) 3) (initial config d)) in *.
    assert (Hl' : l' <> ∅).
    { intros ->. assert (Hv : v0 ∈ Config.assignedVnodes config)
        by (rewrite Ea; by left).
      specialize (Hzero' v0 Hv). by rewrite lookup_empty in Hzero'. }
    cbn [fold_left]. rewrite (step_await_owners r _ l' Hpc Hl').
    rewrite (step_await_loads _ l') by reflexivity.
    cbn [pc set_pc set_redis heartbeat_done listening heartbeatTimer
         heartbeatsDone redis].
    rewrite Hlis, Ht, Hd, Hr. split_and!; try done.
    intros v Hv. split.
    + apply owners_written_after_loads; [| exact Hv]. apply owners_written_update.
    + rewrite (proj1 (loads_updateVnodeLoads _ _)).
      apply lookup_union_Some_l. by apply Hzero'.
Qed.

(** Once the server listens, a connection event reaches the handler at
    once, whatever [start] is waiting for. *)
Lemma connection_while_listening
    (p : Process) (ws : nat) (req : Auth.Request) (now : Z) (userId : string) (v : Z) :
  startup_inv config p ->
  listening p = true ->
  Node.sockets (node p) !! ws = None ->
  NodeSpec.accepted config jwt_verify url_token req userId v ->
  let p' := step config jwt_verify url_token p
                 (NodeEvent (Node.Connection ws req now)) in
  Node.clients (node p') !! userId = Some ws /\
  online (node p') v userId /\
  pc p' = pc p /\ heartbeatsDone p' = heartbeatsDone p /\ redis p' = redis p.
Proof.
  intros Hinv Hlis Hnew (token & Htok & Hne & Huid & Hune & Hv & Hin).
  pose proof (issued_iff_listening p Hinv) as Hiss. rewrite Hlis in Hiss.
  destruct Hinv as (Hl & Ht & Ho & Hld & Hd & [Hdom Hmem]).
  assert (Hset : is_Some (Node.onlineUsers (node p) !! v)).
  { apply elem_of_dom. rewrite Hdom. by apply elem_of_list_to_set. }
  destruct Hset as [users Hu].
  assert (Hstep :
    (Node.step config jwt_verify url_token (node p) (Node.Connection ws req now)).1
    = Node.set_pending
        (Node.set_onlineUsers
           (Node.set_clients
              (Node.set_sockets (node p) (<[ws := Node.OPEN]> (Node.sockets (node p))))
              (<[userId := ws]> (Node.clients (node p))))
           (<[v := users ∪ {[userId]}]> (Node.onlineUsers (node p))))
        (<[ws := (userId, v, now)]> (Node.pending (node p)))).
  { cbn [Node.step]. rewrite Hnew. unfold Node.connection.
    rewrite Htok. apply truthy_Some in Hne. rewrite Hne.
    cbn [negb default from_option]. unfold id. rewrite Huid.
    apply truthy_Some in Hune. rewrite Hune.
    cbn [negb default from_option]. unfold id.
    unfold Node.isUserOwnedByThisNode. rewrite Hv.
    rewrite bool_decide_true by done. cbn [negb].
    cbn [Node.set_clients Node.set_sockets Node.onlineUsers]. by rewrite Hu. }
  intros p'. unfold p', step. unfold heartbeat_issued in Hiss.
  destruct (pc p) eqn:Hpc; try discriminate;
    cbn [enabled]; rewrite Hlis; cbn [set_node node pc heartbeatsDone redis];
    rewrite Hstep; cbn; rewrite ?Hpc;
    (split_and!; [apply lookup_insert_eq | | done | done | done]);
    (exists (users ∪ {[userId]}); split; [apply lookup_insert_eq | set_solver]).
Qed.

(** C8, as amended: in every start-up of the presence node, the node
    starts listening for connections and sets the heartbeat timer first
    and issues the initial heartbeat after that: whenever the initial
    heartbeat has been issued, and whenever a heartbeat has been
    completed, the server is already listening and the timer is set. A
    completed heartbeat has written the node as owner and a user count as
    load for every assigned vnode to the directory, and when every
    awaited operation succeeds, [start] returns with one heartbeat
    completed, which has written the node and the count 0 for every
    assigned vnode. While the first write of the initial heartbeat is
    pending, the server listens with no heartbeat completed and the
    directory untouched; and from the moment the heartbeat has been
    issued, a connection that passes the checks is accepted at once: the
    user is in [clients] and in the set of the user's vnode, and neither
    [start] nor the directory has moved. *)
Theorem initial_heartbeat_follows_listen (d : Directory.t) (inputs : list Input) :
  let p := run config jwt_verify url_token (initial config d) inputs in
  let q := run config jwt_verify url_token (initial config d)
               (repeat (Settled true) 5) in
  let r := run config jwt_verify url_token (initial config d)
               (repeat (Settled true) 3) in
  (heartbeat_issued p = true -> listening p = true /\ heartbeatTimer p = true) /\
  ((0 < heartbeatsDone p)%nat ->
     listening p = true /\ heartbeatTimer p = true /\
     owners_written config (redis p) /\ loads_written config (redis p)) /\
  (pc q = Started /\ heartbeatsDone q = 1%nat /\ listening q = true /\
   heartbeatTimer q = true /\
   forall v, v ∈ Config.assignedVnodes config ->
             Directory.owners (redis q) !! key (Some v) = Some (Config.nodeId config) /\
             Directory.loads (redis q) !! key (Some v) = Some "0"%string) /\
  (Config.assignedVnodes config <> [] ->
   exists o l, pc r = AwaitOwners o l /\ listening r = true /\
               heartbeatTimer r = true /\ heartbeatsDone r = 0%nat /\ redis r = d) /\
  (forall ws req now userId v,
     heartbeat_issued p = true ->
     Node.sockets (node p) !! ws = None ->
     NodeSpec.accepted config jwt_verify url_token req userId v ->
     let p' := step config jwt_verify url_token p
                    (NodeEvent (Node.Connection ws req now)) in
     Node.clients (node p') !! userId = Some ws /\
     online (node p') v userId /\
     pc p' = pc p /\ heartbeatsDone p' = heartbeatsDone p /\ redis p' = redis p).
Proof.
  intros p q r. pose proof (run_inv d inputs) as Hinv. fold p in Hinv.
  pose proof (issued_iff_listening p Hinv) as Hiss.
  split; [| split; [| split; [| split]]].
  - intros Hi. rewrite Hi in Hiss. destruct Hinv as (_ & Ht & _).
    by destruct (Ht (eq_sym Hiss)).
  - intros Hpos. pose proof Hinv as (Hl & Ht & _ & _ & Hd & _).
    destruct (Hd Hpos) as [Hw1 Hw2].
    assert (Hlis : listening p = true).
    { destruct (listening p); [done |]. destruct (Hl eq_refl) as (_ & E & _). lia. }
    destruct (Ht Hlis) as [_ Htimer]. by split_and!.
  - apply nominal_startup.
  - intros Hne. destruct (heartbeat_pending d Hne) as (l & Hpc & _ & Hrest).
    exists (Node.heartbeatOwners config), l. fold r in Hpc, Hrest.
    destruct Hrest as (? & ? & ? & ? & _). by split_and!.
  - intros ws req now userId v Hi Hnew Hacc.
    apply connection_while_listening; [done | congruence | done | done].
Qed.

End StartupFacts.

(** On the node that owns vnode 221: after a start-up without failure
    the directory names the node as owner of 221 with load 0; and after
    the third promise of [start], while the first write of the initial
    heartbeat is pending, the connection of user [u1] is accepted. *)
Lemma initial_heartbeat_follows_listen_witness :
  let q := Startup.run Scenario.config Scenario.jwt_verify Scenario.url_token
             (Startup.initial Scenario.config Directory.empty)
             (repeat (Startup.Settled true) 5) in
  let r := Startup.run Scenario.config Scenario.jwt_verify Scenario.url_token
             (Startup.initial Scenario.config Directory.empty)
             (repeat (Startup.Settled true) 3) in
  let r' := Startup.step Scenario.config Scenario.jwt_verify Scenario.url_token r
              (Startup.NodeEvent
                 (Node.Connection 1 (Scenario.bearer "token-u1") 10)) in
  (Startup.listening q = true /\
   Directory.owners (Startup.redis q) !! "221"%string = Some "node-1"%string /\
   Directory.loads (Startup.redis q) !! "221"%string = Some "0"%string) /\
  (Startup.heartbeatsDone r' = 0%nat /\
   Node.clients (Startup.node r') !! "u1"%string = Some 1%nat).
Proof.
  intros q r r'.
  destruct (initial_heartbeat_follows_listen Scenario.config Scenario.jwt_verify
              Scenario.url_token Directory.empty
              (repeat (Startup.Settled true) 5)) as (_ & Hdone & Hnominal & _).
  destruct (initial_heartbeat_follows_listen Scenario.config Scenario.jwt_verify
              Scenario.url_token Directory.empty
              (repeat (Startup.Settled true) 3)) as (_ & _ & _ & _ & Haccept).
  split.
  - destruct Hdone as (Hlis & _ & Hown & _); [vm_compute; lia |].
    destruct Hnominal as (_ & _ & _ & _ & Hwritten).
    destruct (Hwritten 221) as [Ho Hl]; [apply list_elem_of_here |].
    split_and!; [exact Hlis | exact Ho | exact Hl].
  - destruct (Haccept 1%nat (Scenario.bearer "token-u1") 10 "u1"%string 221)
      as (Hclient & _ & _ & Hcount & _).
    + vm_compute. reflexivity.
    + vm_compute. reflexivity.
    + exists "token-u1"%string. split_and!.
      * reflexivity.
      * discriminate.
      * reflexivity.
      * discriminate.
      * vm_compute. reflexivity.
      * apply list_elem_of_here.
    + split; [| exact Hclient].
      unfold r', r. rewrite Hcount. vm_compute. reflexivity.
Defined.

(** C8, as the specification states it: a connection that arrives while
    [start] awaits the first write of the initial heartbeat is accepted
    (the user is in [clients] and in the set of the user's vnode) although
    no heartbeat has completed and the directory has no owner yet. *)
Lemma connection_accepted_before_initial_heartbeat :
  let p := Startup.run Scenario.config Scenario.jwt_verify Scenario.url_token
             (Startup.initial Scenario.config Directory.empty)
             Scenario.early_connection in
  Startup.listening p = true /\
  Startup.heartbeatsDone p = 0%nat /\
  StartupSpec.heartbeat_issued p = true /\
  Startup.pc p <> Startup.Started /\
  Directory.owners (Startup.redis p) = ∅ /\
  Node.clients (Startup.node p) !! "u1"%string = Some 1%nat /\
  Node.onlineUsers (Startup.node p) !! 221 = Some {[ "u1"%string ]}.
Proof. vm_compute. split_and!; try reflexivity. discriminate. Qed.
(** * Further properties of the code *)

(** ** Hash ring *)

Section RingFacts.

Import JS Ring.

(** X1: reading the ring after a write. After [setVnodeMapping (v, i)] the
    owner of [v] is [i] (nothing when [i] is empty) and every other vnode,
    [NaN] included, keeps its owner; after [updateVnodeMappings (m)] a vnode
    named in [m] has the owner from [m] and every other vnode keeps
    its owner: the ring is merged, never replaced. *)
Theorem ring_read_after_write
    (h : ConsistentHash) (v v' : option Z) (i : string) (m : gmap string string) :
  getInstanceForVnode (setVnodeMapping h v i) v'
  = (if decide (v' = v)
     then (if decide (i = EmptyString) then None else Some i)
     else getInstanceForVnode h v') /\
  getInstanceForVnode (updateVnodeMappings h m) v'
  = (match m !! key v' with
     | Some o => if decide (o = EmptyString) then None else Some o
     | None => getInstanceForVnode h v'
     end) /\
  vnodeCount (setVnodeMapping h v i) = vnodeCount h /\
  vnodeCount (updateVnodeMappings h m) = vnodeCount h.
Proof.
  split_and!; try reflexivity.
  - unfold getInstanceForVnode, setVnodeMapping. cbn [vnodeMap].
    destruct (decide (v' = v)) as [-> | Hne].
    + rewrite lookup_insert_eq.
      destruct (decide (i = EmptyString)) as [-> | Hi]; [done |].
      apply truthy_Some in Hi. by rewrite Hi.
    + rewrite lookup_insert_ne; [done |].
      intros E. apply Hne. by apply key_inj.
  - unfold getInstanceForVnode, updateVnodeMappings. cbn [vnodeMap].
    rewrite lookup_union.
    destruct (m !! key v') as [o |] eqn:Hm.
    + rewrite union_Some_l.
      destruct (decide (o = EmptyString)) as [-> | Ho]; [done |].
      apply truthy_Some in Ho. by rewrite Ho.
    + by rewrite (left_id_L None _).
Qed.

(** X2: the vnode of a user for any vnode count. With a count other than
    zero the vnode is the first 32 bits of the digest modulo the absolute
    value of the count, so it lies in [[0, |V|)] also for a negative count,
    and the user belongs to a list of vnodes exactly when the list holds
    that number. With a count of zero the vnode is [NaN], and the user
    belongs to a list exactly when the list holds [NaN]: to no list of
    integers, and to every list with a [NaN] in it. *)
Theorem getUserVnode_any_count
    (h : ConsistentHash) (userId : string) (vnodes : list (option Z)) :
  (vnodeCount h <> 0 ->
   exists v, getUserVnode h userId = Some v /\
             v = first32 (MD5.digest (utf8_bytes userId)) mod Z.abs (vnodeCount h) /\
             0 <= v < Z.abs (vnodeCount h) /\
             (isUserInVnodes h userId vnodes = true <-> Some v ∈ vnodes)) /\
  (vnodeCount h = 0 ->
   getUserVnode h userId = None /\
   (isUserInVnodes h userId vnodes = true <-> None ∈ vnodes) /\
   (forall ids : list Z, isUserInVnodes h userId (Some <$> ids) = false) /\
   isUserInVnodes h userId (None :: vnodes) = true).
Proof.
  split.
  - intros HV. unfold getUserVnode. rewrite md5_hex_first32. unfold JS.rem.
    destruct (Z.eqb_spec (vnodeCount h) 0) as [E | _]; [done |].
    pose proof (first32_digest_range userId) as Hr.
    eexists. split; [reflexivity |].
    rewrite <- (Z.rem_abs_r _ (vnodeCount h)) by done.
    rewrite Z.rem_mod_nonneg by lia.
    split; [reflexivity |]. split; [apply Z.mod_pos_bound; lia |].
    unfold isUserInVnodes, getUserVnode. rewrite md5_hex_first32. unfold JS.rem.
    destruct (Z.eqb_spec (vnodeCount h) 0) as [E | _]; [done |].
    rewrite <- (Z.rem_abs_r _ (vnodeCount h)) by done.
    rewrite Z.rem_mod_nonneg by lia.
    apply bool_decide_eq_true.
  - intros HV.
    assert (getUserVnode h userId = None) as Hnone.
    { unfold getUserVnode. rewrite md5_hex_first32, HV. reflexivity. }
    unfold isUserInVnodes. rewrite Hnone. split_and!.
    + reflexivity.
    + apply bool_decide_eq_true.
    + intros ids. apply bool_decide_eq_false.
      intros Hin. apply list_elem_of_fmap in Hin as (i & Hi & _). discriminate.
    + apply bool_decide_eq_true. by left.
Qed.

End RingFacts.

Lemma getUserVnode_any_count_witness :
  Ring.getUserVnode {| Ring.vnodeCount := -1024; Ring.vnodeMap := ∅ |} "u1" = Some 221 /\
  Ring.isUserInVnodes (Ring.new 0) "u1" [Some 0; Some 221; None] = true /\
  Ring.isUserInVnodes (Ring.new 0) "u1" [Some 0; Some 221] = false.
Proof.
  destruct (getUserVnode_any_count
              {| Ring.vnodeCount := -1024; Ring.vnodeMap := ∅ |} "u1" [])
    as [Hnz _].
  destruct (getUserVnode_any_count (Ring.new 0) "u1" [Some 0; Some 221; None])
    as [_ Hz].
  split_and!.
  - destruct Hnz as (v & -> & -> & _); [discriminate |]. vm_compute. reflexivity.
  - destruct Hz as (_ & Hiff & _); [reflexivity |].
    apply Hiff. do 2 apply list_elem_of_further. apply list_elem_of_here.
  - destruct Hz as (_ & _ & Hints & _); [reflexivity |].
    exact (Hints [0; 221]).
Defined.

(** ** Directory *)

Section DirectoryFacts.

Import JS Directory.

Lemma user_key_inj (u u' : string) :
  USER_INSTANCE_KEY_PREFIX +:+ u = USER_INSTANCE_KEY_PREFIX +:+ u' -> u = u'.
Proof.
  unfold USER_INSTANCE_KEY_PREFIX. intros E. simpl in E. by simplify_eq.
Qed.

(** X3: the user cache round trip. After [cacheUserInstance (u, i)] the
    cached instance of [u] is [i], the cached instance of every other
    user is what it was, and the owners and loads are untouched. *)
Theorem cache_write_then_read (d : t) (u u' i : string) :
  getCachedUserInstance (cacheUserInstance d u i) u'
  = (if decide (u' = u) then Some i else getCachedUserInstance d u') /\
  owners (cacheUserInstance d u i) = owners d /\
  loads (cacheUserInstance d u i) = loads d.
Proof.
  split_and!; try reflexivity.
  unfold getCachedUserInstance, cacheUserInstance. cbn [users].
  destruct (decide (u' = u)) as [-> | Hne].
  - apply lookup_insert_eq.
  - apply lookup_insert_ne. intros E. apply Hne. symmetry. by apply user_key_inj.
Qed.

End DirectoryFacts.

(** ** Coordinator *)

Section CoordinatorFacts.

Import JS Coordinator CoordinatorSpec MoreSpec.

Variable config : Config.t.

Lemma register_unfold (st : State) (instanceId : string) (weight : option Z) :
  instanceId <> EmptyString ->
  let ids := scan (Directory.getAllVnodeOwners (redis st))
                  (desiredVnodes (Config.vnodeCount config) (default 1 weight))
                  (vnodeIds (Config.vnodeCount config)) [] in
  register config st {| reg_instanceId := Some instanceId; reg_weight := weight |}
  = if bool_decide (length ids = 0%nat)
    then (error 409 "No available vnodes", st)
    else (created instanceId ids, registered st instanceId ids).
Proof.
  intros Hid ids. unfold register. cbn [reg_instanceId reg_weight].
  apply truthy_Some in Hid. rewrite Hid. reflexivity.
Qed.

Lemma register_cases (st : State) (req : RegisterBody) :
  register config st req = (error 400 "instanceId is required", st) \/
  register config st req = (error 409 "No available vnodes", st) \/
  exists instanceId ids,
    reg_instanceId req = Some instanceId /\ instanceId <> EmptyString /\
    ids = scan (Directory.getAllVnodeOwners (redis st))
               (desiredVnodes (Config.vnodeCount config) (default 1 (reg_weight req)))
               (vnodeIds (Config.vnodeCount config)) [] /\
    ids <> [] /\
    register config st req = (created instanceId ids, registered st instanceId ids).
Proof.
  destruct req as [oid w]. destruct (truthy oid) eqn:Hid.
  - destruct (truthy_true _ Hid) as (instanceId & -> & Hne).
    rewrite (register_unfold st instanceId w Hne). cbv zeta.
    case_bool_decide as Hlen; [right; by left |].
    right; right. eexists instanceId, _. split_and!; try done.
    intros E. apply Hlen. cbn [reg_weight] in E. by rewrite E.
  - left. unfold register. cbn [reg_instanceId]. by rewrite Hid.
Qed.

Lemma fmap_JNum_inj (a b : list Z) : JNum <$> a = JNum <$> b -> a = b.
Proof.
  revert b. induction a as [| x a IH]; intros [| y b] E; try done.
  injection E as -> E. f_equal. by apply IH.
Qed.

Lemma scan_free (m : gmap string string) (V w : Z) (i : Z) :
  i ∈ scan m (desiredVnodes V w) (vnodeIds V) [] ->
  0 <= i < V /\ occupied m i = false.
Proof.
  rewrite scan_chosen. intros Hin.
  apply (subseteq_take _ _) in Hin.
  apply list_elem_of_filter in Hin as [Hfree Hin].
  split; [by apply vnodeIds_range | done].
Qed.

Lemma lookup_mappingsFor (ids : list Z) (instanceId k : string) :
  mappingsFor ids instanceId !! k
  = if decide (k ∈ (fun v => key (Some v)) <$> ids) then Some instanceId else None.
Proof.
  unfold mappingsFor. rewrite lookup_owners_from.
  case_decide; [done | apply lookup_empty].
Qed.

Lemma owners_registered (st : State) (instanceId : string) (ids : list Z) :
  Directory.owners (redis (registered st instanceId ids))
  = mappingsFor ids instanceId ∪ Directory.owners (redis st) /\
  Directory.users (redis (registered st instanceId ids)) = Directory.users (redis st).
Proof.
  unfold registered. cbn [redis]. split; [apply owners_updateVnodeOwners |].
  unfold Directory.updateVnodeOwners. by case_decide.
Qed.

(** X4: registration never takes a vnode from its owner. Whatever the
    request, every vnode that had a non-empty owner in the directory before
    has the same owner after. *)
Theorem register_never_reassigns (st : State) (req : RegisterBody) (k o : string) :
  Directory.owners (redis st) !! k = Some o ->
  o <> EmptyString ->
  Directory.owners (redis (register config st req).2) !! k = Some o.
Proof.
  intros Hk Ho.
  destruct (register_cases st req)
    as [-> | [-> | (instanceId & ids & _ & _ & Hids & _ & ->)]]; [done | done |].
  cbn [snd]. rewrite (proj1 (owners_registered _ _ _)).
  rewrite lookup_union_r; [done |].
  rewrite lookup_mappingsFor. case_decide as Hin; [| done].
  apply list_elem_of_fmap in Hin as (i & -> & Hi).
  rewrite Hids in Hi. apply scan_free in Hi as [_ Hfree].
  unfold occupied in Hfree. unfold Directory.getAllVnodeOwners in Hfree.
  rewrite Hk in Hfree. apply truthy_Some in Ho. congruence.
Qed.

Lemma StronglySorted_seq (j n : nat) : StronglySorted lt (seq j n).
Proof.
  revert j. induction n as [| n IH]; intros j; cbn [seq]; constructor; [apply IH |].
  apply Forall_forall. intros k Hk. apply list_elem_of_In, in_seq in Hk. lia.
Qed.

Lemma StronglySorted_vnodeIds (V : Z) : StronglySorted Z.lt (vnodeIds V).
Proof.
  unfold vnodeIds.
  change (StronglySorted Z.lt (Z.of_nat <$> seq 0 (Z.to_nat V))).
  eapply StronglySorted_fmap; [| apply StronglySorted_seq].
  intros a b Hab. lia.
Qed.

(** X5: the vnode ids of a 201 response. They are not empty, strictly
    ascending (hence distinct), each in [[0, V)] and free in the owners
    snapshot, and at most [max (1, floor (V * weight / 100))] many; after
    the request each of them has the registered instance as owner, in the
    directory and in the local ring. *)
Theorem register_assigned_ids
    (st : State) (req : RegisterBody) (instanceId : string) (ids : list Z) :
  (register config st req).1 = created instanceId ids ->
  let V := Config.vnodeCount config in
  let st' := (register config st req).2 in
  ids <> [] /\
  StronglySorted Z.lt ids /\
  Z.of_nat (length ids) <= Z.max 1 (V * default 1 (reg_weight req) / 100) /\
  (forall i, i ∈ ids ->
     0 <= i < V /\
     truthy (Directory.owners (redis st) !! key (Some i)) = false /\
     Directory.owners (redis st') !! key (Some i) = Some instanceId /\
     Ring.getInstanceForVnode (consistentHash st') (Some i) = Some instanceId).
Proof.
  intros Hresp V st'. subst st'.
  destruct (register_cases st req)
    as [E | [E | (id' & ids' & Hid & Hne & Hids & Hnil & E)]];
    rewrite E in Hresp |- *; try discriminate Hresp.
  cbn [fst snd] in *. unfold created in Hresp.
  injection Hresp as Hid' Hids'.
  apply fmap_JNum_inj in Hids'. subst id' ids'.
  split; [done |].
  assert (Htake : ids = take (Z.to_nat (desiredVnodes V (default 1 (reg_weight req))))
                          (filter (fun i => occupied (Directory.getAllVnodeOwners (redis st)) i = false)
                                  (vnodeIds V))).
  { rewrite Hids. apply scan_chosen. }
  split_and!.
  - rewrite Htake. eapply StronglySorted_sublist; [apply sublist_take |].
    eapply StronglySorted_sublist; [apply sublist_filter |].
    apply StronglySorted_vnodeIds.
  - rewrite Htake, length_take. unfold desiredVnodes. lia.
  - intros i Hi. pose proof Hi as Hfree. rewrite Hids in Hfree.
    apply scan_free in Hfree as [Hrange Hfree].
    split; [exact Hrange |]. split; [exact Hfree |]. split.
    + rewrite (proj1 (owners_registered _ _ _)).
      apply lookup_union_Some_l. rewrite lookup_mappingsFor.
      rewrite decide_True; [done |]. apply list_elem_of_fmap. by exists i.
    + unfold registered. cbn [consistentHash].
      unfold Ring.getInstanceForVnode, Ring.updateVnodeMappings. cbn [Ring.vnodeMap].
      erewrite lookup_union_Some_l.
      * apply truthy_Some in Hne. by rewrite Hne.
      * rewrite lookup_mappingsFor.
        rewrite decide_True; [done |]. apply list_elem_of_fmap. by exists i.
Qed.

Lemma unregister_unfold (rank : string -> nat) (st : State) (N : string) :
  N <> EmptyString ->
  let ks := vnodesOf rank (Directory.getAllVnodeOwners (redis st)) N in
  unregister rank st {| unreg_instanceId := Some N |}
  = if bool_decide (length ks = 0%nat)
    then (error 404 "No vnodes found for this instance", st)
    else (removed N ks,
          {| redis := fold_left Directory.hdelOwner ks (redis st);
             consistentHash :=
               Ring.updateVnodeMappings (consistentHash st)
                 (fold_left (fun m vnodeId => delete vnodeId m) ks
                            (Ring.getVnodeMap (consistentHash st))) |}).
Proof.
  intros HN ks. unfold unregister. cbn [unreg_instanceId].
  apply truthy_Some in HN. rewrite HN. reflexivity.
Qed.

(** X6: registering an instance and then unregistering it restores the
    directory. From a directory whose owners are non-empty instance ids,
    none of them [N], a successful registration of [N] followed by the
    unregistration of [N] answers 200 and leaves the owners exactly as they
    were before the registration. *)
Theorem register_then_unregister
    (rank : string -> nat) (st : State) (N : string) (weight : option Z)
    (ids : list Z) :
  owners_wf (Directory.owners (redis st)) ->
  (forall k, Directory.owners (redis st) !! k <> Some N) ->
  (register config st {| reg_instanceId := Some N; reg_weight := weight |}).1
  = created N ids ->
  let st1 := (register config st {| reg_instanceId := Some N; reg_weight := weight |}).2 in
  let '(resp, st2) := unregister rank st1 {| unreg_instanceId := Some N |} in
  status resp = 200 /\
  Directory.owners (redis st2) = Directory.owners (redis st).
Proof.
  intros Hwf Hnone Hresp st1. subst st1.
  destruct (register_cases st {| reg_instanceId := Some N; reg_weight := weight |})
    as [E | [E | (id' & ids' & Hid & Hne & Hids & Hnil & E)]];
    rewrite E in Hresp |- *; try discriminate Hresp.
  cbn [fst snd reg_instanceId reg_weight] in *. unfold created in Hresp.
  injection Hresp as Hid' Hids'. injection Hid as <-.
  apply fmap_JNum_inj in Hids'. subst ids'.
  rewrite (unregister_unfold rank _ N Hne). cbv zeta.
  set (st1 := registered st N ids).
  set (ks := vnodesOf rank (Directory.getAllVnodeOwners (redis st1)) N).
  assert (Hown : forall k, Directory.owners (redis st1) !! k
                           = if decide (k ∈ (fun v => key (Some v)) <$> ids)
                             then Some N else Directory.owners (redis st) !! k).
  { intros k. unfold st1. rewrite (proj1 (owners_registered _ _ _)).
    rewrite lookup_union, lookup_mappingsFor.
    case_decide; [by rewrite union_Some_l | by rewrite (left_id_L None _)]. }
  assert (Hks : forall k, k ∈ ks <-> k ∈ (fun v => key (Some v)) <$> ids).
  { intros k. unfold ks. rewrite elem_of_vnodesOf.
    unfold Directory.getAllVnodeOwners. rewrite Hown.
    case_decide; [done |]. split; [intros Hk; by apply Hnone in Hk | done]. }
  rewrite bool_decide_false.
  2:{ destruct ids as [| i ids']; [done |].
      assert (key (Some i) ∈ ks) as Hin by (apply Hks; left).
      destruct ks; [by apply elem_of_nil in Hin | done]. }
  split; [reflexivity |]. cbn [redis].
  rewrite owners_hdel. apply map_eq. intros k.
  rewrite lookup_delete_all. fold st1.
  destruct (decide (k ∈ ks)) as [Hin | Hnin].
  - apply Hks in Hin. apply list_elem_of_fmap in Hin as (i & -> & Hi).
    rewrite Hids in Hi. apply scan_free in Hi as [_ Hfree].
    unfold occupied, Directory.getAllVnodeOwners in Hfree.
    destruct (Directory.owners (redis st) !! key (Some i)) as [o |] eqn:Ho; [| done].
    apply Hwf in Ho. apply truthy_Some in Ho. congruence.
  - rewrite Hown. rewrite decide_False; [done |]. by rewrite <- Hks.
Qed.

End CoordinatorFacts.

Lemma register_never_reassigns_witness :
  Directory.owners
    (Coordinator.redis
       (Coordinator.register Scenario.config Scenario.owned_by_A
                             Scenario2.register_B).2) !! "0"%string
  = Some "A"%string.
Proof.
  apply (register_never_reassigns Scenario.config Scenario.owned_by_A
           Scenario2.register_B "0" "A").
  - reflexivity.
  - discriminate.
Defined.

Lemma register_assigned_ids_witness :
  Ring.getInstanceForVnode
    (Coordinator.consistentHash
       (Coordinator.register Scenario.config Scenario.owned_by_A
                             Scenario2.register_B).2) (Some 1)
  = Some "B"%string.
Proof.
  destruct (register_assigned_ids Scenario.config Scenario.owned_by_A
              Scenario2.register_B "B" [1; 2; 3; 4; 5; 6; 7; 8; 9; 10])
    as (_ & _ & _ & Hall).
  - vm_compute. reflexivity.
  - destruct (Hall 1) as (_ & _ & _ & Hring); [| exact Hring].
    apply elem_of_cons. left. reflexivity.
Defined.

Lemma register_then_unregister_witness :
  Directory.owners
    (Coordinator.redis
       (Coordinator.unregister Scenario.rank
          (Coordinator.register Scenario.config Scenario.owned_by_A
                                Scenario2.register_B).2
          {| Coordinator.unreg_instanceId := Some "B"%string |}).2)
  = {[ "0"%string := "A"%string ]}.
Proof.
  pose proof (register_then_unregister Scenario.config Scenario.rank
                Scenario.owned_by_A "B"
                (Some 1) [1; 2; 3; 4; 5; 6; 7; 8; 9; 10]) as H.
  cbv zeta in H. fold Scenario2.register_B in H.
  destruct (Coordinator.unregister _ _ _) as [resp st2].
  destruct H as [_ Howners].
  - intros k v Hk. cbn in Hk. apply lookup_singleton_Some in Hk as [_ <-].
    discriminate.
  - intros k Hk. cbn in Hk. apply lookup_singleton_Some in Hk as [_ Hk].
    discriminate.
  - vm_compute. reflexivity.
  - exact Howners.
Defined.

Section RouteFacts.

Import JS Coordinator CoordinatorSpec MoreSpec.

Variable config : Config.t.

Lemma route_cached (st : State) (userId inst : string) :
  userId <> EmptyString ->
  Directory.getCachedUserInstance (redis st) userId = Some inst ->
  inst <> EmptyString ->
  route st {| route_userId := Some userId |} = (cacheHit userId inst, st).
Proof.
  intros Hid Hc Hinst. unfold route. cbn [route_userId].
  apply truthy_Some in Hid. rewrite Hid.
  cbn [negb default from_option]. unfold id. rewrite Hc.
  apply truthy_Some in Hinst. rewrite Hinst. reflexivity.
Qed.

Lemma route_uncached (st : State) (userId : string) :
  userId <> EmptyString ->
  truthy (Directory.getCachedUserInstance (redis st) userId) = false ->
  let vnodeId := Ring.getUserVnode (consistentHash st) userId in
  route st {| route_userId := Some userId |}
  = match ownerIn (Ring.vnodeMap (consistentHash st)) vnodeId with
    | Some o =>
        (hashHit userId vnodeId o,
         {| consistentHash := consistentHash st;
            redis := Directory.cacheUserInstance (redis st) userId o |})
    | None =>
        match ownerIn (Directory.getAllVnodeOwners (redis st)) vnodeId with
        | Some o =>
            (hashHit userId vnodeId o,
             {| consistentHash := Ring.setVnodeMapping (consistentHash st) vnodeId o;
                redis := Directory.cacheUserInstance (redis st) userId o |})
        | None => (error 404 "No instance available for this user", st)
        end
    end.
Proof.
  intros Hid Hc vnodeId. unfold route. cbn [route_userId].
  apply truthy_Some in Hid. rewrite Hid.
  cbn [negb default from_option]. unfold id. rewrite Hc. fold vnodeId.
  rewrite getInstanceForVnode_ownerIn.
  destruct (ownerIn (Ring.vnodeMap (consistentHash st)) vnodeId) as [o |] eqn:Hloc.
  - rewrite (truthy_ownerIn_Some _ _ _ Hloc). cbn [negb].
    rewrite (truthy_ownerIn_Some _ _ _ Hloc). reflexivity.
  - cbn [truthy negb].
    destruct (truthy_ownerIn (Directory.getAllVnodeOwners (redis st)) vnodeId)
      as [Ht Heq].
    destruct (ownerIn (Directory.getAllVnodeOwners (redis st)) vnodeId)
      as [o |] eqn:Hdir.
    + rewrite bool_decide_true in Ht by (by eexists).
      rewrite Ht, (Heq Ht). cbn [negb].
      rewrite (truthy_ownerIn_Some _ _ _ Hdir). reflexivity.
    + rewrite bool_decide_false in Ht by (by intros []).
      rewrite Ht. cbn [negb]. rewrite Ht. cbn [negb].
      by destruct st.
Qed.

Lemma ownerIn_Some (m : gmap string string) (v : option Z) (o : string) :
  ownerIn m v = Some o <-> m !! key v = Some o /\ o <> EmptyString.
Proof.
  unfold ownerIn. destruct (m !! key v) as [o' |]; [| by split; [| intros []]].
  case_decide as E; split; try discriminate.
  - intros [[= ->] ?]. done.
  - by intros [= ->].
  - by intros [[= ->] _].
Qed.

(** X7: a route that succeeds is answered from the cache the next time.
    When a route query for a user is answered 200 with an instance, from
    the cache or from the hash, the same query on the resulting state is
    answered with the same instance and source [cache], and changes
    nothing. *)
Theorem route_twice (st : State) (userId : string) :
  userId <> EmptyString ->
  let q := {| route_userId := Some userId |} in
  status (route st q).1 = 200 ->
  exists inst,
    inst <> EmptyString /\
    ((route st q).1 = cacheHit userId inst \/
     (route st q).1
     = hashHit userId (Ring.getUserVnode (consistentHash st) userId) inst) /\
    route (route st q).2 q = (cacheHit userId inst, (route st q).2).
Proof.
  intros Hid q Hstatus.
  destruct (truthy (Directory.getCachedUserInstance (redis st) userId)) eqn:Hc.
  - destruct (truthy_true _ Hc) as (inst & Hc' & Hinst).
    exists inst. unfold q in *. rewrite (route_cached st userId inst Hid Hc' Hinst).
    split_and!; [done | by left |]. by apply route_cached.
  - unfold q in *. rewrite (route_uncached st userId Hid Hc) in Hstatus |- *.
    cbv zeta in *.
    set (v := Ring.getUserVnode (consistentHash st) userId) in *.
    assert (Hwritten : forall d o,
      Directory.getCachedUserInstance (Directory.cacheUserInstance d userId o) userId
      = Some o).
    { intros d o. unfold Directory.getCachedUserInstance, Directory.cacheUserInstance.
      cbn. apply lookup_insert_eq. }
    destruct (ownerIn (Ring.vnodeMap (consistentHash st)) v) as [o |] eqn:Hloc.
    + exists o. apply ownerIn_Some in Hloc as [_ Ho].
      split_and!; [done | by right |]. apply route_cached; [done | apply Hwritten | done].
    + destruct (ownerIn (Directory.getAllVnodeOwners (redis st)) v) as [o |] eqn:Hdir.
      * exists o. apply ownerIn_Some in Hdir as [_ Ho].
        split_and!; [done | by right |].
        apply route_cached; [done | apply Hwritten | done].
      * discriminate Hstatus.
Qed.

(** X8: unregistering an instance does not stop the coordinator from
    routing to it. When the local ring names [N] as the owner of a user's
    vnode and the user has no cache entry, then after [N] has been
    unregistered the route of the user is still answered 200 with instance
    [N] and source [hash]: the local ring keeps the removed vnodes. *)
Theorem unregister_then_route_stale
    (rank : string -> nat) (st : State) (N userId : string) :
  N <> EmptyString ->
  userId <> EmptyString ->
  Directory.getCachedUserInstance (redis st) userId = None ->
  let vnodeId := Ring.getUserVnode (consistentHash st) userId in
  ownerIn (Ring.vnodeMap (consistentHash st)) vnodeId = Some N ->
  let st' := (unregister rank st {| unreg_instanceId := Some N |}).2 in
  (route st' {| route_userId := Some userId |}).1 = hashHit userId vnodeId N.
Proof.
  intros HN Hid Hc vnodeId Hown st'.
  assert (Hmap : Ring.vnodeMap (consistentHash st') = Ring.vnodeMap (consistentHash st))
    by apply unregister_keeps_local_ring.
  assert (Hcount : Ring.vnodeCount (consistentHash st')
                   = Ring.vnodeCount (consistentHash st)).
  { unfold st', unregister. destruct (negb _); [done |]. by case_bool_decide. }
  assert (Husers : Directory.users (redis st') = Directory.users (redis st)).
  { unfold st', unregister. destruct (negb _); [done |].
    case_bool_decide; [done |]. cbn [snd redis]. apply users_hdel. }
  rewrite route_uncached; [| done |].
  - cbv zeta.
    assert (Ring.getUserVnode (consistentHash st') userId = vnodeId) as ->
      by (unfold vnodeId, Ring.getUserVnode; by rewrite Hcount).
    by rewrite Hmap, Hown.
  - unfold Directory.getCachedUserInstance in *. by rewrite Husers, Hc.
Qed.

Lemma route_ring (st : State) (q : RouteQuery) :
  consistentHash (route st q).2 = consistentHash st \/
  exists o,
    ownerIn (Ring.vnodeMap (consistentHash st))
            (Ring.getUserVnode (consistentHash st) (default ""%string (route_userId q)))
    = None /\
    o <> EmptyString /\
    consistentHash (route st q).2
    = Ring.setVnodeMapping (consistentHash st)
        (Ring.getUserVnode (consistentHash st) (default ""%string (route_userId q))) o.
Proof.
  destruct (truthy (route_userId q)) eqn:Hid;
    [| left; unfold route; by rewrite Hid].
  destruct (truthy_true _ Hid) as (u & Hu & Hne).
  destruct q as [ou]. cbn [route_userId] in *. subst ou.
  cbn [default from_option]. unfold id.
  destruct (truthy (Directory.getCachedUserInstance (redis st) u)) eqn:Hc.
  - destruct (truthy_true _ Hc) as (inst & Hc' & Hinst).
    left. by rewrite (route_cached st u inst Hne Hc' Hinst).
  - rewrite (route_uncached st u Hne Hc). cbv zeta.
    destruct (ownerIn (Ring.vnodeMap (consistentHash st)) _) as [o |] eqn:Hloc;
      [by left |].
    destruct (ownerIn (Directory.getAllVnodeOwners (redis st)) _) as [o |] eqn:Hdir;
      [| by left].
    right. exists o. apply ownerIn_Some in Hdir as [_ Ho]. done.
Qed.

Lemma register_ring (st : State) (req : RegisterBody) :
  exists m, Ring.vnodeMap (consistentHash (register config st req).2)
            = m ∪ Ring.vnodeMap (consistentHash st).
Proof.
  unfold register. destruct (negb _).
  - exists ∅. by rewrite (left_id_L ∅ _).
  - case_bool_decide.
    + exists ∅. by rewrite (left_id_L ∅ _).
    + by eexists.
Qed.

(** X9: the coordinator's local ring never loses an entry. From any state,
    whatever the directory holds at that moment, a key the ring has is
    still in the ring after a registration, after a route query and after
    the mappings are loaded from the directory; an unregistration leaves
    every entry of the ring as it was, and a route query keeps every entry
    whose owner is not empty. *)
Theorem ring_never_loses_entry
    (rank : string -> nat) (st : State) (k : string) :
  is_Some (Ring.vnodeMap (consistentHash st) !! k) ->
  (forall req,
     is_Some (Ring.vnodeMap (consistentHash (register config st req).2) !! k)) /\
  (forall req,
     Ring.vnodeMap (consistentHash (unregister rank st req).2) !! k
     = Ring.vnodeMap (consistentHash st) !! k) /\
  (forall q,
     is_Some (Ring.vnodeMap (consistentHash (route st q).2) !! k)) /\
  (forall q o,
     Ring.vnodeMap (consistentHash st) !! k = Some o -> o <> EmptyString ->
     Ring.vnodeMap (consistentHash (route st q).2) !! k = Some o) /\
  is_Some (Ring.vnodeMap (consistentHash (loadVnodeMappings st)) !! k).
Proof.
  intros Hk. split; [| split; [| split; [| split]]].
  - intros req. destruct (register_ring st req) as [m ->].
    apply lookup_union_is_Some. by right.
  - intros req. by rewrite unregister_keeps_local_ring.
  - intros q. destruct (route_ring st q) as [-> | (o & _ & _ & ->)]; [done |].
    rewrite vnodeMap_setVnodeMapping. by case_decide.
  - intros q o Ho Hne.
    destruct (route_ring st q) as [-> | (o' & Hnone & _ & ->)]; [done |].
    rewrite vnodeMap_setVnodeMapping. case_decide as E; [| done]. subst k.
    assert (ownerIn (Ring.vnodeMap (consistentHash st))
              (Ring.getUserVnode (consistentHash st)
                 (default ""%string (route_userId q))) = Some o) as Hown
      by (by apply ownerIn_Some).
    congruence.
  - unfold loadVnodeMappings.
    cbn [consistentHash Ring.updateVnodeMappings Ring.vnodeMap].
    apply lookup_union_is_Some. by right.
Qed.

(** X10: a request the coordinator refuses changes nothing. For each of
    register, unregister and route, from any state: the status is 400
    exactly when the instance id, or the user id, is missing or empty, and
    when the status is 400, 404 or 409 the state after the request is the
    state before it. *)
Theorem refused_requests_change_nothing (rank : string -> nat) (st : State) :
  let refused (resp : Response) :=
    status resp = 400 \/ status resp = 404 \/ status resp = 409 in
  (forall req,
     (status (register config st req).1 = 400
      <-> truthy (reg_instanceId req) = false) /\
     (refused (register config st req).1 -> (register config st req).2 = st)) /\
  (forall req,
     (status (unregister rank st req).1 = 400
      <-> truthy (unreg_instanceId req) = false) /\
     (refused (unregister rank st req).1 -> (unregister rank st req).2 = st)) /\
  (forall q,
     (status (route st q).1 = 400 <-> truthy (route_userId q) = false) /\
     (refused (route st q).1 -> (route st q).2 = st)).
Proof.
  intros refused. unfold refused. split; [| split].
  - intros req. unfold register.
    destruct (truthy (reg_instanceId req)) eqn:Hid; cbn [negb].
    + case_bool_decide; cbn; (split; [done | try done]).
      intros [? | [? | ?]]; discriminate.
    + cbn. done.
  - intros req. unfold unregister.
    destruct (truthy (unreg_instanceId req)) eqn:Hid; cbn [negb].
    + case_bool_decide; cbn; (split; [done | try done]).
      intros [? | [? | ?]]; discriminate.
    + cbn. done.
  - intros q. destruct (truthy (route_userId q)) eqn:Hid.
    + destruct (truthy_true _ Hid) as (u & Hu & Hne).
      destruct q as [ou]. cbn [route_userId] in *. subst ou.
      destruct (truthy (Directory.getCachedUserInstance (redis st) u)) eqn:Hc.
      * destruct (truthy_true _ Hc) as (inst & Hc' & Hinst).
        rewrite (route_cached st u inst Hne Hc' Hinst). unfold cacheHit. cbn.
        done.
      * rewrite (route_uncached st u Hne Hc). cbv zeta.
        destruct (ownerIn (Ring.vnodeMap (consistentHash st)) _);
          [| destruct (ownerIn (Directory.getAllVnodeOwners (redis st)) _)];
          unfold hashHit; cbn; (split; [done | try done]);
          intros [? | [? | ?]]; discriminate.
    + unfold route. rewrite Hid. cbn. done.
Qed.

End RouteFacts.

Lemma route_twice_witness :
  exists inst,
    Coordinator.route
      (Coordinator.route Scenario2.routed_to_C
         {| Coordinator.route_userId := Some "u1"%string |}).2
      {| Coordinator.route_userId := Some "u1"%string |}
    = (CoordinatorSpec.cacheHit "u1" inst,
       (Coordinator.route Scenario2.routed_to_C
          {| Coordinator.route_userId := Some "u1"%string |}).2).
Proof.
  destruct (route_twice Scenario2.routed_to_C "u1") as (inst & _ & _ & Hagain).
  - discriminate.
  - vm_compute. reflexivity.
  - exists inst. exact Hagain.
Defined.

Lemma unregister_then_route_stale_witness :
  (Coordinator.route
     (Coordinator.unregister Scenario.rank Scenario2.routed_to_C
        {| Coordinator.unreg_instanceId := Some "C"%string |}).2
     {| Coordinator.route_userId := Some "u1"%string |}).1
  = CoordinatorSpec.hashHit "u1"
      (Ring.getUserVnode (Coordinator.consistentHash Scenario2.routed_to_C) "u1") "C".
Proof.
  apply (unregister_then_route_stale Scenario.rank Scenario2.routed_to_C "C" "u1").
  - discriminate.
  - discriminate.
  - reflexivity.
  - vm_compute. reflexivity.
Defined.

Lemma ring_never_loses_entry_witness :
  Ring.vnodeMap
    (Coordinator.consistentHash
       (Coordinator.unregister Scenario.rank Scenario2.routed_to_C
          {| Coordinator.unreg_instanceId := Some "C"%string |}).2)
    !! JS.key (Ring.getUserVnode (Coordinator.consistentHash Scenario2.routed_to_C) "u1")
  = Some "C"%string /\
  is_Some
    (Ring.vnodeMap
       (Coordinator.consistentHash
          (Coordinator.register Scenario.config Scenario2.routed_to_C
             Scenario2.register_B).2)
       !! JS.key (Ring.getUserVnode (Coordinator.consistentHash Scenario2.routed_to_C) "u1")).
Proof.
  destruct (ring_never_loses_entry Scenario.config Scenario.rank
              Scenario2.routed_to_C
              (JS.key (Ring.getUserVnode
                         (Coordinator.consistentHash Scenario2.routed_to_C) "u1")))
    as (Hreg & Hunreg & _).
  - vm_compute. eexists. reflexivity.
  - split; [| apply Hreg].
    rewrite Hunreg. vm_compute. reflexivity.
Defined.

Lemma refused_requests_change_nothing_witness :
  (Coordinator.register Scenario.config4 Scenario.full Scenario.register_all).2
  = Scenario.full /\
  (Coordinator.unregister Scenario.rank Scenario.owned_by_A
     {| Coordinator.unreg_instanceId := Some "B"%string |}).2
  = Scenario.owned_by_A /\
  (Coordinator.route Scenario.empty_coordinator
     {| Coordinator.route_userId := Some "u1"%string |}).2
  = Scenario.empty_coordinator.
Proof.
  split; [| split].
  - destruct (refused_requests_change_nothing Scenario.config4 Scenario.rank
                Scenario.full) as (Hreg & _ & _).
    destruct (Hreg Scenario.register_all) as [_ Hsame].
    apply Hsame. right. right. vm_compute. reflexivity.
  - destruct (refused_requests_change_nothing Scenario.config Scenario.rank
                Scenario.owned_by_A) as (_ & Hunreg & _).
    destruct (Hunreg {| Coordinator.unreg_instanceId := Some "B"%string |})
      as [_ Hsame].
    apply Hsame. right. left. vm_compute. reflexivity.
  - destruct (refused_requests_change_nothing Scenario.config Scenario.rank
                Scenario.empty_coordinator) as (_ & _ & Hroute).
    destruct (Hroute {| Coordinator.route_userId := Some "u1"%string |})
      as [_ Hsame].
    apply Hsame. right. left. vm_compute. reflexivity.
Defined.
(** ** Token helpers *)

Section AuthFacts.

Import JS Auth AuthMiddleware MoreSpec.

Variable jwt_verify : string -> option (option string).
Variable url_token : string -> JS.result (option string).

Lemma app_cons (x : ascii) (a b : string) :
  String x a +:+ b = String x (a +:+ b).
Proof. reflexivity. Qed.

Lemma app_nil_r (a : string) : a +:+ EmptyString = a.
Proof. induction a as [| x a IH]; [reflexivity |]. by rewrite app_cons, IH. Qed.

Lemma app_snoc (a t : string) (c : ascii) :
  (a +:+ String c EmptyString) +:+ t = a +:+ String c t.
Proof. induction a as [| x a IH]; [reflexivity |]. by rewrite !app_cons, IH. Qed.

(** Splitting a string in which the separator does not occur gives the
    string itself. *)
Lemma split_go_free (sep : ascii) (t cur : string) :
  free_of sep t = true -> split_go sep t cur = [cur +:+ t].
Proof.
  revert cur. induction t as [| c t IH]; intros cur Hfree.
  - cbn [split_go]. by rewrite app_nil_r.
  - cbn [free_of] in Hfree. apply andb_true_iff in Hfree as [Hc Hfree].
    apply negb_true_iff in Hc. cbn [split_go]. rewrite Hc.
    rewrite IH by done. by rewrite app_snoc.
Qed.

(** Splitting at the first separator. *)
Lemma split_go_app (sep : ascii) (a b cur : string) :
  free_of sep a = true ->
  split_go sep (a +:+ String sep b) cur = (cur +:+ a) :: split_go sep b EmptyString.
Proof.
  revert cur. induction a as [| c a IH]; intros cur Hfree.
  - change (EmptyString +:+ String sep b) with (String sep b).
    cbn [split_go]. by rewrite Ascii.eqb_refl, app_nil_r.
  - cbn [free_of] in Hfree. apply andb_true_iff in Hfree as [Hc Hfree].
    apply negb_true_iff in Hc. rewrite app_cons. cbn [split_go]. rewrite Hc.
    rewrite IH by done. by rewrite app_snoc.
Qed.

Lemma split_two (a b : string) :
  free_of " " a = true -> free_of " " b = true ->
  split " " (a +:+ String " " b) = [a; b].
Proof.
  intros Ha Hb. unfold split. rewrite split_go_app by done.
  by rewrite split_go_free.
Qed.

Lemma split_three (a b c : string) :
  free_of " " a = true -> free_of " " b = true -> free_of " " c = true ->
  split " " (a +:+ String " " (b +:+ String " " c)) = [a; b; c].
Proof.
  intros Ha Hb Hc. unfold split. rewrite !split_go_app by done.
  by rewrite split_go_free.
Qed.

Lemma truthy_eqb (s : string) : s <> EmptyString -> negb (String.eqb s "") = true.
Proof. intros H. by apply truthy_Some in H. Qed.

(** X11: where [extractToken] takes the token from. A header
    [Bearer <t>], with [t] non-empty and free of spaces, gives [t] whatever
    the URL and the cookie are. Without a header, a non-empty request
    target is parsed: when the URL constructor throws, [extractToken]
    throws; when the query string has a non-empty token, that token is
    returned; and when the target is empty or parses to no token, the
    cookie is returned. A header of three parts, such as [Bearer a b], is
    not a token: the query string and the cookie decide as if there were no
    header. *)
Theorem extractToken_precedence (req : Request) (t : string) :
  t <> EmptyString ->
  free_of " " t = true ->
  (authorization req = Some ("Bearer" +:+ String " " t) ->
   extractToken url_token req = Returns (Some t)) /\
  (authorization req = None ->
   forall u, url req = Some u -> u <> EmptyString ->
             url_token u = Returns (Some t) ->
             extractToken url_token req = Returns (Some t)) /\
  (authorization req = None ->
   forall u, url req = Some u -> u <> EmptyString ->
             url_token u = Throws ->
             extractToken url_token req = Throws) /\
  (authorization req = None ->
   (forall u, url req = Some u -> u <> EmptyString ->
              exists x, url_token u = Returns x /\ truthy x = false) ->
   cookie_token req = Some t ->
   extractToken url_token req = Returns (Some t)) /\
  (forall r, free_of " " r = true ->
             authorization req = Some ("Bearer" +:+ String " " (t +:+ String " " r)) ->
             extractToken url_token req
             = extractToken url_token
                 {| authorization := None; url := url req;
                    cookie_token := cookie_token req |}).
Proof.
  intros Ht Hfree. pose proof (truthy_eqb t Ht) as Ht'.
  split; [| split; [| split; [| split]]].
  - intros Hauth. unfold extractToken. rewrite Hauth.
    change (truthy (Some ("Bearer" +:+ String " " t))) with true.
    cbn [default from_option]. unfold id.
    rewrite split_two by done.
    change (String.eqb "Bearer" "Bearer") with true. cbn [truthy].
    rewrite Ht'. cbn [negb andb truthy]. rewrite ?Ht'. reflexivity.
  - intros Hauth u Hurl Hu Htok. unfold extractToken. rewrite Hauth, Hurl.
    cbn [truthy]. rewrite (truthy_eqb u Hu).
    cbn [negb andb default from_option]. unfold id. rewrite Htok.
    cbn [truthy]. rewrite Ht'. reflexivity.
  - intros Hauth u Hurl Hu Htok. unfold extractToken. rewrite Hauth, Hurl.
    cbn [truthy]. rewrite (truthy_eqb u Hu).
    cbn [negb andb default from_option]. unfold id. by rewrite Htok.
  - intros Hauth Hurl Hcookie. unfold extractToken.
    rewrite Hauth, Hcookie.
    assert (Hc : truthy (Some t) = true) by (by apply truthy_Some).
    destruct (url req) as [u |] eqn:Eu.
    + destruct (decide (u = EmptyString)) as [-> | Hu].
      * cbn [truthy String.eqb negb andb]. by rewrite Ht'.
      * destruct (Hurl u eq_refl Hu) as (x & Hx & Hfalsy).
        rewrite (proj2 (truthy_Some u) Hu).
        cbn [truthy negb andb default from_option]. unfold id.
        rewrite Hx, Hfalsy. cbn [negb andb]. by rewrite Ht'.
    + cbn [truthy negb andb]. by rewrite Ht'.
  - intros r Hr Hauth. unfold extractToken. rewrite Hauth.
    cbn [authorization url cookie_token].
    change (truthy (Some ("Bearer" +:+ String " " (t +:+ String " " r)))) with true.
    cbn [default from_option]. unfold id.
    by rewrite split_three.
Qed.

(** X12: the middleware verifies the second part of the header. A missing
    header, and a header that does not start with [Bearer] and a space,
    are answered 401; for a header [Bearer <t>] the outcome is
    that of verifying [t]; and for a header [Bearer <t> <r>] it is also
    that of verifying [t], where [extractToken] finds no token in the
    header. *)
Theorem authenticate_verifies_second_part (t r : string) :
  free_of " " t = true ->
  free_of " " r = true ->
  let verified :=
    match jwt_verify t with
    | Some user => Next user
    | None => Rejected 401 (JObj [("error"%string, JStr "Unauthorized - Invalid token")])
    end in
  let missing :=
    Rejected 401
      (JObj [("error"%string, JStr "Unauthorized - Missing or invalid token format")]) in
  authenticate jwt_verify None = missing /\
  (forall h, startsWith "Bearer " h = false ->
             authenticate jwt_verify (Some h) = missing) /\
  authenticate jwt_verify (Some ("Bearer" +:+ String " " t)) = verified /\
  authenticate jwt_verify (Some ("Bearer" +:+ String " " (t +:+ String " " r)))
  = verified.
Proof.
  intros Ht Hr verified missing. split_and!.
  - reflexivity.
  - intros h Hh. unfold authenticate. cbn [default from_option]. unfold id.
    rewrite Hh. by rewrite orb_true_r.
  - unfold authenticate.
    change (truthy (Some ("Bearer" +:+ String " " t))) with true.
    cbn [default from_option]. unfold id.
    change (startsWith "Bearer " ("Bearer" +:+ String " " t)) with true.
    cbn [negb orb]. by rewrite split_two.
  - unfold authenticate.
    change (truthy (Some ("Bearer" +:+ String " " (t +:+ String " " r)))) with true.
    cbn [default from_option]. unfold id.
    change (startsWith "Bearer " ("Bearer" +:+ String " " (t +:+ String " " r)))
      with true.
    cbn [negb orb]. by rewrite split_three.
Qed.

End AuthFacts.

Lemma extractToken_precedence_witness :
  Auth.extractToken Scenario.url_token Scenario2.with_header
  = JS.Returns (Some "abc"%string) /\
  Auth.extractToken Scenario.url_token
    {| Auth.authorization := None; Auth.url := Some "//"%string;
       Auth.cookie_token := Some "abc"%string |}
  = JS.Throws /\
  Auth.extractToken Scenario.url_token
    {| Auth.authorization := None; Auth.url := Some "/socket"%string;
       Auth.cookie_token := Some "abc"%string |}
  = JS.Returns (Some "abc"%string).
Proof.
  split; [| split].
  - destruct (extractToken_precedence Scenario.url_token Scenario2.with_header "abc")
      as (Hheader & _).
    + discriminate.
    + reflexivity.
    + exact (Hheader eq_refl).
  - destruct (extractToken_precedence Scenario.url_token
                {| Auth.authorization := None; Auth.url := Some "//"%string;
                   Auth.cookie_token := Some "abc"%string |} "abc")
      as (_ & _ & Hthrows & _).
    + discriminate.
    + reflexivity.
    + apply (Hthrows eq_refl "//"%string); [reflexivity | discriminate | reflexivity].
  - destruct (extractToken_precedence Scenario.url_token
                {| Auth.authorization := None; Auth.url := Some "/socket"%string;
                   Auth.cookie_token := Some "abc"%string |} "abc")
      as (_ & _ & _ & Hcookie & _).
    + discriminate.
    + reflexivity.
    + apply (Hcookie eq_refl); [| reflexivity].
      intros u [= <-] _. exists None. split; reflexivity.
Defined.

Lemma authenticate_verifies_second_part_witness :
  AuthMiddleware.authenticate Scenario.jwt_verify (Some "Bearer token-u1 x"%string)
  = AuthMiddleware.Next (Some "u1"%string).
Proof.
  destruct (authenticate_verifies_second_part Scenario.jwt_verify "token-u1" "x")
    as (_ & _ & _ & Hthree).
  - reflexivity.
  - reflexivity.
  - exact Hthree.
Defined.

(** ** Presence node *)

Section NodeFacts.

Import JS Node NodeSpec MoreSpec.

Variable config : Config.t.
Variable jwt_verify : string -> option (option string).
Variable url_token : string -> JS.result (option string).

Lemma connection_accepted
    (st : State) (ws : nat) (req : Auth.Request) (now : Z)
    (userId : string) (v : Z) (users : gset string) :
  sockets st !! ws = None ->
  accepted config jwt_verify url_token req userId v ->
  onlineUsers st !! v = Some users ->
  step config jwt_verify url_token st (Connection ws req now)
  = ({| clients := <[userId := ws]> (clients st);
        onlineUsers := <[v := users ∪ {[userId]}]> (onlineUsers st);
        sockets := <[ws := OPEN]> (sockets st);
        pending := <[ws := (userId, v, now)]> (pending st);
        closeListeners := closeListeners st |}, []).
Proof.
  intros Hnew (token & Htok & Hne & Huid & Hune & Hv & Hin) Hou.
  cbn [step]. rewrite Hnew. unfold connection.
  rewrite Htok. apply truthy_Some in Hne. rewrite Hne.
  cbn [negb default from_option]. unfold id. rewrite Huid.
  apply truthy_Some in Hune. rewrite Hune.
  cbn [negb default from_option]. unfold id.
  unfold isUserOwnedByThisNode. rewrite Hv.
  rewrite bool_decide_true by done. cbn [negb].
  cbn [set_clients set_sockets onlineUsers]. rewrite Hou. reflexivity.
Qed.

Lemma sessions_local_initial : sessions_local config (initial config).
Proof. split_and!; intros *; cbn; by rewrite lookup_empty. Qed.

Lemma sessions_local_sockets (st : State) (s : gmap nat ReadyState) :
  sessions_local config st ->
  (forall ws, is_Some (sockets st !! ws) -> is_Some (s !! ws)) ->
  sessions_local config (set_sockets st s).
Proof.
  intros (Hc & Hp & Hl) Hs. split_and!; cbn.
  - intros u ws H. destruct (Hc u ws H) as [? ?]. auto.
  - intros ws u v t H. destruct (Hp ws u v t H) as (? & ? & ?). auto.
  - intros ws u v H. destruct (Hl ws u v H) as (? & ? & ?). auto.
Qed.

Lemma is_Some_insert_mono {A} (m : gmap nat A) (k k' : nat) (x : A) :
  is_Some (m !! k') -> is_Some (<[k := x]> m !! k').
Proof.
  intros H. destruct (decide (k = k')) as [-> | Hne].
  - rewrite lookup_insert_eq. by eexists.
  - by rewrite lookup_insert_ne.
Qed.

Lemma ws_close_local (st : State) ws code reason :
  sessions_local config st -> sessions_local config (ws_close st ws code reason).1.
Proof.
  intros Hinv. unfold ws_close.
  destruct (sockets st !! ws) as [[| |] |]; try done. cbn [fst].
  apply sessions_local_sockets; [done |]. intros ws'. apply is_Some_insert_mono.
Qed.

Lemma connection_failed_local (st : State) ws :
  sessions_local config st -> sessions_local config (connection_failed st ws).1.
Proof.
  intros Hinv. unfold connection_failed. case_bool_decide; [| done].
  pose proof (ws_close_local st ws 1011 "Internal server error" Hinv).
  by destruct (ws_close st ws 1011 "Internal server error").
Qed.

Lemma step_local (st : State) (i : Input) :
  sessions_local config st ->
  sessions_local config (step config jwt_verify url_token st i).1.
Proof.
  intros Hinv. destruct i as [ws req now | ws ok now | ws ok now | ev]; cbn [step].
  - destruct (sockets st !! ws) eqn:Hnew; [done |].
    assert (sessions_local config (set_sockets st (<[ws := OPEN]> (sockets st)))) as Hinv'.
    { apply sessions_local_sockets; [done |]. intros ws'. apply is_Some_insert_mono. }
    unfold connection.
    destruct (Auth.extractToken url_token req) as [token |];
      [| by apply connection_failed_local].
    destruct (negb (truthy token)); [by apply ws_close_local |].
    destruct (negb (truthy (Auth.extractUserId _ _))); [by apply ws_close_local |].
    set (u := default EmptyString (Auth.extractUserId _ _)).
    destruct (isUserOwnedByThisNode config u) eqn:Hown; cbn [negb];
      [| by apply ws_close_local].
    unfold isUserOwnedByThisNode in Hown.
    destruct (Ring.getUserVnode (consistentHash config) u) as [v |] eqn:Hv;
      [| discriminate].
    apply bool_decide_eq_true in Hown.
    assert (sessions_local config
              (set_clients (set_sockets st (<[ws := OPEN]> (sockets st)))
                           (<[u := ws]> (clients st)))) as Hinv''.
    { destruct Hinv' as (Hc & Hp & Hl). split_and!; [| done | done].
      intros u' ws'. cbn. destruct (decide (u = u')) as [<- | Hne].
      - rewrite lookup_insert_eq. intros [= <-]. split; [| eauto].
        rewrite lookup_insert_eq. by eexists.
      - rewrite lookup_insert_ne by done. apply Hc. }
    cbn [set_clients onlineUsers set_sockets].
    destruct (onlineUsers st !! v) as [users |]; [| by apply connection_failed_local].
    cbn [fst]. destruct Hinv'' as (Hc & Hp & Hl). split_and!; [done | | done].
    intros ws' u' v' t. cbn. destruct (decide (ws = ws')) as [<- | Hne].
    + rewrite lookup_insert_eq. intros [= <- <- <-].
      split_and!; [| done | done]. rewrite lookup_insert_eq. by eexists.
    + rewrite lookup_insert_ne by done. apply Hp.
  - unfold connection_resume.
    destruct (pending st !! ws) as [[[u v] t] |] eqn:Hpend; [| done].
    destruct Hinv as (Hc & Hp & Hl).
    destruct (Hp ws u v t Hpend) as (Hs & Hv & Hin).
    assert (sessions_local config (set_pending st (delete ws (pending st)))) as Hinv'.
    { split_and!; [done | | done]. intros ws' u' v' t'. cbn.
      intros H. apply lookup_delete_Some in H as [_ H]. by apply Hp in H. }
    destruct ok; [| by apply connection_failed_local].
    cbn [fst]. destruct Hinv' as (Hc' & Hp' & Hl'). split_and!; [done | done |].
    intros ws' u' v'. cbn. destruct (decide (ws = ws')) as [<- | Hne].
    + rewrite lookup_insert_eq. by intros [= <- <-].
    + rewrite lookup_insert_ne by done. apply Hl.
  - unfold socket_closed.
    assert (sessions_local config (set_sockets st (<[ws := CLOSED]> (sockets st)))) as Hinv'.
    { apply sessions_local_sockets; [done |]. intros ws'. apply is_Some_insert_mono. }
    assert (forall st0, sessions_local config st0 ->
              sessions_local config
                (match closeListeners st0 !! ws with
                 | Some (userId, vnodeId) =>
                     match onlineUsers st0 !! vnodeId with
                     | Some users =>
                         (set_clients
                            (set_onlineUsers st0
                               (<[vnodeId := users ∖ {[userId]}]> (onlineUsers st0)))
                            (delete userId (clients st0)),
                          if ok then [Publish (statusEvent config userId "offline" now)]
                          else [LogError "Error sending offline event"])
                     | None => (st0, [LogError "Unhandled rejection in close listener"])
                     end
                 | None => (st0, [])
                 end).1) as Hclose.
    { intros st0 (Hc & Hp & Hl).
      destruct (closeListeners st0 !! ws) as [[u v] |]; [| done].
      destruct (onlineUsers st0 !! v); [| done].
      cbn [fst]. split_and!; [| done | done].
      intros u' ws'. cbn. intros H. apply lookup_delete_Some in H as [_ H].
      by apply Hc in H. }
    destruct (sockets st !! ws) as [[| |] |]; try done; by apply Hclose.
  - pose proof (bus_message_rest config st ev) as (Hc & Hs & Hp & Hl).
    destruct Hinv as (Ic & Ip & Il).
    split_and!; intros *; rewrite ?Hc, ?Hs, ?Hp, ?Hl;
      [apply Ic | apply Ip | apply Il].
Qed.

Lemma run_local (inputs : list Input) :
  sessions_local config (run config jwt_verify url_token (initial config) inputs).1.
Proof.
  induction inputs as [| i inputs IH] using rev_ind.
  - apply sessions_local_initial.
  - rewrite run_snoc. by apply step_local.
Qed.

Lemma run_placed (inputs : list Input) :
  users_placed config
    (onlineUsers (run config jwt_verify url_token (initial config) inputs).1).
Proof.
  induction inputs as [| i inputs IH] using rev_ind.
  - apply users_placed_initial.
  - rewrite run_snoc. by apply step_placed.
Qed.

Lemma placed_key (ou : gmap Z (gset string)) (v : Z) :
  users_placed config ou -> v ∈ Config.assignedVnodes config -> is_Some (ou !! v).
Proof.
  intros [Hdom _] Hv. apply elem_of_dom. rewrite Hdom. set_solver.
Qed.

(** X13: session locality. In every state the node reaches, a user in
    [clients] is a user the node owns and has a socket the node knows, and
    the same holds for every connection handler waiting for its send and for
    every close listener, whose vnode is the vnode of its user. *)
Theorem sessions_are_local (inputs : list Input) :
  let st := (run config jwt_verify url_token (initial config) inputs).1 in
  (forall u ws, clients st !! u = Some ws ->
     is_Some (sockets st !! ws) /\
     exists v, Ring.getUserVnode (consistentHash config) u = Some v /\
               v ∈ Config.assignedVnodes config) /\
  (forall ws u v t, pending st !! ws = Some (u, v, t) ->
     is_Some (sockets st !! ws) /\
     Ring.getUserVnode (consistentHash config) u = Some v /\
     v ∈ Config.assignedVnodes config) /\
  (forall ws u v, closeListeners st !! ws = Some (u, v) ->
     is_Some (sockets st !! ws) /\
     Ring.getUserVnode (consistentHash config) u = Some v /\
     v ∈ Config.assignedVnodes config).
Proof. apply run_local. Qed.

End NodeFacts.

Lemma sessions_are_local_witness :
  is_Some
    (Node.sockets
       (Node.run Scenario.config Scenario.jwt_verify Scenario.url_token
                 (Node.initial Scenario.config) Scenario.two_connections).1 !! 2%nat).
Proof.
  destruct (sessions_are_local Scenario.config Scenario.jwt_verify Scenario.url_token
              Scenario.two_connections) as (Hclients & _ & _).
  destruct (Hclients "u1"%string 2%nat) as [Hsocket _]; [| exact Hsocket].
  vm_compute. reflexivity.
Defined.

Section NodeSessions.

Import JS Node NodeSpec MoreSpec.

Variable config : Config.t.
Variable jwt_verify : string -> option (option string).
Variable url_token : string -> JS.result (option string).

Lemma fresh_socket (inputs : list Input) (ws : nat) :
  let st := (run config jwt_verify url_token (initial config) inputs).1 in
  sockets st !! ws = None ->
  pending st !! ws = None /\ closeListeners st !! ws = None /\
  forall u, clients st !! u <> Some ws.
Proof.
  intros st Hnew. destruct (run_local config jwt_verify url_token inputs)
    as (Hc & Hp & Hl). fold st in Hc, Hp, Hl.
  split_and!.
  - destruct (pending st !! ws) as [[[u v] t] |] eqn:E; [| done].
    destruct (Hp ws u v t E) as ([x Hx] & _). congruence.
  - destruct (closeListeners st !! ws) as [[u v] |] eqn:E; [| done].
    destruct (Hl ws u v E) as ([x Hx] & _). congruence.
  - intros u E. destruct (Hc u ws E) as ([x Hx] & _). congruence.
Qed.

Lemma ws_close_session (st : State) (ws' : nat) code reason (ws : nat) :
  let st' := (ws_close st ws' code reason).1 in
  (is_Some (sockets st !! ws) -> is_Some (sockets st' !! ws)) /\
  (ws <> ws' -> sockets st' !! ws = sockets st !! ws) /\
  pending st' = pending st /\ closeListeners st' = closeListeners st.
Proof.
  unfold ws_close.
  destruct (sockets st !! ws') as [[| |] |]; cbn [fst]; try done.
  cbn [set_sockets sockets pending closeListeners]. split_and!; try done.
  - apply is_Some_insert_mono.
  - intros Hne. by apply lookup_insert_ne.
Qed.

Lemma connection_failed_session (st : State) (ws' ws : nat) :
  let st' := (connection_failed st ws').1 in
  (is_Some (sockets st !! ws) -> is_Some (sockets st' !! ws)) /\
  (ws <> ws' -> sockets st' !! ws = sockets st !! ws) /\
  pending st' = pending st /\ closeListeners st' = closeListeners st.
Proof.
  unfold connection_failed. case_bool_decide as Hopen; [| done].
  pose proof (ws_close_session st ws' 1011 "Internal server error" ws) as Hclose.
  by destruct (ws_close st ws' 1011 "Internal server error").
Qed.

Lemma connection_session (st : State) (ws' ws : nat) (req : Auth.Request) (now : Z) :
  ws <> ws' ->
  let st' := (connection config jwt_verify url_token st ws' req now).1 in
  (is_Some (sockets st !! ws) -> is_Some (sockets st' !! ws)) /\
  pending st' !! ws = pending st !! ws /\
  closeListeners st' = closeListeners st.
Proof.
  intros Hne. unfold connection.
  assert (Hclose : forall code reason,
    let st' := (ws_close st ws' code reason).1 in
    (is_Some (sockets st !! ws) -> is_Some (sockets st' !! ws)) /\
    pending st' !! ws = pending st !! ws /\
    closeListeners st' = closeListeners st).
  { intros code reason.
    destruct (ws_close_session st ws' code reason ws) as (Hs & _ & Hp & Hl).
    cbv zeta. by rewrite Hp. }
  assert (Hfail : forall c,
    let st0 := set_clients st c in
    let st' := (connection_failed st0 ws').1 in
    (is_Some (sockets st !! ws) -> is_Some (sockets st' !! ws)) /\
    pending st' !! ws = pending st !! ws /\
    closeListeners st' = closeListeners st).
  { intros c.
    destruct (connection_failed_session (set_clients st c) ws' ws)
      as (Hs & _ & Hp & Hl).
    cbv zeta. by rewrite Hp. }
  destruct (Auth.extractToken url_token req) as [token |].
  2:{ destruct (connection_failed_session st ws' ws) as (Hs & _ & Hp & Hl).
      cbv zeta. by rewrite Hp. }
  destruct (negb (truthy token)); [apply Hclose |].
  destruct (negb (truthy (Auth.extractUserId _ _))); [apply Hclose |].
  destruct (negb (isUserOwnedByThisNode _ _)); [apply Hclose |].
  destruct (Ring.getUserVnode _ _) as [v |]; [| apply Hfail].
  cbn [set_clients onlineUsers].
  destruct (onlineUsers st !! v) as [users |]; [| apply Hfail].
  cbn [fst set_pending set_onlineUsers sockets pending closeListeners].
  split_and!; [done | by apply lookup_insert_ne | done].
Qed.

(** Until the send of a connection settles, no other event touches what
    the handler of that connection left behind. *)
Lemma step_keeps_session (st : State) (i : Input) (ws : nat) :
  is_Some (sockets st !! ws) ->
  ~ settles ws i ->
  let st' := (step config jwt_verify url_token st i).1 in
  is_Some (sockets st' !! ws) /\
  pending st' !! ws = pending st !! ws /\
  closeListeners st' !! ws = closeListeners st !! ws.
Proof.
  intros Hsock Hno. destruct i as [ws' req now | ws' ok now | ws' ok now | ev];
    cbn [step].
  - destruct (sockets st !! ws') eqn:Hnew; [done |].
    assert (ws <> ws') as Hne by (intros ->; rewrite Hnew in Hsock; by destruct Hsock).
    destruct (connection_session (set_sockets st (<[ws' := OPEN]> (sockets st)))
                ws' ws req now Hne) as (Hs & Hp & Hl).
    cbv zeta. rewrite Hp, Hl. split_and!; [| done | done].
    apply Hs. cbn. by apply is_Some_insert_mono.
  - assert (ws <> ws') as Hne by (intros ->; by apply Hno).
    unfold connection_resume.
    destruct (pending st !! ws') as [[[u v] t] |]; [| done].
    destruct ok.
    + cbn [fst set_pending set_closeListeners sockets pending closeListeners].
      split_and!; [done | by apply lookup_delete_ne | by apply lookup_insert_ne].
    + destruct (connection_failed_session
                  (set_pending st (delete ws' (pending st))) ws' ws)
        as (Hs & _ & Hp & Hl).
      cbv zeta. rewrite Hp, Hl. cbn [set_pending pending closeListeners].
      split_and!; [by apply Hs | by apply lookup_delete_ne | done].
  - unfold socket_closed.
    assert (Hcl : is_Some (<[ws' := CLOSED]> (sockets st) !! ws))
      by (by apply is_Some_insert_mono).
    destruct (sockets st !! ws') as [[| |] |]; try done;
      cbn [set_sockets closeListeners onlineUsers];
      (destruct (closeListeners st !! ws') as [[u v] |]; [| done]);
      (destruct (onlineUsers st !! v); done).
  - pose proof (bus_message_rest config st ev) as (_ & Hs & Hp & Hl).
    cbv zeta. by rewrite Hs, Hp, Hl.
Qed.

Lemma run_keeps_session (st : State) (mid : list Input) (ws : nat) :
  is_Some (sockets st !! ws) ->
  Forall (fun i => ~ settles ws i) mid ->
  let st' := (run config jwt_verify url_token st mid).1 in
  is_Some (sockets st' !! ws) /\
  pending st' !! ws = pending st !! ws /\
  closeListeners st' !! ws = closeListeners st !! ws.
Proof.
  intros Hsock. induction mid as [| i mid IH] using rev_ind; intros Hno.
  - done.
  - apply Forall_app in Hno as [Hmid Hi]. rewrite Forall_singleton in Hi.
    destruct (IH Hmid) as (Hs & Hp & Hl). cbv zeta. rewrite run_snoc.
    destruct (step_keeps_session _ i ws Hs Hi) as (Hs' & Hp' & Hl').
    split_and!; [done | by rewrite Hp' | by rewrite Hl'].
Qed.

(** Once the handler of a socket has left its [await], nothing installs a
    close listener on the socket any more. *)
Lemma step_settled (st : State) (i : Input) (ws : nat) :
  is_Some (sockets st !! ws) ->
  pending st !! ws = None ->
  let st' := (step config jwt_verify url_token st i).1 in
  is_Some (sockets st' !! ws) /\
  pending st' !! ws = None /\
  closeListeners st' !! ws = closeListeners st !! ws.
Proof.
  intros Hsock Hpend.
  assert (Hdec : settles ws i \/ ~ settles ws i).
  { destruct i as [ws' req now | ws' ok now | ws' ok now | ev];
      unfold settles; [right; tauto | | right; tauto | right; tauto].
    destruct (decide (ws' = ws)); [by left | by right]. }
  destruct Hdec as [Hyes | Hno].
  - destruct i as [ws' req now | ws' ok now | ws' ok now | ev]; try done.
    cbn in Hyes. subst ws'.
    cbn [step]. unfold connection_resume. by rewrite Hpend.
  - destruct (step_keeps_session st i ws Hsock Hno) as (Hs & Hp & Hl).
    split_and!; [done | by rewrite Hp | done].
Qed.

Lemma run_settled (st : State) (post : list Input) (ws : nat) :
  is_Some (sockets st !! ws) ->
  pending st !! ws = None ->
  let st' := (run config jwt_verify url_token st post).1 in
  is_Some (sockets st' !! ws) /\
  pending st' !! ws = None /\
  closeListeners st' !! ws = closeListeners st !! ws.
Proof.
  intros Hsock Hpend. induction post as [| i post IH] using rev_ind.
  - done.
  - destruct IH as (Hs & Hp & Hl). cbv zeta. rewrite run_snoc.
    destruct (step_settled _ i ws Hs Hp) as (Hs' & Hp' & Hl').
    split_and!; [done | done | by rewrite Hl'].
Qed.


(** X15: a rejected send leaks the user's presence. Whatever events the
    node handles before the send of an accepted connection settles, a send
    that fails is only logged, the socket is closed with code 1011 when it
    is still open, and neither [clients] nor the sets change: the user is
    not taken out again. No close listener is installed then or at any
    later time, so whenever the socket closes afterwards, nothing is
    removed and no offline event is published. When the send fails right
    after the connection and the socket closes next, the user is still in
    [clients] with the closed socket and in the set of the user's vnode. *)
Theorem failed_send_leaks_presence
    (inputs mid post : list Input) (ws : nat) (req : Auth.Request)
    (now now' now'' : Z) (ok : bool) (userId : string) (v : Z) :
  let st := (run config jwt_verify url_token (initial config) inputs).1 in
  sockets st !! ws = None ->
  accepted config jwt_verify url_token req userId v ->
  Forall (fun i => ~ settles ws i) mid ->
  let '(st1, _) := step config jwt_verify url_token st (Connection ws req now) in
  let st1' := (run config jwt_verify url_token st1 mid).1 in
  let '(st2, effs2) := step config jwt_verify url_token st1' (SendDone ws false now') in
  let st2' := (run config jwt_verify url_token st2 post).1 in
  let '(st3, effs3) := step config jwt_verify url_token st2' (SocketClosed ws ok now'') in
  effs2 = LogError "Error handling WebSocket connection" ::
          (if bool_decide (sockets st1' !! ws = Some OPEN)
           then [Close ws 1011 "Internal server error"]
           else []) /\
  clients st2 = clients st1' /\
  onlineUsers st2 = onlineUsers st1' /\
  closeListeners st2' !! ws = None /\
  effs3 = [] /\
  clients st3 = clients st2' /\
  onlineUsers st3 = onlineUsers st2' /\
  closeListeners st3 !! ws = None /\
  (mid = [] -> post = [] ->
   effs2 = [LogError "Error handling WebSocket connection";
            Close ws 1011 "Internal server error"] /\
   clients st3 !! userId = Some ws /\
   online st3 v userId /\
   sockets st3 !! ws = Some CLOSED).
Proof.
  intros st Hnew Hacc Hmid.
  pose proof Hacc as (_ & _ & _ & _ & _ & _ & Hin).
  destruct (placed_key config _ v (run_placed config jwt_verify url_token inputs) Hin)
    as [users Hou]. fold st in Hou.
  destruct (fresh_socket inputs ws Hnew) as (_ & Hl & _). fold st in Hl.
  rewrite (connection_accepted config jwt_verify url_token st ws req now userId v users)
    by done.
  set (st1 := {| clients := <[userId := ws]> (clients st);
                 onlineUsers := <[v := users ∪ {[userId]}]> (onlineUsers st);
                 sockets := <[ws := OPEN]> (sockets st);
                 pending := <[ws := (userId, v, now)]> (pending st);
                 closeListeners := closeListeners st |}).
  assert (Hs1 : sockets st1 !! ws = Some OPEN) by apply lookup_insert_eq.
  assert (Hp1 : pending st1 !! ws = Some (userId, v, now)) by apply lookup_insert_eq.
  assert (Hc1 : clients st1 !! userId = Some ws) by apply lookup_insert_eq.
  assert (Ho1 : onlineUsers st1 !! v = Some (users ∪ {[userId]}))
    by apply lookup_insert_eq.
  destruct (run_keeps_session st1 mid ws) as (Hs & Hp & Hl1); [by eexists | done |].
  rewrite Hp1 in Hp. change (closeListeners st1) with (closeListeners st) in Hl1.
  rewrite Hl in Hl1. cbv zeta.
  set (st1' := (run config jwt_verify url_token st1 mid).1) in *.
  (* the failed send *)
  assert (Hstep2 :
    step config jwt_verify url_token st1' (SendDone ws false now')
    = connection_failed (set_pending st1' (delete ws (pending st1'))) ws).
  { cbn [step]. unfold connection_resume. by rewrite Hp. }
  rewrite Hstep2.
  set (st1p := set_pending st1' (delete ws (pending st1'))).
  pose proof (connection_failed_session st1p ws ws) as (Hs2 & _ & Hp2 & Hl2).
  pose proof (connection_failed_onlineUsers st1p ws) as (Ho2 & Hc2).
  assert (Heffs2 : (connection_failed st1p ws).2
                   = LogError "Error handling WebSocket connection" ::
                     (if bool_decide (sockets st1' !! ws = Some OPEN)
                      then [Close ws 1011 "Internal server error"]
                      else [])).
  { unfold connection_failed, ws_close.
    change (sockets st1p) with (sockets st1').
    case_bool_decide as Hopen; [by rewrite Hopen | done]. }
  destruct (connection_failed st1p ws) as [st2 effs2] eqn:Hcf.
  cbn [fst snd] in *.
  assert (Hsock2 : is_Some (sockets st2 !! ws)) by (by apply Hs2).
  assert (Hpend2 : pending st2 !! ws = None).
  { rewrite Hp2. unfold st1p. cbn. apply lookup_delete_eq. }
  assert (Hlis2 : closeListeners st2 !! ws = None).
  { rewrite Hl2. unfold st1p. cbn. exact Hl1. }
  destruct (run_settled st2 post ws Hsock2 Hpend2) as (Hs3 & Hp3 & Hl3).
  rewrite Hlis2 in Hl3.
  set (st2' := (run config jwt_verify url_token st2 post).1) in *.
  (* the close of the socket *)
  assert (Hstep3 :
    let r := step config jwt_verify url_token st2' (SocketClosed ws ok now'') in
    r.2 = [] /\ clients r.1 = clients st2' /\ onlineUsers r.1 = onlineUsers st2' /\
    closeListeners r.1 = closeListeners st2' /\
    (sockets st2' !! ws = Some CLOSING -> sockets r.1 !! ws = Some CLOSED)).
  { cbn [step]. unfold socket_closed.
    destruct (sockets st2' !! ws) as [[| |] |]; try done;
      cbn [set_sockets closeListeners]; rewrite Hl3; cbn [fst snd];
      (split_and!; try done); intros _; apply lookup_insert_eq. }
  destruct (step config jwt_verify url_token st2' (SocketClosed ws ok now''))
    as [st3 effs3].
  cbn [fst snd] in Hstep3. destruct Hstep3 as (He3 & Hc3 & Ho3 & Hl3' & Hclosed).
  split; [exact Heffs2 |].
  split; [by rewrite Hc2 |].
  split; [by rewrite Ho2 |].
  split; [exact Hl3 |].
  split; [exact He3 |].
  split; [exact Hc3 |].
  split; [exact Ho3 |].
  split; [by rewrite Hl3' |].
  intros -> ->.
  change st1' with st1 in *. change st2' with st2 in *.
  assert (Hopen : sockets st1 !! ws = Some OPEN) by exact Hs1.
  rewrite bool_decide_true in Heffs2 by exact Hopen.
  split; [exact Heffs2 |].
  split; [by rewrite Hc3, Hc2 |].
  split; [exists (users ∪ {[userId]}); split; [by rewrite Ho3, Ho2 | set_solver] |].
  apply Hclosed.
  revert Hcf. unfold connection_failed, ws_close.
  change (sockets st1p) with (sockets st1).
  rewrite bool_decide_true by exact Hopen. rewrite Hopen.
  intros [= <- _]. cbn. apply lookup_insert_eq.
Qed.


Ltac effects_ok :=
  repeat (apply List.Forall_cons;
          [cbn; first [done | split; [done | by left] | split; [done | by right]] |]);
  apply List.Forall_nil.

Lemma ws_close_effects (st : State) ws code reason :
  Forall (is_publish_of (Config.nodeId config)) (ws_close st ws code reason).2.
Proof. unfold ws_close. repeat case_match; by repeat constructor. Qed.

Lemma connection_failed_effects (st : State) ws :
  Forall (is_publish_of (Config.nodeId config)) (connection_failed st ws).2.
Proof.
  unfold connection_failed. case_bool_decide.
  - pose proof (ws_close_effects st ws 1011 "Internal server error").
    destruct (ws_close st ws 1011 "Internal server error"). by constructor.
  - by repeat constructor.
Qed.

Lemma step_effects (st : State) (i : Input) :
  Forall (is_publish_of (Config.nodeId config))
         (step config jwt_verify url_token st i).2.
Proof.
  destruct i as [ws req now | ws ok now | ws ok now | ev]; cbn [step].
  - destruct (sockets st !! ws); [constructor |]. unfold connection.
    destruct (Auth.extractToken url_token req) as [token |];
      [| apply connection_failed_effects].
    destruct (negb (truthy token)); [apply ws_close_effects |].
    destruct (negb (truthy _)); [apply ws_close_effects |].
    destruct (negb (isUserOwnedByThisNode _ _)); [apply ws_close_effects |].
    destruct (Ring.getUserVnode _ _) as [v |]; [| apply connection_failed_effects].
    cbn [set_clients onlineUsers set_sockets].
    destruct (onlineUsers st !! v); [constructor | apply connection_failed_effects].
  - unfold connection_resume. destruct (pending st !! ws) as [[[u v] t] |];
      [| constructor].
    destruct ok; [| apply connection_failed_effects].
    cbn [snd]. case_bool_decide; effects_ok.
  - unfold socket_closed.
    destruct (sockets st !! ws) as [[| |] |]; try (cbn [snd]; effects_ok);
      cbn [set_sockets closeListeners onlineUsers];
      (destruct (closeListeners st !! ws) as [[u v] |];
       [| cbn [snd]; effects_ok]);
      (destruct (onlineUsers st !! v); [| cbn [snd]; effects_ok]);
      destruct ok; cbn [snd]; effects_ok.
  - unfold bus_message. repeat case_match; cbn [snd]; effects_ok.
Qed.

Lemma run_effects (inputs : list Input) :
  Forall (is_publish_of (Config.nodeId config))
         (run config jwt_verify url_token (initial config) inputs).2.
Proof.
  induction inputs as [| i inputs IH] using rev_ind.
  - constructor.
  - unfold run in *. rewrite fold_left_app. cbn [fold_left].
    pose proof (step_effects
      (fold_left (fun acc i0 =>
         let '(st', effs) := step config jwt_verify url_token acc.1 i0 in
         (st', acc.2 ++ effs)) inputs (initial config, [])).1 i) as Hstep.
    destruct (step _ _ _ _ _). cbn [snd] in *. by apply Forall_app.
Qed.

(** X17: a node does not react to its own events. Every event the node
    publishes, in any run, carries the node's id and the action [online] or
    [offline]; and when such an event comes back from the bus, in whatever
    state, the node changes nothing and sends nothing. *)
Theorem own_events_are_suppressed (inputs : list Input) (ev : Event) :
  Publish ev ∈ (run config jwt_verify url_token (initial config) inputs).2 ->
  ev_nodeId ev = Config.nodeId config /\
  (ev_action ev = "online"%string \/ ev_action ev = "offline"%string) /\
  forall st, step config jwt_verify url_token st (BusMessage ev) = (st, []).
Proof.
  intros Hin.
  pose proof (run_effects inputs) as Hall. rewrite Forall_forall in Hall.
  destruct (Hall _ Hin) as [Hnode Hact]. split_and!; [done | done |].
  intros st. cbn [step]. unfold bus_message.
  by rewrite Hnode, String.eqb_refl.
Qed.

(** X27: a request target the URL constructor rejects. When
    [extractToken] throws for the request of a new connection, in whatever
    state, the handler's [catch] logs the error and closes the socket with
    code 1011 and reason [Internal server error]; [clients], the sets, the
    pending handlers and the close listeners are untouched, and the
    request is none of the three client input faults. *)
Theorem unparsable_target_closes_1011
    (st : State) (ws : nat) (req : Auth.Request) (now : Z) :
  sockets st !! ws = None ->
  Auth.extractToken url_token req = Throws ->
  let '(st', effs) := step config jwt_verify url_token st (Connection ws req now) in
  effs = [LogError "Error handling WebSocket connection";
          Close ws 1011 "Internal server error"] /\
  sockets st' = <[ws := CLOSING]> (sockets st) /\
  clients st' = clients st /\
  onlineUsers st' = onlineUsers st /\
  pending st' = pending st /\
  closeListeners st' = closeListeners st /\
  forall reason, ~ Fault config jwt_verify url_token req reason.
Proof.
  intros Hnew Hthrows. cbn [step]. rewrite Hnew. unfold connection.
  rewrite Hthrows. unfold connection_failed, ws_close.
  cbn [set_sockets sockets].
  rewrite bool_decide_true by apply lookup_insert_eq.
  rewrite lookup_insert_eq.
  cbn [clients onlineUsers pending closeListeners sockets].
  split_and!; try done.
  - apply insert_insert_eq.
  - intros reason HF. destruct HF; congruence.
Qed.

End NodeSessions.

Lemma accepted_u1 :
  NodeSpec.accepted Scenario.config Scenario.jwt_verify Scenario.url_token
    (Scenario.bearer "token-u1") "u1" 221.
Proof.
  exists "token-u1"%string. split_and!.
  - reflexivity.
  - discriminate.
  - reflexivity.
  - discriminate.
  - vm_compute. reflexivity.
  - apply list_elem_of_here.
Defined.


Lemma failed_send_leaks_presence_witness :
  (let '(st1, _) :=
     Node.step Scenario.config Scenario.jwt_verify Scenario.url_token
       (Node.run Scenario.config Scenario.jwt_verify Scenario.url_token
                 (Node.initial Scenario.config) []).1
       (Node.Connection 1 (Scenario.bearer "token-u1") 10) in
   let '(st2, _) :=
     Node.step Scenario.config Scenario.jwt_verify Scenario.url_token
       (Node.run Scenario.config Scenario.jwt_verify Scenario.url_token st1 []).1
       (Node.SendDone 1 false 11) in
   let '(st3, _) :=
     Node.step Scenario.config Scenario.jwt_verify Scenario.url_token
       (Node.run Scenario.config Scenario.jwt_verify Scenario.url_token st2 []).1
       (Node.SocketClosed 1 true 12) in
   Node.clients st3 !! "u1"%string = Some 1%nat /\
   Node.sockets st3 !! 1%nat = Some Node.CLOSED) /\
  (let '(st1, _) :=
     Node.step Scenario.config Scenario.jwt_verify Scenario.url_token
       (Node.run Scenario.config Scenario.jwt_verify Scenario.url_token
                 (Node.initial Scenario.config) []).1
       (Node.Connection 1 (Scenario.bearer "token-u1") 10) in
   let '(st2, _) :=
     Node.step Scenario.config Scenario.jwt_verify Scenario.url_token
       (Node.run Scenario.config Scenario.jwt_verify Scenario.url_token st1
                 [Node.BusMessage (Scenario2.from_node_2 "online" 11)]).1
       (Node.SendDone 1 false 12) in
   let '(st3, effs3) :=
     Node.step Scenario.config Scenario.jwt_verify Scenario.url_token
       (Node.run Scenario.config Scenario.jwt_verify Scenario.url_token st2
                 [Node.SendDone 1 true 13]).1
       (Node.SocketClosed 1 true 14) in
   effs3 = [] /\ Node.closeListeners st3 !! 1%nat = None).
Proof.
  split.
  - pose proof (failed_send_leaks_presence Scenario.config Scenario.jwt_verify
                  Scenario.url_token [] [] [] 1 (Scenario.bearer "token-u1")
                  10 11 12 true "u1" 221 eq_refl accepted_u1 (Forall_nil_2 _)) as H.
    destruct (Node.step _ _ _ _ (Node.Connection 1 _ 10)) as [st1 effs1].
    cbv zeta in H.
    destruct (Node.step _ _ _ _ (Node.SendDone 1 false 11)) as [st2 effs2].
    destruct (Node.step _ _ _ _ (Node.SocketClosed 1 true 12)) as [st3 effs3].
    destruct H as (_ & _ & _ & _ & _ & _ & _ & _ & Hnow).
    destruct (Hnow eq_refl eq_refl) as (_ & Hclient & _ & Hsocket). by split.
  - assert (Hmid : Forall (fun i => ~ MoreSpec.settles 1 i)
                          [Node.BusMessage (Scenario2.from_node_2 "online" 11)]).
    { apply Forall_singleton. intros []. }
    pose proof (failed_send_leaks_presence Scenario.config Scenario.jwt_verify
                  Scenario.url_token []
                  [Node.BusMessage (Scenario2.from_node_2 "online" 11)]
                  [Node.SendDone 1 true 13] 1 (Scenario.bearer "token-u1")
                  10 12 14 true "u1" 221 eq_refl accepted_u1 Hmid) as H.
    destruct (Node.step _ _ _ _ (Node.Connection 1 _ 10)) as [st1 effs1].
    cbv zeta in H.
    destruct (Node.step _ _ _ _ (Node.SendDone 1 false 12)) as [st2 effs2].
    destruct (Node.step _ _ _ _ (Node.SocketClosed 1 true 14)) as [st3 effs3].
    destruct H as (_ & _ & _ & _ & Heffs & _ & _ & Hlistener & _). by split.
Defined.


Lemma own_events_are_suppressed_witness :
  Node.step Scenario.config Scenario.jwt_verify Scenario.url_token
    Scenario2.u1_online
    (Node.BusMessage (Node.statusEvent Scenario.config "u1" "online" 10))
  = (Scenario2.u1_online, []).
Proof.
  destruct (own_events_are_suppressed Scenario.config Scenario.jwt_verify
              Scenario.url_token
              [Scenario2.u1_connects; Node.SendDone 1 true 11]
              (Node.statusEvent Scenario.config "u1" "online" 10))
    as (_ & _ & Hignored).
  - vm_compute. apply list_elem_of_here.
  - apply Hignored.
Defined.


Lemma unparsable_target_closes_1011_witness :
  (Node.step Scenario.config Scenario.jwt_verify Scenario.url_token
     (Node.initial Scenario.config)
     (Node.Connection 1 Scenario.unparsable 10)).2
  = [Node.LogError "Error handling WebSocket connection";
     Node.Close 1 1011 "Internal server error"].
Proof.
  pose proof (unparsable_target_closes_1011 Scenario.config Scenario.jwt_verify
                Scenario.url_token (Node.initial Scenario.config) 1
                Scenario.unparsable 10 eq_refl eq_refl) as H.
  destruct (Node.step _ _ _ _ _) as [st' effs].
  destruct H as (Heffs & _). exact Heffs.
Defined.

Section Presence.

Import JS Node NodeSpec MoreSpec.

Variable config : Config.t.
Variable jwt_verify : string -> option (option string).
Variable url_token : string -> JS.result (option string).

Lemma apply_op_key (o : SetOp) (ou : gmap Z (gset string)) (v : Z) :
  is_Some (ou !! v) -> is_Some (apply_op o ou !! v).
Proof.
  intros Hv. destruct o as [| v' u' | v' u']; cbn [apply_op]; [done | |];
    (destruct (ou !! v') eqn:E; [| done]);
    (destruct (decide (v' = v)) as [-> | Hne];
     [rewrite lookup_insert_eq; by eexists | by rewrite lookup_insert_ne]).
Qed.

Lemma apply_op_other (o : SetOp) (ou : gmap Z (gset string)) (v : Z) (u : string) :
  match o with Keep => True | Add _ u' | Remove _ u' => u' <> u end ->
  mem (apply_op o ou) v u <-> mem ou v u.
Proof.
  unfold mem. destruct o as [| v' u' | v' u']; cbn [apply_op]; [done | |];
    intros Hne; (destruct (ou !! v') as [s' |] eqn:E; [| done]);
    (destruct (decide (v' = v)) as [-> | Hv];
     [| by rewrite lookup_insert_ne]);
    rewrite lookup_insert_eq, E; split; intros (s & [= <-] & Hin);
    eexists; (split; [reflexivity | set_solver]).
Qed.

Lemma apply_op_add (ou : gmap Z (gset string)) (v : Z) (u : string) :
  is_Some (ou !! v) -> mem (apply_op (Add v u) ou) v u.
Proof.
  intros [s Hs]. unfold mem. cbn [apply_op]. rewrite Hs, lookup_insert_eq.
  eexists. split; [reflexivity | set_solver].
Qed.

Lemma apply_op_remove (ou : gmap Z (gset string)) (v : Z) (u : string) :
  ~ mem (apply_op (Remove v u) ou) v u.
Proof.
  unfold mem. cbn [apply_op]. destruct (ou !! v) as [s |] eqn:Hs.
  - rewrite lookup_insert_eq. intros (s' & [= <-] & Hin). set_solver.
  - rewrite Hs. by intros (s' & ? & _).
Qed.

Lemma op_of_event_other (ev : Event) (u : string) :
  ev_userId ev <> u \/ ev_nodeId ev = Config.nodeId config ->
  match op_of_event config ev with
  | Keep => True
  | Add _ u' | Remove _ u' => u' <> u
  end.
Proof.
  intros Hother. unfold op_of_event.
  destruct (String.eqb (ev_nodeId ev) (Config.nodeId config)) eqn:Hnode;
    [done |].
  apply String.eqb_neq in Hnode.
  destruct Hother as [Hu | ?]; [| done].
  destruct (negb _); [done |].
  destruct (Ring.getUserVnode _ _); [| done].
  destruct (String.eqb (ev_action ev) "online"); [done |].
  by destruct (String.eqb (ev_action ev) "offline").
Qed.

Lemma apply_events_app (st : State) (evs1 evs2 : list Event) :
  apply_events config st (evs1 ++ evs2)
  = apply_events config (apply_events config st evs1) evs2.
Proof. unfold apply_events. apply fold_left_app. Qed.

Lemma apply_ops_key (ops : list SetOp) (ou : gmap Z (gset string)) (v : Z) :
  is_Some (ou !! v) -> is_Some (apply_ops ops ou !! v).
Proof.
  revert ou. induction ops as [| o ops IH]; intros ou Hv; [done |].
  cbn [apply_ops fold_left]. apply IH. by apply apply_op_key.
Qed.

Lemma apply_ops_other (ops : list SetOp) (ou : gmap Z (gset string)) v u :
  Forall (fun o => match o with Keep => True | Add _ u' | Remove _ u' => u' <> u end)
         ops ->
  mem (apply_ops ops ou) v u <-> mem ou v u.
Proof.
  revert ou. induction ops as [| o ops IH]; intros ou Hall; [done |].
  apply Forall_cons in Hall as [Ho Hall].
  cbn [apply_ops fold_left]. rewrite <- (apply_op_other o ou v u Ho).
  by apply IH.
Qed.

(** X18: the last event about a user wins. After any sequence of bus
    messages, the user of an owned vnode is in the set of that vnode exactly
    when the last message about the user from another node was [online]:
    messages about other users and messages of the node itself that follow
    it do not change that. *)
Theorem last_event_wins
    (st : State) (evs1 evs2 : list Event) (ev : Event) (v : Z) :
  Ring.getUserVnode (consistentHash config) (ev_userId ev) = Some v ->
  v ∈ Config.assignedVnodes config ->
  is_Some (onlineUsers st !! v) ->
  ev_nodeId ev <> Config.nodeId config ->
  Forall (fun e => ev_userId e <> ev_userId ev \/ ev_nodeId e = Config.nodeId config)
         evs2 ->
  let st' := apply_events config st (evs1 ++ ev :: evs2) in
  (ev_action ev = "online"%string -> online st' v (ev_userId ev)) /\
  (ev_action ev = "offline"%string -> ~ online st' v (ev_userId ev)).
Proof.
  intros Hv Hin Hkey Hnode Hrest st'.
  assert (Hop : op_of_event config ev
                = if String.eqb (ev_action ev) "online" then Add v (ev_userId ev)
                  else if String.eqb (ev_action ev) "offline"
                       then Remove v (ev_userId ev) else Keep).
  { unfold op_of_event. apply String.eqb_neq in Hnode. rewrite Hnode.
    unfold isUserOwnedByThisNode. rewrite Hv.
    by rewrite bool_decide_true by done. }
  assert (Hst' : forall u, online st' v u
                 <-> mem (apply_ops (op_of_event config <$> evs2)
                            (apply_op (op_of_event config ev)
                               (apply_ops (op_of_event config <$> evs1)
                                          (onlineUsers st)))) v u).
  { intros u. unfold online, st'. rewrite apply_events_onlineUsers.
    rewrite fmap_app, fmap_cons. unfold apply_ops at 1.
    rewrite fold_left_app. reflexivity. }
  assert (Hothers : Forall (fun o => match o with
                                     | Keep => True
                                     | Add _ u' | Remove _ u' => u' <> ev_userId ev
                                     end) (op_of_event config <$> evs2)).
  { apply Forall_fmap. eapply Forall_impl; [exact Hrest |].
    intros e He. by apply op_of_event_other. }
  split; intros Hact; rewrite Hst', (apply_ops_other _ _ _ _ Hothers), Hop, Hact.
  - cbn [String.eqb Ascii.eqb Bool.eqb]. apply apply_op_add.
    by apply apply_ops_key.
  - cbn [String.eqb Ascii.eqb Bool.eqb]. apply apply_op_remove.
Qed.

(** X19: the loads of a heartbeat are read back as the sizes of the sets.
    In every state the node reaches, [updateHeartbeat] builds its two maps
    without throwing; once they are written, [getAllVnodeLoads] reads for
    every assigned vnode the number of users in its set, and the owner of
    every assigned vnode is the node. *)
Theorem heartbeat_loads_read_back (inputs : list Input) :
  let st := (run config jwt_verify url_token (initial config) inputs).1 in
  exists vnodeLoad,
    heartbeatLoads config st = Some vnodeLoad /\
    forall d v users,
      v ∈ Config.assignedVnodes config ->
      onlineUsers st !! v = Some users ->
      Loads.getAllVnodeLoads (Directory.updateVnodeLoads d vnodeLoad) !! key (Some v)
      = Some (Some (Z.of_nat (size users))) /\
      Directory.owners (Directory.updateVnodeOwners d (heartbeatOwners config))
        !! key (Some v) = Some (Config.nodeId config).
Proof.
  intros st.
  pose proof (run_placed config jwt_verify url_token inputs) as Hplaced. fold st in Hplaced.
  destruct (loads_from_total st (Config.assignedVnodes config) ∅) as [m Hm].
  { intros v Hv. by apply (placed_key config). }
  exists m. split; [exact Hm |]. intros d v users Hv Hu. split.
  - unfold Loads.getAllVnodeLoads. rewrite lookup_fmap.
    rewrite (proj1 (loads_updateVnodeLoads _ _)).
    destruct (loads_from_lookup st _ _ _ Hm) as [Hin _].
    rewrite (lookup_union_Some_l _ _ _ _ (Hin v users Hv Hu)).
    cbn. by rewrite parseInt10_pretty.
  - by apply owners_written_update.
Qed.

End Presence.

Lemma last_event_wins_witness :
  MoreSpec.online
    (NodeSpec.apply_events Scenario.config (Node.initial Scenario.config)
       ([Scenario2.from_node_2 "offline" 5]
        ++ Scenario2.from_node_2 "online" 6
        :: [Node.statusEvent Scenario.config "u1" "offline" 7]))
    221 "u1".
Proof.
  destruct (last_event_wins Scenario.config Scenario.jwt_verify Scenario.url_token
              (Node.initial Scenario.config)
              [Scenario2.from_node_2 "offline" 5]
              [Node.statusEvent Scenario.config "u1" "offline" 7]
              (Scenario2.from_node_2 "online" 6) 221) as [Honline _].
  - vm_compute. reflexivity.
  - apply list_elem_of_here.
  - vm_compute. eexists. reflexivity.
  - discriminate.
  - apply List.Forall_cons; [right; reflexivity | apply List.Forall_nil].
  - apply Honline. reflexivity.
Defined.

Lemma heartbeat_loads_read_back_witness :
  exists vnodeLoad,
    Node.heartbeatLoads Scenario.config Scenario2.u1_online = Some vnodeLoad /\
    Loads.getAllVnodeLoads (Directory.updateVnodeLoads Directory.empty vnodeLoad)
      !! "221"%string = Some (Some 1).
Proof.
  destruct (heartbeat_loads_read_back Scenario.config Scenario.jwt_verify
              Scenario.url_token [Scenario2.u1_connects; Node.SendDone 1 true 11])
    as (vnodeLoad & Hloads & Hread).
  exists vnodeLoad. split; [exact Hloads |].
  destruct (Hread Directory.empty 221 {[ "u1"%string ]}) as [Hload _].
  - apply list_elem_of_here.
  - vm_compute. reflexivity.
  - exact Hload.
Defined.

(** ** Start-up order *)

Section StartupOrder.

Import JS Startup StartupSpec MoreSpec.

Variable config : Config.t.
Variable jwt_verify : string -> option (option string).
Variable url_token : string -> JS.result (option string).

Lemma begin_heartbeat_listening (p : Process) (k : Pc) :
  listening (begin_heartbeat config p k) = listening p.
Proof. unfold begin_heartbeat. by repeat case_match. Qed.

Lemma step_listening (p : Process) (i : Input) :
  listening p = true -> listening (step config jwt_verify url_token p i) = true.
Proof.
  intros Hl. unfold step.
  destruct (pc p) eqn:Hpc; try done; destruct i as [ok | ok1 ok2 | e];
    unfold resume, tick; rewrite ?Hpc;
    repeat first [rewrite begin_heartbeat_listening | case_match]; done.
Qed.

Lemma step_quiet (d : Directory.t) (p : Process) (i : Input) :
  quiet config d p -> quiet config d (step config jwt_verify url_token p i).
Proof.
  intros Hq Hl'.
  destruct (listening p) eqn:Hl.
  { by rewrite (step_listening p i Hl) in Hl'. }
  destruct (Hq Hl) as (Hpc & Hsub & Htimer & Hdone & Hnode & Hredis).
  revert Hl'. unfold step. unfold heartbeat_issued in Hpc.
  destruct (pc p) eqn:Ep; try done.
  - destruct i as [ok | ok1 ok2 | e].
    + unfold resume. rewrite Ep. destruct ok; cbn; intros _;
        unfold heartbeat_issued; cbn; by rewrite ?Hnode, ?Hredis.
    + rewrite Htimer. intros _. unfold heartbeat_issued. by rewrite Ep.
    + unfold enabled. destruct e as [ws req now | ws ok now | ws ok now | ev];
        rewrite ?Hl, ?Hsub; intros _; unfold heartbeat_issued; cbn;
        rewrite ?Ep, ?Hnode; done.
  - destruct i as [ok | ok1 ok2 | e].
    + unfold resume. rewrite Ep. destruct ok; cbn; intros _;
        unfold heartbeat_issued; cbn; by rewrite ?Hnode, ?Hredis.
    + rewrite Htimer. intros _. unfold heartbeat_issued. by rewrite Ep.
    + unfold enabled. destruct e as [ws req now | ws ok now | ws ok now | ev];
        rewrite ?Hl, ?Hsub; intros _; unfold heartbeat_issued; cbn;
        rewrite ?Ep, ?Hnode; done.
  - destruct i as [ok | ok1 ok2 | e].
    + unfold resume. rewrite Ep. rewrite begin_heartbeat_listening. done.
    + rewrite Htimer. intros _. unfold heartbeat_issued. by rewrite Ep.
    + unfold enabled. destruct e as [ws req now | ws ok now | ws ok now | ev];
        rewrite ?Hl, ?Hsub; intros _; unfold heartbeat_issued; cbn;
        rewrite ?Ep, ?Hnode; done.
Qed.

Lemma run_quiet (d : Directory.t) (inputs : list Input) :
  quiet config d (run config jwt_verify url_token (initial config d) inputs).
Proof.
  induction inputs as [| i inputs IH] using rev_ind.
  - intros _. done.
  - unfold run. rewrite fold_left_app. cbn [fold_left]. by apply step_quiet.
Qed.

(** X20: nothing happens before the server listens. Whatever events and
    timer ticks reach the process, as long as [server.listen] has not been
    called (the start-up is still connecting or has exited on a failure)
    the node holds no session and has added no user to any set, and the
    directory is as it was found: no heartbeat has written to it. *)
Theorem nothing_before_listen (d : Directory.t) (inputs : list Input) :
  let p := run config jwt_verify url_token (initial config d) inputs in
  listening p = false ->
  node p = Node.initial config /\ redis p = d /\ heartbeatsDone p = 0%nat.
Proof.
  intros p Hl. destruct (run_quiet d inputs Hl) as (_ & _ & _ & ? & ? & ?).
  done.
Qed.

Lemma run_exited (p : Process) (inputs : list Input) :
  pc p = Exited -> run config jwt_verify url_token p inputs = p.
Proof.
  intros Hp. induction inputs as [| i inputs IH] using rev_ind; [done |].
  unfold run in *. rewrite fold_left_app, IH. cbn [fold_left].
  unfold step. by rewrite Hp.
Qed.

(** X21: a failed connection to the event bus ends the process. When
    [producer.connect] or [consumer.connect] rejects, [start] exits, and no
    later event, timer tick or promise changes anything: the process stays
    as it was at the failure. *)
Theorem failed_connect_exits (p : Process) (rest : list Input) :
  pc p = AwaitProducer \/ pc p = AwaitConsumer ->
  run config jwt_verify url_token p (Settled false :: rest) = set_pc p Exited.
Proof.
  intros Hp. unfold run. cbn [fold_left]. fold (run config jwt_verify url_token).
  assert (Hstep : step config jwt_verify url_token p (Settled false) = set_pc p Exited).
  { unfold step, resume. by destruct Hp as [-> | ->]. }
  rewrite Hstep. by apply run_exited.
Qed.

End StartupOrder.

Lemma nothing_before_listen_witness :
  Startup.redis
    (Startup.run Scenario.config Scenario.jwt_verify Scenario.url_token
       (Startup.initial Scenario.config Directory.empty)
       [Startup.Settled true; Startup.NodeEvent Scenario2.u1_connects])
  = Directory.empty.
Proof.
  destruct (nothing_before_listen Scenario.config Scenario.jwt_verify
              Scenario.url_token Directory.empty
              [Startup.Settled true; Startup.NodeEvent Scenario2.u1_connects])
    as (_ & Hredis & _).
  - vm_compute. reflexivity.
  - exact Hredis.
Defined.

Lemma failed_connect_exits_witness :
  Startup.run Scenario.config Scenario.jwt_verify Scenario.url_token
    (Startup.initial Scenario.config Directory.empty)
    [Startup.Settled false; Startup.Settled true;
     Startup.NodeEvent Scenario2.u1_connects]
  = Startup.set_pc (Startup.initial Scenario.config Directory.empty) Startup.Exited.
Proof.
  apply (failed_connect_exits Scenario.config Scenario.jwt_verify Scenario.url_token
           (Startup.initial Scenario.config Directory.empty)).
  left. reflexivity.
Defined.

(** ** Client SDK *)

Section ClientFacts.

Import Client ClientSpec.

Lemma notified_app (s : Status) (e1 e2 : list Effect) :
  notified s (e1 ++ e2) = s' ← notified s e1; notified s' e2.
Proof.
  revert s. induction e1 as [| e e1 IH]; intros s; [done |].
  destruct e; cbn [app notified]; try apply IH.
  destruct (decide _); [apply IH | done].
Qed.

Lemma tracks_and_then (a b : M) : tracks a -> tracks b -> tracks (a >>> b).
Proof.
  intros Ha Hb st. unfold and_then. specialize (Ha st).
  destruct (a st) as [st1 e1]. specialize (Hb st1).
  destruct (b st1) as [st2 e2]. cbn [fst snd] in *.
  by rewrite notified_app, Ha.
Qed.

Lemma tracks_update (f : State -> State) :
  (forall st, status (f st) = status st) -> tracks (update f).
Proof. intros Hf st. cbn. by rewrite Hf. Qed.

Lemma tracks_emit (e : Effect) :
  (forall s p, e <> StatusChange s p) -> tracks (emit e).
Proof. intros He st. destruct e; cbn; try done. by destruct (He status0 previousStatus). Qed.

Lemma tracks_updateStatus (s : Status) : tracks (_updateStatus s).
Proof.
  intros st. unfold _updateStatus. cbn [fst snd].
  destruct (decide (status st = s)) as [-> | Hne]; cbn; [done |].
  rewrite decide_True by (split; congruence). done.
Qed.

Lemma tracks_stopHeartbeat : tracks _stopHeartbeat.
Proof. apply tracks_update. intros st. by destruct (heartbeatTimer st). Qed.

Lemma tracks_startHeartbeat : tracks _startHeartbeat.
Proof.
  apply tracks_and_then; [apply tracks_stopHeartbeat | by apply tracks_update].
Qed.

Lemma tracks_scheduleReconnect : tracks _scheduleReconnect.
Proof. by apply tracks_update. Qed.

Lemma tracks_connect : tracks connect.
Proof.
  intros st. unfold connect. destruct (status st) eqn:E; cbn [fst snd notified];
    [by rewrite E | by rewrite E |].
  rewrite <- E. revert st E.
  change (forall st, status st = disconnected ->
            notified (status st)
              ((_updateStatus connecting >>>
                (fun st => (set_next (set_fetches st (fetches st ∪ {[next st]}))
                                     (S (next st)), [Fetch (next st)]))) st).2
            = Some (status ((_updateStatus connecting >>>
                (fun st => (set_next (set_fetches st (fetches st ∪ {[next st]}))
                                     (S (next st)), [Fetch (next st)]))) st).1)).
  intros st _. apply tracks_and_then; [apply tracks_updateStatus | done].
Qed.

Lemma tracks_connect_resume (instance : option string) :
  tracks (connect_resume instance).
Proof.
  destruct instance; [done |]. unfold connect_resume, _handleError.
  repeat first [apply tracks_and_then | apply tracks_updateStatus
               | apply tracks_scheduleReconnect | by apply tracks_emit].
Qed.

Lemma tracks_onopen : tracks onopen.
Proof.
  apply tracks_and_then; [apply tracks_updateStatus | apply tracks_startHeartbeat].
Qed.

Lemma tracks_onclose : tracks onclose.
Proof.
  unfold onclose.
  repeat first [apply tracks_and_then | apply tracks_updateStatus
               | apply tracks_scheduleReconnect | apply tracks_stopHeartbeat].
Qed.

Lemma tracks_disconnect : tracks disconnect.
Proof.
  unfold disconnect.
  repeat first [apply tracks_and_then | apply tracks_updateStatus
               | apply tracks_stopHeartbeat].
  - apply tracks_update. intros st. by destruct (reconnectTimer st).
  - intros st. destruct (ws st); [| done].
    destruct (readyState st) as [[] |]; done.
Qed.

Lemma tracks_send (message : option string) : tracks (send message).
Proof.
  intros st. unfold send.
  destruct (ws st); [| done]. destruct (readyState st) as [[] |]; try done.
  by destruct message.
Qed.

Lemma tracks_heartbeat : tracks heartbeat.
Proof.
  intros st. unfold heartbeat.
  destruct (ws st); [| done]. by destruct (readyState st) as [[] |].
Qed.

Lemma step_tracks (st : State) (i : Input) :
  notified (status st) (step st i).2 = Some (status (step st i).1).
Proof.
  destruct i as [| | message | id instance | w | w data | w | w | t | t];
    cbn [step].
  - apply tracks_connect.
  - apply tracks_disconnect.
  - apply tracks_send.
  - destruct (decide _); [| done].
    apply (tracks_connect_resume instance (set_fetches st _)).
  - destruct (sockets st !! w) as [[] |]; try done.
    apply (tracks_onopen (set_sockets st _)).
  - destruct (sockets st !! w) as [[] |]; try done. by destruct data.
  - by destruct (sockets st !! w) as [[] |].
  - destruct (sockets st !! w) as [[] |]; try done;
      apply (tracks_onclose (set_sockets st _)).
  - destruct (decide _); [| done].
    apply (tracks_connect (set_reconnect st _ _)).
  - destruct (decide _); [| done]. apply tracks_heartbeat.
Qed.

Lemma client_run_snoc (st : State) (inputs : list Input) (i : Input) :
  run st (inputs ++ [i])
  = ((step (run st inputs).1 i).1, (run st inputs).2 ++ (step (run st inputs).1 i).2).
Proof.
  unfold run. rewrite fold_left_app. cbn [fold_left].
  by destruct (step _ i).
Qed.

(** X22: the status notifications of the client form a chain. Over any
    sequence of calls and events, every call of [onStatusChange] reports a
    new status that differs from the previous one, its previous status
    is the new status of the notification before it (the status at the
    start for the first), and the status of the client at the end is the
    one last notified: no change goes unreported and none is reported
    twice. *)
Theorem status_notifications_chain (st : State) (inputs : list Input) :
  notified (status st) (run st inputs).2 = Some (status (run st inputs).1).
Proof.
  induction inputs as [| i inputs IH] using rev_ind; [done |].
  rewrite client_run_snoc. cbn [fst snd].
  rewrite notified_app, IH. apply step_tracks.
Qed.

Lemma keeps_and_then (P : State -> Prop) (a b : M) :
  keeps P a -> keeps P b -> keeps P (a >>> b).
Proof.
  intros Ha Hb st HP. unfold and_then. specialize (Ha st HP).
  destruct (a st) as [st1 e1]. specialize (Hb st1 Ha).
  by destruct (b st1) as [st2 e2].
Qed.

Lemma tracked_only (armed : gset nat) (held : option nat) (t : nat) :
  (forall t', t' ∈ armed -> held = Some t') -> held = Some t -> armed ⊆ {[t]}.
Proof.
  intros H E t' Hin. apply H in Hin. rewrite E in Hin. set_solver.
Qed.

Lemma tracked_none (armed : gset nat) (held : option nat) :
  (forall t', t' ∈ armed -> held = Some t') -> held = None -> armed = ∅.
Proof.
  intros H E. apply set_eq. intros t'. split; [| set_solver].
  intros Hin. apply H in Hin. congruence.
Qed.

Lemma timers_emit (e : Effect) : keeps timers_tracked (emit e).
Proof. by intros st. Qed.

Lemma timers_updateStatus (s : Status) : keeps timers_tracked (_updateStatus s).
Proof. by intros st. Qed.

Lemma timers_stopHeartbeat : keeps timers_tracked _stopHeartbeat.
Proof.
  intros st H. cbn. destruct (heartbeatTimer st) as [t |] eqn:E; [| exact H].
  destruct H as [Ht Hi]. split; [exact Ht |]. cbn. intros t' Hin.
  pose proof (tracked_only _ _ _ Hi E). set_solver.
Qed.

Lemma timers_startHeartbeat : keeps timers_tracked _startHeartbeat.
Proof.
  intros st [Ht Hi]. unfold _startHeartbeat, and_then, _stopHeartbeat, update.
  destruct (heartbeatTimer st) as [t |] eqn:E in |- *; (split; [exact Ht |]); cbn;
    intros t' Hin.
  - pose proof (tracked_only _ _ _ Hi E). f_equal. set_solver.
  - pose proof (tracked_none _ _ Hi E). f_equal. set_solver.
Qed.

Lemma timers_scheduleReconnect : keeps timers_tracked _scheduleReconnect.
Proof.
  intros st [Ht Hi]. unfold _scheduleReconnect, update.
  split; [| exact Hi]. cbn. intros t'.
  destruct (reconnectTimer st) as [t |] eqn:E in |- *; intros Hin.
  - pose proof (tracked_only _ _ _ Ht E). f_equal. set_solver.
  - pose proof (tracked_none _ _ Ht E). f_equal. set_solver.
Qed.

Lemma timers_connect : keeps timers_tracked connect.
Proof. intros st H. unfold connect. by destruct (status st). Qed.

Lemma timers_connect_resume (instance : option string) :
  keeps timers_tracked (connect_resume instance).
Proof.
  destruct instance; [by intros st |]. unfold connect_resume, _handleError.
  repeat first [apply keeps_and_then | apply timers_updateStatus
               | apply timers_scheduleReconnect | apply timers_emit].
Qed.

Lemma timers_onopen : keeps timers_tracked onopen.
Proof.
  apply keeps_and_then; [apply timers_updateStatus | apply timers_startHeartbeat].
Qed.

Lemma timers_onclose : keeps timers_tracked onclose.
Proof.
  unfold onclose.
  repeat first [apply keeps_and_then | apply timers_updateStatus
               | apply timers_scheduleReconnect | apply timers_stopHeartbeat].
Qed.

Lemma timers_disconnect : keeps timers_tracked disconnect.
Proof.
  unfold disconnect.
  repeat first [apply keeps_and_then | apply timers_updateStatus
               | apply timers_stopHeartbeat].
  - intros st H. cbn. destruct (reconnectTimer st) as [t |] eqn:E; [| exact H].
    destruct H as [Ht Hi]. split; [| exact Hi]. cbn. intros t' Hin.
    pose proof (tracked_only _ _ _ Ht E). set_solver.
  - intros st H. destruct (ws st); [| done].
    by destruct (readyState st) as [[] |].
Qed.

Lemma timers_send (message : option string) : keeps timers_tracked (send message).
Proof.
  intros st H. unfold send.
  destruct (ws st); [| done]. destruct (readyState st) as [[] |]; try done.
  by destruct message.
Qed.

Lemma timers_heartbeat : keeps timers_tracked heartbeat.
Proof.
  intros st H. unfold heartbeat.
  destruct (ws st); [| done]. by destruct (readyState st) as [[] |].
Qed.

Lemma step_timers (st : State) (i : Input) :
  timers_tracked st -> timers_tracked (step st i).1.
Proof.
  intros H.
  destruct i as [| | message | id instance | w | w data | w | w | t | t];
    cbn [step].
  - by apply timers_connect.
  - by apply timers_disconnect.
  - by apply timers_send.
  - destruct (decide _); [| done]. by apply timers_connect_resume.
  - destruct (sockets st !! w) as [[] |]; try done. by apply timers_onopen.
  - destruct (sockets st !! w) as [[] |]; try done. by destruct data.
  - by destruct (sockets st !! w) as [[] |].
  - destruct (sockets st !! w) as [[] |]; try done; by apply timers_onclose.
  - destruct (decide _); [| done]. apply timers_connect.
    destruct H as [Ht Hi]. split; [| exact Hi]. cbn. intros t' Hin.
    apply Ht. set_solver.
  - destruct (decide _); [| done]. by apply timers_heartbeat.
Qed.

(** X23: the client never has two timers of a kind. Over any sequence of
    calls and events, a reconnection time-out that can still fire is the
    one held in [reconnectTimer], and a heartbeat interval that is still
    active is the one held in [heartbeatTimer]: every timer the client
    replaces or drops has been cleared, so at most one time-out and one
    interval are alive. *)
Theorem timers_never_pile_up (inputs : list Input) :
  let st := (run initial inputs).1 in
  timers_tracked st /\ (size (timeouts st) <= 1)%nat /\ (size (intervals st) <= 1)%nat.
Proof.
  intros st.
  assert (H : timers_tracked st).
  { unfold st. induction inputs as [| i inputs IH] using rev_ind.
    - split; intros t Hin; by apply elem_of_empty in Hin.
    - rewrite client_run_snoc. by apply step_timers. }
  split; [exact H |]. destruct H as [Ht Hi]. split.
  - destruct (reconnectTimer st) as [t |] eqn:E in |- *.
    + pose proof (tracked_only _ _ _ Ht E) as Hsub.
      apply subseteq_size in Hsub. by rewrite size_singleton in Hsub.
    + rewrite (tracked_none _ _ Ht E). rewrite size_empty; lia.
  - destruct (heartbeatTimer st) as [t |] eqn:E in |- *.
    + pose proof (tracked_only _ _ _ Hi E) as Hsub.
      apply subseteq_size in Hsub. by rewrite size_singleton in Hsub.
    + rewrite (tracked_none _ _ Hi E). rewrite size_empty; lia.
Qed.

(** X24: a second call of [connect] does nothing. Whatever the state,
    after [connect] has run the client is connecting or connected, so
    calling [connect] again starts no request and notifies nobody. *)
Theorem connect_twice (st : State) :
  let st1 := (step st CallConnect).1 in
  status st1 <> disconnected /\ step st1 CallConnect = (st1, []).
Proof.
  cbn [step]. unfold connect.
  destruct (status st) eqn:E; cbn; rewrite ?E; done.
Qed.

(** X25: [disconnect] does not stop the reconnection of an open
    connection. When the client is connected over an open socket,
    [disconnect] closes the socket, forgets it and clears the timers; the
    close event of that socket then runs the [onclose] handler, which
    arms a new reconnection time-out, and when it fires the client is
    connecting again and asks the coordinator for an instance. *)
Theorem disconnect_then_close_reconnects (st : State) (w : nat) :
  ws st = Some w ->
  sockets st !! w = Some OPEN ->
  timers_tracked st ->
  let st1 := (step st CallDisconnect).1 in
  let st2 := (step st1 (SocketClose w)).1 in
  let t := next st in
  (ws st1 = None /\ status st1 = disconnected /\
   timeouts st1 = ∅ /\ intervals st1 = ∅ /\
   sockets st1 !! w = Some CLOSING) /\
  timeouts st2 = {[t]} /\
  exists st3,
    step st2 (ReconnectFires t)
    = (st3, [StatusChange connecting disconnected; Fetch (S t)]) /\
    status st3 = connecting.
Proof.
  intros Hws Hopen [Ht Hi].
  assert (H1 : exists st1, (step st CallDisconnect).1 = st1 /\
                 ws st1 = None /\ status st1 = disconnected /\
                 timeouts st1 = ∅ /\ intervals st1 = ∅ /\
                 sockets st1 !! w = Some CLOSING /\
                 reconnectTimer st1 = None /\ heartbeatTimer st1 = None /\
                 next st1 = next st).
  { eexists. split; [reflexivity |].
    cbn [step]. unfold disconnect, and_then, update, _stopHeartbeat, _updateStatus,
      readyState.
    destruct (reconnectTimer st) as [rt |] eqn:Er in |- *;
      destruct (heartbeatTimer st) as [ht |] eqn:Eh in |- *;
      repeat (progress (cbn; rewrite ?Eh, ?Hws, ?Hopen));
      rewrite ?lookup_insert_eq.
    all: try pose proof (tracked_only _ _ _ Ht Er) as Hts.
    all: try pose proof (tracked_none _ _ Ht Er) as Hts.
    all: try pose proof (tracked_only _ _ _ Hi Eh) as His.
    all: try pose proof (tracked_none _ _ Hi Eh) as His.
    all: repeat split; try done; set_solver. }
  destruct H1 as (st1 & -> & Hw1 & Hs1 & Ht1 & Hi1 & Hsock1 & Hr1 & Hh1 & Hn1).
  cbn zeta. split; [done |].
  assert (H2 : exists st2, (step st1 (SocketClose w)).1 = st2 /\
                 status st2 = disconnected /\ timeouts st2 = {[next st]} /\
                 next st2 = S (next st)).
  { eexists. split; [reflexivity |].
    cbn [step]. rewrite Hsock1.
    unfold onclose, and_then, update, _stopHeartbeat, _updateStatus,
      _scheduleReconnect. cbn. rewrite Hh1. cbn. rewrite Hr1, Ht1, Hn1.
    repeat split; try done. set_solver. }
  destruct H2 as (st2 & -> & Hs2 & Ht2 & Hn2).
  split; [done |].
  assert (H3 : step st2 (ReconnectFires (next st))
               = (set_next
                    (set_fetches
                       (set_status
                          (set_reconnect st2 (reconnectTimer st2)
                                         (timeouts st2 ∖ {[next st]}))
                          connecting)
                       (fetches st2 ∪ {[S (next st)]}))
                    (S (S (next st))),
                  [StatusChange connecting disconnected; Fetch (S (next st))])).
  { cbn [step]. rewrite decide_True by (rewrite Ht2; set_solver).
    unfold connect. cbn. rewrite Hs2.
    unfold and_then, _updateStatus. cbn. by rewrite ?Hs2, ?Hn2. }
  eexists. split; [exact H3 | done].
Qed.

End ClientFacts.

Lemma disconnect_then_close_reconnects_witness :
  Client.timeouts
    (Client.step (Client.step (ClientSpec.connected_over 1) Client.CallDisconnect).1
                 (Client.SocketClose 1)).1
  = {[ 3%nat ]}.
Proof.
  destruct (disconnect_then_close_reconnects (ClientSpec.connected_over 1) 1)
    as (_ & Harmed & _).
  - reflexivity.
  - vm_compute. reflexivity.
  - split; intros t Hin.
    + by apply elem_of_empty in Hin.
    + cbn in Hin. apply elem_of_singleton in Hin. by rewrite Hin.
  - exact Harmed.
Defined.

